(** * Device-cloud packets of digi.xbee.packets.devicecloud

    A shallow embedding of the six packet classes of
    [digi/xbee/packets/devicecloud.py] (DeviceRequestPacket,
    DeviceResponsePacket, DeviceResponseStatusPacket, FrameErrorPacket,
    SendDataRequestPacket, SendDataResponsePacket) and the properties the
    specification states about them.

    Conventions of the embedding
    - a [bytearray] is a [list byte]; [raw[i]] is list lookup and raises
      [IndexError] out of range, [raw[a:b]] is [slice] and never raises;
    - a Python [str] is the list of its code points, so that [len] counts
      code points and [utf8_encode] / [utf8_decode] give the byte form;
    - a Python [int] is a [Z];
    - a raised exception is [Raise e] in the [result] monad;
    - a setter returns its outcome together with the object after the call. *)

From Stdlib Require Import ZArith NArith Lia.
From Stdlib.Strings Require Import Byte.
From stdpp Require Import base decidable option list.

Local Open Scope Z_scope.

(** ** Bytes, integers and slices *)

Abbreviation bytes := (list byte).
Abbreviation str := (list N).

#[global] Instance byte_eq_decision : EqDecision byte := Byte.byte_eq_dec.

Definition byte_to_nat (b : byte) : nat := N.to_nat (Byte.to_N b).
Definition byte_to_Z (b : byte) : Z := Z.of_N (Byte.to_N b).
Definition byte_of_N (n : N) : byte := default x00 (Byte.of_N n).

(** [l[a:b]] for non-negative [a] and [b]: the elements at the positions
    [a <= i < min b (len l)]; empty when there is none. *)
Definition slice {A} (l : list A) (a b : nat) : list A :=
  take (b - a)%nat (drop a l).

(** [l[a:-1]]: from position [a] up to, and without, the last element. *)
Definition slice_to_last {A} (l : list A) (a : nat) : list A :=
  slice l a (length l - 1)%nat.

(** ** Exceptions *)

Inductive ApiFrameType :=
  | DEVICE_REQUEST
  | DEVICE_RESPONSE
  | DEVICE_RESPONSE_STATUS
  | FRAME_ERROR
  | SEND_DATA_REQUEST
  | SEND_DATA_RESPONSE.

(** Modelled from the spec: [OperatingMode] of [digi/xbee/models/mode.py],
    which is not part of the sources at hand.  The two modes named by
    [create_packet] are constructors; [OTHER_MODE] stands for every other
    member of the enumeration. *)
Inductive OperatingMode :=
  | API_MODE
  | ESCAPED_API_MODE
  | OTHER_MODE (code : Z).

(** The reasons [InvalidPacketException] is raised for.  The first four are
    the checks of [XBeeAPIPacket._check_api_packet]; [NOT_A_PACKET_OF ft] is
    the message "This packet is not a ... packet." of the six
    [create_packet] methods. *)
Inductive InvalidPacketReason :=
  | TOO_SHORT
  | NO_HEADER_BYTE
  | LENGTH_FIELD_MISMATCH
  | WRONG_CHECKSUM
  | NOT_A_PACKET_OF (ft : ApiFrameType).

(** The messages of the [ValueError]s of the constructors and setters. *)
Inductive ValueErrorReason :=
  | FRAME_ID_RANGE      (* "Frame id must be between 0 and 255." *)
  | REQUEST_ID_RANGE    (* "Device request ID must be between 0 and 255." *)
  | TARGET_LENGTH.      (* "Target length cannot exceed 255 bytes." *)

Inductive exn :=
  | InvalidOperatingModeException (op_mode : OperatingMode)
  | InvalidPacketException (why : InvalidPacketReason)
  | ValueError (why : ValueErrorReason)
  | IndexError
  | UnicodeDecodeError
  | UnicodeEncodeError.

Inductive result (A : Type) :=
  | Ok (a : A)
  | Raise (e : exn).
Arguments Ok {A} a.
Arguments Raise {A} e.

#[global] Instance result_ret : MRet result := @Ok.
#[global] Instance result_bind : MBind result := fun A B f m =>
  match m with
  | Ok a => f a
  | Raise e => Raise e
  end.
#[global] Instance result_fmap : FMap result := fun A B f m =>
  match m with
  | Ok a => Ok (f a)
  | Raise e => Raise e
  end.

(** [raw[i]] for [0 <= i]. *)
Definition index (raw : bytes) (i : nat) : result byte :=
  match raw !! i with
  | Some b => Ok b
  | None => Raise IndexError
  end.

(** [raw[-1]]. *)
Definition index_last (raw : bytes) : result byte :=
  match last raw with
  | Some b => Ok b
  | None => Raise IndexError
  end.

(** ** UTF-8, as [bytearray(s, encoding="utf8")] and [b.decode("utf8")] *)

Definition cont (n : N) : N := N.lor 128 (N.land n 63).

(** The bytes of one code point; [None] for a surrogate, which the strict
    encoder refuses, and for a value that is no code point. *)
Definition utf8_encode_char (c : N) : option bytes :=
  if decide (c < 128)%N then Some [byte_of_N c]
  else if decide (c < 2048)%N then
    Some [byte_of_N (N.lor 192 (N.shiftr c 6)); byte_of_N (cont c)]
  else if decide (55296 <= c <= 57343)%N then None
  else if decide (c < 65536)%N then
    Some [byte_of_N (N.lor 224 (N.shiftr c 12));
          byte_of_N (cont (N.shiftr c 6)); byte_of_N (cont c)]
  else if decide (c < 1114112)%N then
    Some [byte_of_N (N.lor 240 (N.shiftr c 18));
          byte_of_N (cont (N.shiftr c 12));
          byte_of_N (cont (N.shiftr c 6)); byte_of_N (cont c)]
  else None.

Fixpoint utf8_encode (s : str) : result bytes :=
  match s with
  | [] => Ok []
  | c :: s' =>
      match utf8_encode_char c with
      | Some bs => rest ← utf8_encode s'; Ok (bs ++ rest)
      | None => Raise UnicodeEncodeError
      end
  end.

Definition is_cont (b : byte) : bool :=
  bool_decide (128 <= Byte.to_N b <= 191)%N.

Definition low6 (b : byte) : N := N.land (Byte.to_N b) 63.

(** The strict decoder: shortest forms only, no surrogates, nothing above
    U+10FFFF. *)
Fixpoint utf8_decode_opt (bs : bytes) : option str :=
  match bs with
  | [] => Some []
  | b0 :: r0 =>
      let n0 := Byte.to_N b0 in
      if decide (n0 < 128)%N then cons n0 <$> utf8_decode_opt r0
      else if decide (194 <= n0 <= 223)%N then
        match r0 with
        | b1 :: r1 =>
            if is_cont b1
            then cons (N.lor (N.shiftl (N.land n0 31) 6) (low6 b1))
                   <$> utf8_decode_opt r1
            else None
        | _ => None
        end
      else if decide (224 <= n0 <= 239)%N then
        match r0 with
        | b1 :: b2 :: r2 =>
            let n1 := Byte.to_N b1 in
            if is_cont b1 && is_cont b2
               && bool_decide (n0 = 224 -> 160 <= n1)%N
               && bool_decide (n0 = 237 -> n1 <= 159)%N
            then cons (N.lor (N.shiftl (N.land n0 15) 12)
                         (N.lor (N.shiftl (low6 b1) 6) (low6 b2)))
                   <$> utf8_decode_opt r2
            else None
        | _ => None
        end
      else if decide (240 <= n0 <= 244)%N then
        match r0 with
        | b1 :: b2 :: b3 :: r3 =>
            let n1 := Byte.to_N b1 in
            if is_cont b1 && is_cont b2 && is_cont b3
               && bool_decide (n0 = 240 -> 144 <= n1)%N
               && bool_decide (n0 = 244 -> n1 <= 143)%N
            then cons (N.lor (N.shiftl (N.land n0 7) 18)
                         (N.lor (N.shiftl (low6 b1) 12)
                            (N.lor (N.shiftl (low6 b2) 6) (low6 b3))))
                   <$> utf8_decode_opt r3
            else None
        | _ => None
        end
      else None
  end.

Definition utf8_decode (bs : bytes) : result str :=
  match utf8_decode_opt bs with
  | Some s => Ok s
  | None => Raise UnicodeDecodeError
  end.

(** A string of ASCII characters: its UTF-8 form has one byte per
    character. *)
Definition is_ascii (s : str) : Prop := Forall (fun c => (c < 128)%N) s.

(** ** What the packet classes import

    [devicecloud.py] uses constants, code tables and helpers of modules that
    are not part of the sources at hand.  They are the fields of one class;
    every definition and theorem below holds for each instance of it. *)
Class Externals := {
  (** [SpecialByte.HEADER_BYTE.code], the start delimiter of a frame *)
  HEADER_BYTE : byte;
  (** [ApiFrameType.X.code], the one-byte code of a frame type *)
  aft_code : ApiFrameType -> byte;
  (** [utils.length_to_int], the value of the length field [raw[1:3]] *)
  length_to_int : bytes -> nat;
  (** the checksum calculated over the frame data [raw[3:-1]] *)
  checksum : bytes -> byte;
  (** [utils.int_to_bytes(number, num_bytes)] *)
  int_to_bytes : Z -> nat -> bytes;
  (** [DeviceCloudStatus], with [DeviceCloudStatus.get] and [.code] *)
  DeviceCloudStatus : Type;
  DeviceCloudStatus_get : byte -> DeviceCloudStatus;
  DeviceCloudStatus_code : DeviceCloudStatus -> Z;
  (** [FrameError], with [FrameError.get] and [.code] *)
  FrameError : Type;
  FrameError_get : byte -> FrameError;
  FrameError_code : FrameError -> Z;
  (** [SendDataRequestOptions], with [SendDataRequestOptions.get] and
      [.code] *)
  SendDataRequestOptions : Type;
  SendDataRequestOptions_get : byte -> SendDataRequestOptions;
  SendDataRequestOptions_code : SendDataRequestOptions -> Z;
}.

(** The one property of [utils.int_to_bytes] the encoders rely on: a value
    that fits one byte is written as that byte. *)
Definition int_to_bytes_one_byte `{Externals} : Prop :=
  forall b : byte, int_to_bytes (byte_to_Z b) 1 = [b].

Section Base.
Context `{Externals}.

(** Modelled from the spec: [XBeeAPIPacket._check_api_packet] of
    [digi/xbee/packets/base.py], which is not part of the sources at hand.
    The spec (section 2) has the envelope verify "minimum length, start
    marker, declared-length-vs-actual-length consistency, and checksum";
    the docstrings of the [create_packet] methods list the same four
    [InvalidPacketException]s: the bytearray is shorter than [min_length],
    the first byte is not the header byte, the length field (bytes 2 and
    3) differs from the real length, the calculated checksum differs from
    the last byte. *)
Definition _check_api_packet (raw : bytes) (min_length : nat) : result unit :=
  if decide (length raw < min_length)%nat
  then Raise (InvalidPacketException TOO_SHORT)
  else
    b0 ← index raw 0;
    if decide (b0 ≠ HEADER_BYTE)
    then Raise (InvalidPacketException NO_HEADER_BYTE)
    else if decide (length (slice_to_last raw 3) ≠ length_to_int (slice raw 1 3))
    then Raise (InvalidPacketException LENGTH_FIELD_MISMATCH)
    else
      ck ← index_last raw;
      if decide (checksum (slice_to_last raw 3) ≠ ck)
      then Raise (InvalidPacketException WRONG_CHECKSUM)
      else Ok ().

(** Modelled from the spec: [XBeeAPIPacket.get_frame_spec_data] of
    [digi/xbee/packets/base.py], the body of a frame: by the layouts of
    section 6 the frame type, then the frame id for the kinds that need
    one ([needs_id]), then the data of [_get_api_packet_spec_data].  The
    frame id is read only when [needs_id] holds. *)
Definition get_frame_spec_data (ft : ApiFrameType) (needs_id : bool)
    (frame_id : Z) (spec_data : bytes) : bytes :=
  aft_code ft ::
  (if needs_id then int_to_bytes frame_id 1 else []) ++ spec_data.

(** The test every [create_packet] starts with:
    [operating_mode not in (ESCAPED_API_MODE, API_MODE)]. *)
Definition check_operating_mode (operating_mode : OperatingMode) : result unit :=
  match operating_mode with
  | ESCAPED_API_MODE | API_MODE => Ok ()
  | _ => Raise (InvalidOperatingModeException operating_mode)
  end.

(** [raw[3] != ApiFrameType.X.code] and its exception. *)
Definition check_frame_type (raw : bytes) (ft : ApiFrameType) : result unit :=
  b3 ← index raw 3;
  if decide (b3 ≠ aft_code ft)
  then Raise (InvalidPacketException (NOT_A_PACKET_OF ft))
  else Ok ().

(** Modelled from the spec: the [frame_id] setter of [XBeeAPIPacket]
    ([digi/xbee/packets/base.py]).  By section 4.6 a write re-validates
    the range and leaves the packet unchanged when validation fails; the
    range of [frame_id] is 0-255 (section 3).  The result is the outcome
    and the new value of the attribute [_frame_id]. *)
Definition frame_id_setter (frame_id : Z) (_frame_id : Z) : result unit * Z :=
  if decide (frame_id < 0 ∨ frame_id > 255)
  then (Raise (ValueError FRAME_ID_RANGE), _frame_id)
  else (Ok (), frame_id).
End Base.

(** ** Bytearray objects

    A bytearray is a mutable object: a packet attribute holds a reference to
    it.  The store maps a reference to the current content of its object;
    [copy] is [bytearray.copy()], which makes a new object.  A reference
    that is not in the store does not occur in a run; [copy] answers [None]
    for it. *)

Abbreviation ref := nat (only parsing).
Abbreviation store := (list (list byte)) (only parsing).

Definition alloc (σ : store) (v : bytes) : ref * store := (length σ, σ ++ [v]).

Definition copy (σ : store) (r : ref) : option (ref * store) :=
  v ← σ !! r; Some (alloc σ v).

(** An in-place write through the reference [r], as [buf[i] = x] or
    [buf.extend(...)]: the object at [r] now holds [v]. *)
Definition mutate (σ : store) (r : ref) (v : bytes) : store := <[r := v]> σ.

(** The property getter of a bytearray attribute:
    [if self.__x is None: return None] / [return self.__x.copy()]. *)
Definition bytearray_getter (attr : option ref) (σ : store)
    : option (option ref * store) :=
  match attr with
  | None => Some (None, σ)
  | Some r => '(r', σ') ← copy σ r; Some (Some r', σ')
  end.

(** The property setter of a bytearray attribute, giving the new value of
    the attribute: [None] for [None], else [value.copy()]. *)
Definition bytearray_setter (value : option ref) (σ : store)
    : option (option ref * store) :=
  match value with
  | None => Some (None, σ)
  | Some r => '(r', σ') ← copy σ r; Some (Some r', σ')
  end.

(** ** DeviceRequestPacket *)

Module DeviceRequestPacket.
(** The attributes of an object; [B] is what a bytearray attribute holds:
    [bytes] where only contents matter, [ref] where identity does. *)
Record t {B : Type} := mk {
  op_mode : OperatingMode;
  req_id : Z;
  transport : Z;
  flags : Z;
  target : option str;
  req_data : option B;
}.
Arguments t : clear implicits.

Definition __MIN_PACKET_LENGTH : nat := 9.

Definition needs_id : bool := false.

(** [target is not None and len(target) > 255] *)
Definition is_not_None_and_len_gt_255 (target : option str) : bool :=
  match target with
  | Some s => bool_decide (255 < length s)%nat
  | None => false
  end.

Definition __init__ {B} (request_id : Z) (target : option str)
    (request_data : option B) (op_mode : OperatingMode) : result (t B) :=
  if decide (request_id < 0 ∨ request_id > 255)
  then Raise (ValueError REQUEST_ID_RANGE)
  else if is_not_None_and_len_gt_255 target
  then Raise (ValueError TARGET_LENGTH)
  else Ok {| op_mode := op_mode; req_id := request_id;
             transport := 0; flags := 0;
             target := target; req_data := request_data |}.

Definition request_id_setter {B} (request_id : Z) (self : t B)
    : result unit * t B :=
  if decide (request_id < 0 ∨ request_id > 255)
  then (Raise (ValueError REQUEST_ID_RANGE), self)
  else (Ok (), {| op_mode := op_mode self; req_id := request_id;
                  transport := transport self; flags := flags self;
                  target := target self; req_data := req_data self |}).

Definition target_setter {B} (target' : option str) (self : t B)
    : result unit * t B :=
  if is_not_None_and_len_gt_255 target'
  then (Raise (ValueError TARGET_LENGTH), self)
  else (Ok (), {| op_mode := op_mode self; req_id := req_id self;
                  transport := transport self; flags := flags self;
                  target := target'; req_data := req_data self |}).

Definition request_data_getter (self : t ref) (σ : store)
    : option (option ref * store) :=
  bytearray_getter (req_data self) σ.

Definition request_data_setter (request_data : option ref) (self : t ref)
    (σ : store) : option (t ref * store) :=
  '(a, σ') ← bytearray_setter request_data σ;
  Some ({| op_mode := op_mode self; req_id := req_id self;
           transport := transport self; flags := flags self;
           target := target self; req_data := a |}, σ').

Section Codec.
Context `{Externals}.

Definition create_packet (raw : bytes) (operating_mode : OperatingMode)
    : result (t bytes) :=
  _ ← check_operating_mode operating_mode;
  _ ← _check_api_packet raw __MIN_PACKET_LENGTH;
  _ ← check_frame_type raw DEVICE_REQUEST;
  target_length ← byte_to_nat <$> index raw 7;
  request_id ← index raw 4;
  target ← utf8_decode (slice raw 8 (8 + target_length));
  let request_data :=
    if decide (__MIN_PACKET_LENGTH < length raw)%nat
    then Some (slice_to_last raw (8 + target_length))
    else None in
  __init__ (byte_to_Z request_id) (Some target) request_data operating_mode.

Definition _get_api_packet_spec_data (self : t bytes) : result bytes :=
  let ret := int_to_bytes (req_id self) 1 in
  let ret := ret ++ int_to_bytes (transport self) 1 in
  let ret := ret ++ int_to_bytes (flags self) 1 in
  ret ← match target self with
        | Some s =>
            let ret := ret ++ int_to_bytes (Z.of_nat (length s)) 1 in
            bs ← utf8_encode s; Ok (ret ++ bs)
        | None => Ok (ret ++ int_to_bytes 0 1)
        end;
  match req_data self with
  | Some d => Ok (ret ++ d)
  | None => Ok ret
  end.

(** The frame data of the packet: [get_frame_spec_data] of the base
    class at this class, which needs no frame id. *)
Definition frame_spec_data (self : t bytes) : result bytes :=
  get_frame_spec_data DEVICE_REQUEST needs_id 0 <$> _get_api_packet_spec_data self.
End Codec.
End DeviceRequestPacket.

(** ** DeviceResponsePacket *)

Module DeviceResponsePacket.
Record t {B : Type} := mk {
  op_mode : OperatingMode;
  _frame_id : Z;
  req_id : Z;
  resp_data : option B;
}.
Arguments t : clear implicits.

Definition __MIN_PACKET_LENGTH : nat := 8.

Definition needs_id : bool := true.

Definition __init__ {B} (frame_id request_id : Z) (response_data : option B)
    (op_mode : OperatingMode) : result (t B) :=
  if decide (frame_id < 0 ∨ frame_id > 255)
  then Raise (ValueError FRAME_ID_RANGE)
  else if decide (request_id < 0 ∨ request_id > 255)
  then Raise (ValueError REQUEST_ID_RANGE)
  else Ok {| op_mode := op_mode; _frame_id := frame_id;
             req_id := request_id; resp_data := response_data |}.

Definition request_id_setter {B} (request_id : Z) (self : t B)
    : result unit * t B :=
  if decide (request_id < 0 ∨ request_id > 255)
  then (Raise (ValueError REQUEST_ID_RANGE), self)
  else (Ok (), {| op_mode := op_mode self; _frame_id := _frame_id self;
                  req_id := request_id; resp_data := resp_data self |}).

Definition request_data_getter (self : t ref) (σ : store)
    : option (option ref * store) :=
  bytearray_getter (resp_data self) σ.

Definition request_data_setter (response_data : option ref) (self : t ref)
    (σ : store) : option (t ref * store) :=
  '(a, σ') ← bytearray_setter response_data σ;
  Some ({| op_mode := op_mode self; _frame_id := _frame_id self;
           req_id := req_id self; resp_data := a |}, σ').

Section Codec.
Context `{Externals}.

(** The inherited [frame_id] setter. *)
Definition frame_id_set {B} (frame_id : Z) (self : t B) : result unit * t B :=
  let '(r, id) := frame_id_setter frame_id (_frame_id self) in
  (r, {| op_mode := op_mode self; _frame_id := id;
         req_id := req_id self; resp_data := resp_data self |}).

Definition create_packet (raw : bytes) (operating_mode : OperatingMode)
    : result (t bytes) :=
  _ ← check_operating_mode operating_mode;
  _ ← _check_api_packet raw __MIN_PACKET_LENGTH;
  _ ← check_frame_type raw DEVICE_RESPONSE;
  frame_id ← index raw 4;
  request_id ← index raw 5;
  let response_data :=
    if decide (__MIN_PACKET_LENGTH < length raw)%nat
    then Some (slice_to_last raw 7)
    else None in
  __init__ (byte_to_Z frame_id) (byte_to_Z request_id) response_data
    operating_mode.

Definition _get_api_packet_spec_data (self : t bytes) : result bytes :=
  let ret := int_to_bytes (req_id self) 1 in
  let ret := ret ++ int_to_bytes 0 1 in
  match resp_data self with
  | Some d => Ok (ret ++ d)
  | None => Ok ret
  end.

Definition frame_spec_data (self : t bytes) : result bytes :=
  get_frame_spec_data DEVICE_RESPONSE needs_id (_frame_id self)
    <$> _get_api_packet_spec_data self.
End Codec.
End DeviceResponsePacket.

(** ** DeviceResponseStatusPacket *)

Module DeviceResponseStatusPacket.
Section Class.
Context `{Externals}.

Record t := mk {
  op_mode : OperatingMode;
  _frame_id : Z;
  status : DeviceCloudStatus;
}.

Definition __MIN_PACKET_LENGTH : nat := 7.

Definition needs_id : bool := true.

Definition __init__ (frame_id : Z) (status : DeviceCloudStatus)
    (op_mode : OperatingMode) : result t :=
  if decide (frame_id < 0 ∨ frame_id > 255)
  then Raise (ValueError FRAME_ID_RANGE)
  else Ok {| op_mode := op_mode; _frame_id := frame_id; status := status |}.

Definition status_setter (status' : DeviceCloudStatus) (self : t)
    : result unit * t :=
  (Ok (), {| op_mode := op_mode self; _frame_id := _frame_id self;
             status := status' |}).

Definition frame_id_set (frame_id : Z) (self : t) : result unit * t :=
  let '(r, id) := frame_id_setter frame_id (_frame_id self) in
  (r, {| op_mode := op_mode self; _frame_id := id; status := status self |}).

Definition create_packet (raw : bytes) (operating_mode : OperatingMode)
    : result t :=
  _ ← check_operating_mode operating_mode;
  _ ← _check_api_packet raw __MIN_PACKET_LENGTH;
  _ ← check_frame_type raw DEVICE_RESPONSE_STATUS;
  frame_id ← index raw 4;
  code ← index raw 5;
  __init__ (byte_to_Z frame_id) (DeviceCloudStatus_get code) operating_mode.

Definition _get_api_packet_spec_data (self : t) : result bytes :=
  Ok (int_to_bytes (DeviceCloudStatus_code (status self)) 1).

Definition frame_spec_data (self : t) : result bytes :=
  get_frame_spec_data DEVICE_RESPONSE_STATUS needs_id (_frame_id self)
    <$> _get_api_packet_spec_data self.
End Class.
End DeviceResponseStatusPacket.

(** ** FrameErrorPacket *)

Module FrameErrorPacket.
Section Class.
Context `{Externals}.

Record t := mk {
  op_mode : OperatingMode;
  frame_error : FrameError;
}.

Definition __MIN_PACKET_LENGTH : nat := 6.

Definition needs_id : bool := false.

Definition __init__ (frame_error : FrameError) (op_mode : OperatingMode)
    : result t :=
  Ok {| op_mode := op_mode; frame_error := frame_error |}.

Definition error_setter (frame_error' : FrameError) (self : t)
    : result unit * t :=
  (Ok (), {| op_mode := op_mode self; frame_error := frame_error' |}).

Definition create_packet (raw : bytes) (operating_mode : OperatingMode)
    : result t :=
  _ ← check_operating_mode operating_mode;
  _ ← _check_api_packet raw __MIN_PACKET_LENGTH;
  _ ← check_frame_type raw FRAME_ERROR;
  code ← index raw 4;
  __init__ (FrameError_get code) operating_mode.

Definition _get_api_packet_spec_data (self : t) : result bytes :=
  Ok (int_to_bytes (FrameError_code (frame_error self)) 1).

Definition frame_spec_data (self : t) : result bytes :=
  get_frame_spec_data FRAME_ERROR needs_id 0 <$> _get_api_packet_spec_data self.
End Class.
End FrameErrorPacket.

(** ** SendDataRequestPacket *)

Module SendDataRequestPacket.
Section Class.
Context `{Externals}.

Record t {B : Type} := mk {
  op_mode : OperatingMode;
  _frame_id : Z;
  path : option str;
  content_type : option str;
  transport : Z;
  opts : SendDataRequestOptions;
  file_data : option B;
}.
Arguments t : clear implicits.

Definition __MIN_PACKET_LENGTH : nat := 10.

Definition needs_id : bool := true.

Definition __init__ {B} (frame_id : Z) (path content_type : option str)
    (options : SendDataRequestOptions) (file_data : option B)
    (op_mode : OperatingMode) : result (t B) :=
  if decide (frame_id < 0 ∨ frame_id > 255)
  then Raise (ValueError FRAME_ID_RANGE)
  else Ok {| op_mode := op_mode; _frame_id := frame_id; path := path;
             content_type := content_type; transport := 0;
             opts := options; file_data := file_data |}.

Definition frame_id_set {B} (frame_id : Z) (self : t B) : result unit * t B :=
  let '(r, id) := frame_id_setter frame_id (_frame_id self) in
  (r, {| op_mode := op_mode self; _frame_id := id; path := path self;
         content_type := content_type self; transport := transport self;
         opts := opts self; file_data := file_data self |}).

Definition path_setter {B} (path' : option str) (self : t B)
    : result unit * t B :=
  (Ok (), {| op_mode := op_mode self; _frame_id := _frame_id self;
             path := path'; content_type := content_type self;
             transport := transport self; opts := opts self;
             file_data := file_data self |}).

Definition content_type_setter {B} (content_type' : option str) (self : t B)
    : result unit * t B :=
  (Ok (), {| op_mode := op_mode self; _frame_id := _frame_id self;
             path := path self; content_type := content_type';
             transport := transport self; opts := opts self;
             file_data := file_data self |}).

Definition options_setter {B} (options : SendDataRequestOptions)
    (self : t B) : result unit * t B :=
  (Ok (), {| op_mode := op_mode self; _frame_id := _frame_id self;
             path := path self; content_type := content_type self;
             transport := transport self; opts := options;
             file_data := file_data self |}).

Definition file_data_getter (self : t ref) (σ : store)
    : option (option ref * store) :=
  bytearray_getter (file_data self) σ.

Definition file_data_setter (file_data' : option ref) (self : t ref)
    (σ : store) : option (t ref * store) :=
  '(a, σ') ← bytearray_setter file_data' σ;
  Some ({| op_mode := op_mode self; _frame_id := _frame_id self;
           path := path self; content_type := content_type self;
           transport := transport self; opts := opts self;
           file_data := a |}, σ').

Definition create_packet (raw : bytes) (operating_mode : OperatingMode)
    : result (t bytes) :=
  _ ← check_operating_mode operating_mode;
  _ ← _check_api_packet raw __MIN_PACKET_LENGTH;
  _ ← check_frame_type raw SEND_DATA_REQUEST;
  path_length ← byte_to_nat <$> index raw 5;
  content_type_length ← byte_to_nat <$> index raw (6 + path_length);
  frame_id ← index raw 4;
  path ← utf8_decode (slice raw 6 (6 + path_length));
  content_type ←
    utf8_decode (slice raw (6 + path_length + 1)
                   (6 + path_length + 1 + content_type_length));
  code ← index raw (6 + path_length + 2 + content_type_length);
  __init__ (byte_to_Z frame_id) (Some path) (Some content_type)
    (SendDataRequestOptions_get code)
    (Some (slice_to_last raw (6 + path_length + 3 + content_type_length)))
    operating_mode.

Definition _get_api_packet_spec_data (self : t bytes) : result bytes :=
  ret ← match path self with
        | Some s =>
            let ret := int_to_bytes (Z.of_nat (length s)) 1 in
            bs ← utf8_encode s; Ok (ret ++ bs)
        | None => Ok (int_to_bytes 0 1)
        end;
  ret ← match content_type self with
        | Some s =>
            let ret := ret ++ int_to_bytes (Z.of_nat (length s)) 1 in
            bs ← utf8_encode s; Ok (ret ++ bs)
        | None => Ok (ret ++ int_to_bytes 0 1)
        end;
  let ret := ret ++ int_to_bytes 0 1 in
  let ret := ret ++ int_to_bytes (SendDataRequestOptions_code (opts self)) 1 in
  match file_data self with
  | Some d => Ok (ret ++ d)
  | None => Ok ret
  end.

Definition frame_spec_data (self : t bytes) : result bytes :=
  get_frame_spec_data SEND_DATA_REQUEST needs_id (_frame_id self)
    <$> _get_api_packet_spec_data self.
End Class.
Arguments t {_} B.
End SendDataRequestPacket.

(** ** SendDataResponsePacket *)

Module SendDataResponsePacket.
Section Class.
Context `{Externals}.

Record t := mk {
  op_mode : OperatingMode;
  _frame_id : Z;
  status : DeviceCloudStatus;
}.

Definition __MIN_PACKET_LENGTH : nat := 7.

Definition needs_id : bool := true.

Definition __init__ (frame_id : Z) (status : DeviceCloudStatus)
    (op_mode : OperatingMode) : result t :=
  if decide (frame_id < 0 ∨ frame_id > 255)
  then Raise (ValueError FRAME_ID_RANGE)
  else Ok {| op_mode := op_mode; _frame_id := frame_id; status := status |}.

Definition status_setter (status' : DeviceCloudStatus) (self : t)
    : result unit * t :=
  (Ok (), {| op_mode := op_mode self; _frame_id := _frame_id self;
             status := status' |}).

Definition frame_id_set (frame_id : Z) (self : t) : result unit * t :=
  let '(r, id) := frame_id_setter frame_id (_frame_id self) in
  (r, {| op_mode := op_mode self; _frame_id := id; status := status self |}).

Definition create_packet (raw : bytes) (operating_mode : OperatingMode)
    : result t :=
  _ ← check_operating_mode operating_mode;
  _ ← _check_api_packet raw __MIN_PACKET_LENGTH;
  _ ← check_frame_type raw SEND_DATA_RESPONSE;
  frame_id ← index raw 4;
  code ← index raw 5;
  __init__ (byte_to_Z frame_id) (DeviceCloudStatus_get code) operating_mode.

Definition _get_api_packet_spec_data (self : t) : result bytes :=
  Ok (int_to_bytes (DeviceCloudStatus_code (status self)) 1).

Definition frame_spec_data (self : t) : result bytes :=
  get_frame_spec_data SEND_DATA_RESPONSE needs_id (_frame_id self)
    <$> _get_api_packet_spec_data self.
End Class.
End SendDataResponsePacket.

(** ** The six kinds together *)

Section Family.
Context `{Externals}.

(** A decoded packet of any of the six kinds. *)
Inductive Packet :=
  | DeviceRequest (p : DeviceRequestPacket.t bytes)
  | DeviceResponse (p : DeviceResponsePacket.t bytes)
  | DeviceResponseStatus (p : DeviceResponseStatusPacket.t)
  | FrameErrorP (p : FrameErrorPacket.t)
  | SendDataRequest (p : SendDataRequestPacket.t bytes)
  | SendDataResponse (p : SendDataResponsePacket.t).

(** Decoding for an expected kind: the [create_packet] of its class. *)
Definition decode (ft : ApiFrameType) (raw : bytes) (operating_mode : OperatingMode)
    : result Packet :=
  match ft with
  | DEVICE_REQUEST =>
      DeviceRequest <$> DeviceRequestPacket.create_packet raw operating_mode
  | DEVICE_RESPONSE =>
      DeviceResponse <$> DeviceResponsePacket.create_packet raw operating_mode
  | DEVICE_RESPONSE_STATUS =>
      DeviceResponseStatus
        <$> DeviceResponseStatusPacket.create_packet raw operating_mode
  | FRAME_ERROR =>
      FrameErrorP <$> FrameErrorPacket.create_packet raw operating_mode
  | SEND_DATA_REQUEST =>
      SendDataRequest <$> SendDataRequestPacket.create_packet raw operating_mode
  | SEND_DATA_RESPONSE =>
      SendDataResponse <$> SendDataResponsePacket.create_packet raw operating_mode
  end.

(** Encoding: the frame data of a packet. *)
Definition encode (p : Packet) : result bytes :=
  match p with
  | DeviceRequest p => DeviceRequestPacket.frame_spec_data p
  | DeviceResponse p => DeviceResponsePacket.frame_spec_data p
  | DeviceResponseStatus p => DeviceResponseStatusPacket.frame_spec_data p
  | FrameErrorP p => FrameErrorPacket.frame_spec_data p
  | SendDataRequest p => SendDataRequestPacket.frame_spec_data p
  | SendDataResponse p => SendDataResponsePacket.frame_spec_data p
  end.
End Family.

(** The [__MIN_PACKET_LENGTH] of the class of a kind. *)
Definition min_packet_length (ft : ApiFrameType) : nat :=
  match ft with
  | DEVICE_REQUEST => DeviceRequestPacket.__MIN_PACKET_LENGTH
  | DEVICE_RESPONSE => DeviceResponsePacket.__MIN_PACKET_LENGTH
  | DEVICE_RESPONSE_STATUS => DeviceResponseStatusPacket.__MIN_PACKET_LENGTH
  | FRAME_ERROR => FrameErrorPacket.__MIN_PACKET_LENGTH
  | SEND_DATA_REQUEST => SendDataRequestPacket.__MIN_PACKET_LENGTH
  | SEND_DATA_RESPONSE => SendDataResponsePacket.__MIN_PACKET_LENGTH
  end.

(** The bytes of a frame around its data, as the docstrings of
    [create_packet] count them: start delimiter, length (2 bytes),
    checksum. *)
Definition ENVELOPE_LENGTH : nat := 4.

(** The frame data [raw[3:-1]] of a frame: frame type byte and fields. *)
Definition frame_data (raw : bytes) : bytes := slice_to_last raw 3.

(** The least length of the frame data of a kind. *)
Definition min_body_length (ft : ApiFrameType) : nat :=
  (min_packet_length ft - ENVELOPE_LENGTH)%nat.

(** ** An instance: the XBee API frame format

    The values the library gives the imported names, to run the model on
    concrete frames. *)
Module XBee.
Definition sum_bytes (bs : bytes) : N :=
  foldr (fun b acc => (Byte.to_N b + acc)%N) 0%N bs.

Definition complement_sum (bs : bytes) : byte :=
  byte_of_N (255 - N.land (sum_bytes bs) 255)%N.

Definition big_endian (bs : bytes) : nat :=
  foldl (fun acc b => (acc * 256 + byte_to_nat b)%nat) 0%nat bs.

(** Big-endian digits of [n] in base 256, at least one. *)
Fixpoint digits (fuel : nat) (n : N) (acc : bytes) : bytes :=
  let acc := byte_of_N (N.land n 255) :: acc in
  match fuel with
  | O => acc
  | S fuel => if decide (N.shiftr n 8 = 0)%N then acc
              else digits fuel (N.shiftr n 8) acc
  end.

Definition big_endian_bytes (number : Z) (num_bytes : nat) : bytes :=
  let ds := digits (N.to_nat (N.log2 (Z.to_N number))) (Z.to_N number) [] in
  replicate (num_bytes - length ds) x00 ++ ds.

Definition int_to_length (n : nat) : bytes := big_endian_bytes (Z.of_nat n) 2.

Definition frame_type_code (ft : ApiFrameType) : byte :=
  match ft with
  | DEVICE_REQUEST => xb9
  | DEVICE_RESPONSE => x2a
  | DEVICE_RESPONSE_STATUS => xba
  | FRAME_ERROR => xfe
  | SEND_DATA_REQUEST => x28
  | SEND_DATA_RESPONSE => xb8
  end.

(** A code table with two named members and, as the spec has it, a
    carrier for every other code. *)
Inductive symbol :=
  | MEMBER_0
  | MEMBER_1
  | UNRECOGNIZED (code : byte).

Definition symbol_get (b : byte) : symbol :=
  if decide (b = x00) then MEMBER_0
  else if decide (b = x01) then MEMBER_1
  else UNRECOGNIZED b.

Definition symbol_code (s : symbol) : Z :=
  match s with
  | MEMBER_0 => 0
  | MEMBER_1 => 1
  | UNRECOGNIZED b => byte_to_Z b
  end.

#[export] Instance externals : Externals := {|
  HEADER_BYTE := x7e;
  aft_code := frame_type_code;
  length_to_int := big_endian;
  checksum := complement_sum;
  int_to_bytes := big_endian_bytes;
  DeviceCloudStatus := symbol;
  DeviceCloudStatus_get := symbol_get;
  DeviceCloudStatus_code := symbol_code;
  FrameError := symbol;
  FrameError_get := symbol_get;
  FrameError_code := symbol_code;
  SendDataRequestOptions := symbol;
  SendDataRequestOptions_get := symbol_get;
  SendDataRequestOptions_code := symbol_code;
|}.

(** The frame around frame data: delimiter, length, data, checksum. *)
Definition wrap (body : bytes) : bytes :=
  x7e :: int_to_length (length body) ++ body ++ [complement_sum body].
End XBee.

(** ** Further predicates *)



(** The ranges the constructors check, with the constants they set. *)
Definition DeviceRequestPacket_valid {B} (p : DeviceRequestPacket.t B) : Prop :=
  0 <= DeviceRequestPacket.req_id p <= 255 /\
  DeviceRequestPacket.transport p = 0 /\
  DeviceRequestPacket.flags p = 0 /\
  forall s, DeviceRequestPacket.target p = Some s -> (length s <= 255)%nat.

Definition DeviceResponsePacket_valid {B} (p : DeviceResponsePacket.t B) : Prop :=
  0 <= DeviceResponsePacket._frame_id p <= 255 /\
  0 <= DeviceResponsePacket.req_id p <= 255.

Definition SendDataRequestPacket_valid `{Externals} {B}
    (p : SendDataRequestPacket.t B) : Prop :=
  0 <= SendDataRequestPacket._frame_id p <= 255 /\
  SendDataRequestPacket.transport p = 0.

(** ** The dictionaries of [_get_api_packet_spec_data_dict]

    The keys are the members of [DictKeys] ([digi/xbee/packets/base.py])
    that [devicecloud.py] names.  A dictionary is the list of its items in
    insertion order; a value is [None], an integer, a string, a list of
    integers or a symbol of one of the code tables. *)
Inductive DictKeys :=
  | REQUEST_ID | TRANSPORT | FLAGS | TARGET | RF_DATA | RESERVED | DC_STATUS
  | FRAME_ERROR_KEY | PATH_LENGTH | PATH | CONTENT_TYPE_LENGTH | CONTENT_TYPE
  | TRANSMIT_OPTIONS.

#[global] Instance DictKeys_eq_dec : EqDecision DictKeys.
Proof. solve_decision. Defined.

Section Dictionaries.
Context `{Externals}.

Inductive DictValue :=
  | V_None
  | V_int (n : Z)
  | V_str (s : str)
  | V_list (l : list Z)
  | V_status (s : DeviceCloudStatus)
  | V_error (e : FrameError)
  | V_options (o : SendDataRequestOptions).

(** [d[key]] *)
Fixpoint dict_get (key : DictKeys) (d : list (DictKeys * DictValue))
    : option DictValue :=
  match d with
  | [] => None
  | (k, v) :: d' => if decide (k = key) then Some v else dict_get key d'
  end.

(** [x if x is not None else None] for a string. *)
Definition str_or_None (s : option str) : DictValue :=
  match s with
  | Some s => V_str s
  | None => V_None
  end.

(** [list(x) if x is not None else None] for a bytearray. *)
Definition list_or_None (d : option bytes) : DictValue :=
  match d with
  | Some d => V_list (byte_to_Z <$> d)
  | None => V_None
  end.

(** [len(x) if x else 0x00]: 0 for [None] and for the empty string. *)
Definition len_if_truthy (s : option str) : Z :=
  match s with
  | Some (c :: s') => Z.of_nat (length (c :: s'))
  | Some [] | None => 0
  end.

(** [DeviceRequestPacket._get_api_packet_spec_data_dict] *)
Definition DeviceRequestPacket_spec_data_dict (self : DeviceRequestPacket.t bytes)
    : list (DictKeys * DictValue) :=
  [(REQUEST_ID, V_int (DeviceRequestPacket.req_id self));
   (TRANSPORT, V_int (DeviceRequestPacket.transport self));
   (FLAGS, V_int (DeviceRequestPacket.flags self));
   (TARGET, str_or_None (DeviceRequestPacket.target self));
   (RF_DATA, list_or_None (DeviceRequestPacket.req_data self))].

(** [DeviceResponsePacket._get_api_packet_spec_data_dict] *)
Definition DeviceResponsePacket_spec_data_dict (self : DeviceResponsePacket.t bytes)
    : list (DictKeys * DictValue) :=
  [(REQUEST_ID, V_int (DeviceResponsePacket.req_id self));
   (RESERVED, V_int 0);
   (RF_DATA, list_or_None (DeviceResponsePacket.resp_data self))].

(** [DeviceResponseStatusPacket._get_api_packet_spec_data_dict] *)
Definition DeviceResponseStatusPacket_spec_data_dict
    (self : DeviceResponseStatusPacket.t) : list (DictKeys * DictValue) :=
  [(DC_STATUS, V_status (DeviceResponseStatusPacket.status self))].

(** [FrameErrorPacket._get_api_packet_spec_data_dict] *)
Definition FrameErrorPacket_spec_data_dict (self : FrameErrorPacket.t)
    : list (DictKeys * DictValue) :=
  [(FRAME_ERROR_KEY, V_error (FrameErrorPacket.frame_error self))].

(** [SendDataRequestPacket._get_api_packet_spec_data_dict] *)
Definition SendDataRequestPacket_spec_data_dict
    (self : SendDataRequestPacket.t bytes) : list (DictKeys * DictValue) :=
  [(PATH_LENGTH, V_int (len_if_truthy (SendDataRequestPacket.path self)));
   (PATH, str_or_None (SendDataRequestPacket.path self));
   (CONTENT_TYPE_LENGTH,
    V_int (len_if_truthy (SendDataRequestPacket.content_type self)));
   (CONTENT_TYPE, str_or_None (SendDataRequestPacket.content_type self));
   (TRANSPORT, V_int 0);
   (TRANSMIT_OPTIONS, V_options (SendDataRequestPacket.opts self));
   (RF_DATA, list_or_None (SendDataRequestPacket.file_data self))].

(** [SendDataResponsePacket._get_api_packet_spec_data_dict] *)
Definition SendDataResponsePacket_spec_data_dict
    (self : SendDataResponsePacket.t) : list (DictKeys * DictValue) :=
  [(DC_STATUS, V_status (SendDataResponsePacket.status self))].
End Dictionaries.

(** The operating mode a packet records. *)
Definition Packet_op_mode `{Externals} (p : Packet) : OperatingMode :=
  match p with
  | DeviceRequest p => DeviceRequestPacket.op_mode p
  | DeviceResponse p => DeviceResponsePacket.op_mode p
  | DeviceResponseStatus p => DeviceResponseStatusPacket.op_mode p
  | FrameErrorP p => FrameErrorPacket.op_mode p
  | SendDataRequest p => SendDataRequestPacket.op_mode p
  | SendDataResponse p => SendDataResponsePacket.op_mode p
  end.

(** ** Predicates of the statements *)

(** The operating modes [create_packet] accepts. *)
Definition supported (operating_mode : OperatingMode) : Prop :=
  operating_mode = API_MODE \/ operating_mode = ESCAPED_API_MODE.

(** The frame passes the three opening checks of the [create_packet] of
    kind [ft]. *)
Definition well_framed `{Externals} (ft : ApiFrameType) (raw : bytes)
    (m : OperatingMode) : Prop :=
  supported m /\
  _check_api_packet raw (min_packet_length ft) = Ok () /\
  raw !! 3%nat = Some (aft_code ft).

(** [raw] is a frame that passes [_check_api_packet] for the kind [ft] and
    whose frame data is [body]. *)
Definition carries `{Externals} (ft : ApiFrameType) (raw body : bytes) : Prop :=
  _check_api_packet raw (min_packet_length ft) = Ok () /\ frame_data raw = body.

(** The attribute [attr] of an object denotes the value [v] in the store
    [σ]: both absent, or a reference to a bytearray of that content. *)
Definition holds (σ : list (list byte)) (attr : option nat) (v : option bytes)
    : Prop :=
  match attr, v with
  | Some r, Some b => σ !! r = Some b
  | None, None => True
  | _, _ => False
  end.

(** The payloads a DeviceRequest returns from the round trip: one byte or
    more, or none next to an empty target. *)
Definition DeviceRequest_payload (t : str) (d : option bytes) : Prop :=
  match d with
  | Some d' => d' ≠ []
  | None => t = []
  end.

(** The payloads a DeviceResponse returns from the round trip: none, or one
    byte or more. *)
Definition DeviceResponse_payload (d : option bytes) : Prop :=
  match d with
  | Some d' => d' ≠ []
  | None => True
  end.

(** The symbol [s] of a code table has a one-byte code that the table
    resolves to [s]. *)
Definition registered {S : Type} (get : byte -> S) (code : S -> Z) (s : S) : Prop :=
  exists b : byte, code s = byte_to_Z b /\ get b = s.

(** * Properties *)

(** ** Slices and frames *)

Lemma slice_length {A} (l : list A) (a b : nat) :
  length (slice l a b) = ((b - a) `min` (length l - a))%nat.
Proof. unfold slice. by rewrite length_take, length_drop. Qed.

Lemma slice_to_last_length {A} (l : list A) (a : nat) :
  length (slice_to_last l a) = (length l - 1 - a)%nat.
Proof. unfold slice_to_last. rewrite slice_length. lia. Qed.

Lemma frame_data_length (raw : bytes) :
  length (frame_data raw) = (length raw - ENVELOPE_LENGTH)%nat.
Proof. unfold frame_data, ENVELOPE_LENGTH. rewrite slice_to_last_length. lia. Qed.

(** A slice that reaches the end of the list is a [drop]. *)
Lemma slice_beyond {A} (l : list A) (a b : nat) :
  (length l <= b)%nat -> slice l a b = drop a l.
Proof.
  intros Hb. unfold slice. apply take_ge. rewrite length_drop. lia.
Qed.

(** [l[a:-1]] is empty when [a] is the last position or beyond. *)
Lemma slice_to_last_beyond {A} (l : list A) (a : nat) :
  (length l <= a + 1)%nat -> slice_to_last l a = [].
Proof.
  intros Ha. unfold slice_to_last, slice.
  replace (length l - 1 - a)%nat with 0%nat by lia. done.
Qed.

(** A frame of four bytes or more is its three leading bytes, its data and
    its last byte. *)
Lemma frame_shape (raw : bytes) :
  (4 <= length raw)%nat ->
  exists h l1 l2 ck, raw = h :: l1 :: l2 :: frame_data raw ++ [ck].
Proof.
  intros Hlen.
  destruct raw as [|h [|l1 [|l2 rest]]]; simpl in Hlen; try lia.
  exists h, l1, l2.
  destruct (decide (rest = [])) as [->|Hne]; [simpl in Hlen; lia|].
  destruct (exists_last Hne) as (body & ck & ->).
  exists ck. unfold frame_data, slice_to_last, slice.
  cbn [drop length]. rewrite length_app. cbn [length].
  replace (S (S (S (length body + 1))) - 1 - 3)%nat with (length body) by lia.
  rewrite drop_0. by rewrite take_app_length.
Qed.

Lemma index_Ok (raw : bytes) (i : nat) (b : byte) :
  raw !! i = Some b -> index raw i = Ok b.
Proof. unfold index. by intros ->. Qed.

Lemma index_IndexError (raw : bytes) (i : nat) :
  (length raw <= i)%nat -> index raw i = Raise IndexError.
Proof. intros Hi. unfold index. by rewrite (lookup_ge_None_2 raw i Hi). Qed.

(** ** Bytes and code points *)

Lemma byte_to_N_of_N (n : N) : (n < 256)%N -> Byte.to_N (byte_of_N n) = n.
Proof.
  intros Hn. unfold byte_of_N.
  destruct (Byte.of_N n) as [b|] eqn:E; simpl.
  - by apply Byte.to_of_N.
  - apply Byte.of_N_None_iff in E. lia.
Qed.

Lemma byte_of_N_to_N (b : byte) : byte_of_N (Byte.to_N b) = b.
Proof. unfold byte_of_N. by rewrite Byte.of_to_N. Qed.

Lemma byte_to_Z_range (b : byte) : 0 <= byte_to_Z b <= 255.
Proof. unfold byte_to_Z. pose proof (Byte.to_N_bounded b). lia. Qed.

Lemma byte_to_nat_range (b : byte) : (byte_to_nat b <= 255)%nat.
Proof. unfold byte_to_nat. pose proof (Byte.to_N_bounded b). lia. Qed.

(** ** The checks every [create_packet] starts with *)

Ltac monad_simpl :=
  cbn [mbind result_bind fmap result_fmap mret result_ret].

Section Checks.
Context `{Externals}.

Lemma check_operating_mode_supported (m : OperatingMode) :
  supported m -> check_operating_mode m = Ok ().
Proof. by intros [-> | ->]. Qed.

Lemma check_operating_mode_other (m : OperatingMode) :
  ~ supported m ->
  check_operating_mode m = Raise (InvalidOperatingModeException m).
Proof. unfold supported. destruct m; naive_solver. Qed.

Lemma check_api_packet_too_short (raw : bytes) (n : nat) :
  (length raw < n)%nat ->
  _check_api_packet raw n = Raise (InvalidPacketException TOO_SHORT).
Proof. intros Hlen. unfold _check_api_packet. by rewrite decide_True. Qed.

Lemma check_api_packet_Ok_length (raw : bytes) (n : nat) :
  _check_api_packet raw n = Ok () -> (n <= length raw)%nat.
Proof.
  unfold _check_api_packet. destruct (decide (length raw < n)%nat); [done|lia].
Qed.

(** On a bytearray that is not empty the check passes or raises
    [InvalidPacketException], and never for the frame type. *)
Lemma check_api_packet_cases (raw : bytes) (n : nat) :
  (0 < n)%nat ->
  _check_api_packet raw n = Ok () \/
  exists why, _check_api_packet raw n = Raise (InvalidPacketException why)
              /\ forall ft, why <> NOT_A_PACKET_OF ft.
Proof.
  intros Hn. unfold _check_api_packet.
  destruct (decide (length raw < n)%nat) as [|Hlen]; [right; eauto|].
  destruct raw as [|b0 rest]; [simpl in Hlen; lia|].
  change (index (b0 :: rest) 0) with (@Ok byte b0). monad_simpl.
  destruct (decide (b0 ≠ HEADER_BYTE)); [right; eauto|].
  destruct (decide (_ ≠ length_to_int _)); [right; eauto|].
  unfold index_last.
  destruct (last (b0 :: rest)) as [ck|] eqn:Hlast.
  - monad_simpl. destruct (decide (_ ≠ ck)); [right; eauto|by left].
  - by apply last_None in Hlast.
Qed.

Lemma check_frame_type_Ok (raw : bytes) (ft : ApiFrameType) :
  raw !! 3%nat = Some (aft_code ft) -> check_frame_type raw ft = Ok ().
Proof.
  intros H3. unfold check_frame_type. rewrite (index_Ok _ _ _ H3).
  monad_simpl. by rewrite decide_False by naive_solver.
Qed.

Lemma check_frame_type_mismatch (raw : bytes) (ft : ApiFrameType) :
  (4 <= length raw)%nat ->
  raw !! 3%nat ≠ Some (aft_code ft) ->
  check_frame_type raw ft = Raise (InvalidPacketException (NOT_A_PACKET_OF ft)).
Proof.
  intros Hlen H3. unfold check_frame_type, index.
  destruct (raw !! 3%nat) as [b3|] eqn:E.
  - monad_simpl. by rewrite decide_True by congruence.
  - apply lookup_ge_None in E. lia.
Qed.

Lemma min_packet_length_bounds (ft : ApiFrameType) :
  (6 <= min_packet_length ft <= 10)%nat.
Proof. destruct ft; vm_compute; lia. Qed.

(** What [decode] answers when one of the three opening checks fails. *)
Lemma decode_mode_raises ft raw m :
  ~ supported m -> decode ft raw m = Raise (InvalidOperatingModeException m).
Proof.
  intros Hm. apply check_operating_mode_other in Hm.
  destruct ft; cbn [decode];
    unfold DeviceRequestPacket.create_packet,
      DeviceResponsePacket.create_packet,
      DeviceResponseStatusPacket.create_packet,
      FrameErrorPacket.create_packet, SendDataRequestPacket.create_packet,
      SendDataResponsePacket.create_packet; by rewrite Hm.
Qed.

Lemma decode_check_raises ft raw m e :
  supported m ->
  _check_api_packet raw (min_packet_length ft) = Raise e ->
  decode ft raw m = Raise e.
Proof.
  intros Hm Hck. apply check_operating_mode_supported in Hm.
  destruct ft; cbn [decode min_packet_length] in *;
    unfold DeviceRequestPacket.create_packet,
      DeviceResponsePacket.create_packet,
      DeviceResponseStatusPacket.create_packet,
      FrameErrorPacket.create_packet, SendDataRequestPacket.create_packet,
      SendDataResponsePacket.create_packet; by rewrite Hm, Hck.
Qed.

Lemma decode_frame_type_raises ft raw m e :
  supported m ->
  _check_api_packet raw (min_packet_length ft) = Ok () ->
  check_frame_type raw ft = Raise e ->
  decode ft raw m = Raise e.
Proof.
  intros Hm Hck Hft. apply check_operating_mode_supported in Hm.
  destruct ft; cbn [decode min_packet_length] in *;
    unfold DeviceRequestPacket.create_packet,
      DeviceResponsePacket.create_packet,
      DeviceResponseStatusPacket.create_packet,
      FrameErrorPacket.create_packet, SendDataRequestPacket.create_packet,
      SendDataResponsePacket.create_packet; by rewrite Hm, Hck, Hft.
Qed.
End Checks.

(** ** Minimum lengths (C4) *)

(** C4, as amended.  The least length of the frame data (frame type byte and
    fixed fields) is 5 for DeviceRequest, 4 for DeviceResponse, 3 for
    DeviceResponseStatus, 2 for FrameError, 6 for SendDataRequest and 3 for
    SendDataResponse: the [__MIN_PACKET_LENGTH] of the class less the four
    bytes around the data.  For every kind, decoding a frame whose data is
    shorter raises [InvalidPacketException] for the length, and so yields no
    packet. *)
Theorem body_shorter_than_minimum_raises `{Externals} :
  (min_body_length DEVICE_REQUEST = 5%nat /\
   min_body_length DEVICE_RESPONSE = 4%nat /\
   min_body_length DEVICE_RESPONSE_STATUS = 3%nat /\
   min_body_length FRAME_ERROR = 2%nat /\
   min_body_length SEND_DATA_REQUEST = 6%nat /\
   min_body_length SEND_DATA_RESPONSE = 3%nat) /\
  forall ft raw m,
    supported m ->
    (length (frame_data raw) < min_body_length ft)%nat ->
    decode ft raw m = Raise (InvalidPacketException TOO_SHORT).
Proof.
  split; [by repeat split|].
  intros ft raw m Hm Hlen. apply decode_check_raises; [done|].
  apply check_api_packet_too_short.
  rewrite frame_data_length in Hlen. unfold min_body_length in Hlen.
  pose proof (min_packet_length_bounds ft). unfold ENVELOPE_LENGTH in Hlen. lia.
Qed.

(** ** Frame type (C9) *)

(** C9.  For each of the six kinds, decoding a frame whose frame type byte
    [raw[3]] is not the code of the kind raises [InvalidPacketException],
    whatever the rest of the frame; when the frame passes the checks of
    [_check_api_packet] the exception is the one of the frame type, "This
    packet is not a ... packet.". *)
Theorem frame_type_mismatch_raises `{Externals} :
  forall ft raw m,
    supported m ->
    raw !! 3%nat ≠ Some (aft_code ft) ->
    (exists why, decode ft raw m = Raise (InvalidPacketException why)) /\
    (_check_api_packet raw (min_packet_length ft) = Ok () ->
     decode ft raw m = Raise (InvalidPacketException (NOT_A_PACKET_OF ft))).
Proof.
  intros ft raw m Hm H3.
  pose proof (min_packet_length_bounds ft) as Hmin.
  assert (Hok : _check_api_packet raw (min_packet_length ft) = Ok () ->
                decode ft raw m = Raise (InvalidPacketException (NOT_A_PACKET_OF ft))).
  { intros Hck. apply decode_frame_type_raises; [done..|].
    apply check_frame_type_mismatch; [|done].
    apply check_api_packet_Ok_length in Hck. lia. }
  split; [|done].
  destruct (check_api_packet_cases raw (min_packet_length ft)) as [Hck|(why & Hck & _)];
    [lia|eauto|].
  exists why. by apply decode_check_raises.
Qed.

(** ** Ranges of [frame_id] and [request_id] (C8) *)

Ltac unfold_setters :=
  unfold DeviceRequestPacket.__init__, DeviceRequestPacket.request_id_setter,
    DeviceResponsePacket.__init__, DeviceResponsePacket.request_id_setter,
    DeviceResponsePacket.frame_id_set, DeviceResponseStatusPacket.__init__,
    DeviceResponseStatusPacket.frame_id_set, SendDataRequestPacket.__init__,
    SendDataRequestPacket.frame_id_set, SendDataResponsePacket.__init__,
    SendDataResponsePacket.frame_id_set, frame_id_setter.

Ltac range_cases :=
  intros; unfold_setters; repeat case_decide; try lia;
  try match goal with
      | H : ?f ?t = false |- context [?f ?t] => rewrite H
      end;
  try done.

(** C8.  A [frame_id] or [request_id] outside 0..255, such as 256 or -1, is
    refused with [ValueError] by the constructor of every class that takes
    it and by its setter, which leaves the packet as it was; a value within
    0..255, such as 0 or 255, is accepted and stored, the other arguments
    being valid.  The classes with a [request_id] are DeviceRequestPacket
    and DeviceResponsePacket; those with a [frame_id] are
    DeviceResponsePacket, DeviceResponseStatusPacket, SendDataRequestPacket
    and SendDataResponsePacket. *)
Theorem id_range_validation `{Externals} :
  forall v : Z,
    (v < 0 \/ v > 255 ->
     (forall B t (d : option B) m,
        DeviceRequestPacket.__init__ v t d m = Raise (ValueError REQUEST_ID_RANGE)) /\
     (forall B (p : DeviceRequestPacket.t B),
        DeviceRequestPacket.request_id_setter v p
        = (Raise (ValueError REQUEST_ID_RANGE), p)) /\
     (forall B rid (d : option B) m,
        DeviceResponsePacket.__init__ v rid d m = Raise (ValueError FRAME_ID_RANGE)) /\
     (forall B fid (d : option B) m,
        0 <= fid <= 255 ->
        DeviceResponsePacket.__init__ fid v d m = Raise (ValueError REQUEST_ID_RANGE)) /\
     (forall B (p : DeviceResponsePacket.t B),
        DeviceResponsePacket.request_id_setter v p
        = (Raise (ValueError REQUEST_ID_RANGE), p)) /\
     (forall B (p : DeviceResponsePacket.t B),
        DeviceResponsePacket.frame_id_set v p = (Raise (ValueError FRAME_ID_RANGE), p)) /\
     (forall s m,
        DeviceResponseStatusPacket.__init__ v s m = Raise (ValueError FRAME_ID_RANGE)) /\
     (forall p,
        DeviceResponseStatusPacket.frame_id_set v p
        = (Raise (ValueError FRAME_ID_RANGE), p)) /\
     (forall B path ct o (d : option B) m,
        SendDataRequestPacket.__init__ v path ct o d m
        = Raise (ValueError FRAME_ID_RANGE)) /\
     (forall B (p : SendDataRequestPacket.t B),
        SendDataRequestPacket.frame_id_set v p = (Raise (ValueError FRAME_ID_RANGE), p)) /\
     (forall s m,
        SendDataResponsePacket.__init__ v s m = Raise (ValueError FRAME_ID_RANGE)) /\
     (forall p,
        SendDataResponsePacket.frame_id_set v p
        = (Raise (ValueError FRAME_ID_RANGE), p))) /\
    (0 <= v <= 255 ->
     (forall B t (d : option B) m,
        DeviceRequestPacket.is_not_None_and_len_gt_255 t = false ->
        DeviceRequestPacket.__init__ v t d m
        = Ok (DeviceRequestPacket.mk B m v 0 0 t d)) /\
     (forall B (p : DeviceRequestPacket.t B),
        DeviceRequestPacket.request_id_setter v p
        = (Ok (), DeviceRequestPacket.mk B (DeviceRequestPacket.op_mode p) v
                    (DeviceRequestPacket.transport p) (DeviceRequestPacket.flags p)
                    (DeviceRequestPacket.target p) (DeviceRequestPacket.req_data p))) /\
     (forall B rid (d : option B) m,
        0 <= rid <= 255 ->
        DeviceResponsePacket.__init__ v rid d m
        = Ok (DeviceResponsePacket.mk B m v rid d)) /\
     (forall B fid (d : option B) m,
        0 <= fid <= 255 ->
        DeviceResponsePacket.__init__ fid v d m
        = Ok (DeviceResponsePacket.mk B m fid v d)) /\
     (forall B (p : DeviceResponsePacket.t B),
        DeviceResponsePacket.request_id_setter v p
        = (Ok (), DeviceResponsePacket.mk B (DeviceResponsePacket.op_mode p)
                    (DeviceResponsePacket._frame_id p) v
                    (DeviceResponsePacket.resp_data p))) /\
     (forall B (p : DeviceResponsePacket.t B),
        DeviceResponsePacket.frame_id_set v p
        = (Ok (), DeviceResponsePacket.mk B (DeviceResponsePacket.op_mode p) v
                    (DeviceResponsePacket.req_id p)
                    (DeviceResponsePacket.resp_data p))) /\
     (forall s m,
        DeviceResponseStatusPacket.__init__ v s m
        = Ok (DeviceResponseStatusPacket.mk m v s)) /\
     (forall p,
        DeviceResponseStatusPacket.frame_id_set v p
        = (Ok (), DeviceResponseStatusPacket.mk (DeviceResponseStatusPacket.op_mode p)
                    v (DeviceResponseStatusPacket.status p))) /\
     (forall B path ct o (d : option B) m,
        SendDataRequestPacket.__init__ v path ct o d m
        = Ok (SendDataRequestPacket.mk B m v path ct 0 o d)) /\
     (forall B (p : SendDataRequestPacket.t B),
        SendDataRequestPacket.frame_id_set v p
        = (Ok (), SendDataRequestPacket.mk B (SendDataRequestPacket.op_mode p) v
                    (SendDataRequestPacket.path p)
                    (SendDataRequestPacket.content_type p)
                    (SendDataRequestPacket.transport p)
                    (SendDataRequestPacket.opts p)
                    (SendDataRequestPacket.file_data p))) /\
     (forall s m,
        SendDataResponsePacket.__init__ v s m
        = Ok (SendDataResponsePacket.mk m v s)) /\
     (forall p,
        SendDataResponsePacket.frame_id_set v p
        = (Ok (), SendDataResponsePacket.mk (SendDataResponsePacket.op_mode p)
                    v (SendDataResponsePacket.status p)))).
Proof.
  intros v. split; intros Hv.
  - repeat split; range_cases;
      match goal with p : _ |- _ => by destruct p end.
  - repeat split; range_cases.
Qed.

(** ** UTF-8 *)

Lemma utf8_encode_ascii (s : str) :
  is_ascii s -> utf8_encode s = Ok (byte_of_N <$> s).
Proof.
  induction 1 as [|c s Hc _ IH]; [done|].
  cbn [utf8_encode]. unfold utf8_encode_char.
  rewrite decide_True by done. by rewrite IH.
Qed.

Lemma utf8_decode_ascii (s : str) :
  is_ascii s -> utf8_decode (byte_of_N <$> s) = Ok s.
Proof.
  unfold utf8_decode. induction 1 as [|c s Hc _ IH]; [done|].
  cbn [fmap list_fmap utf8_decode_opt].
  rewrite byte_to_N_of_N by lia. cbn zeta. rewrite decide_True by done.
  fold (fmap (M:=list) byte_of_N s).
  destruct (utf8_decode_opt (byte_of_N <$> s)); by simplify_eq.
Qed.

(** The UTF-8 form of an ASCII string has one byte per character. *)
Lemma utf8_encode_ascii_length (s : str) (bs : bytes) :
  is_ascii s -> utf8_encode s = Ok bs -> length bs = length s.
Proof.
  intros Hs. rewrite (utf8_encode_ascii s Hs). intros [= <-].
  by rewrite length_fmap.
Qed.

(** Decoding gives no more characters than there are bytes. *)
Lemma utf8_decode_opt_length (bs : bytes) (s : str) :
  utf8_decode_opt bs = Some s -> (length s <= length bs)%nat.
Proof.
  remember (length bs) as n eqn:Hn. revert bs s Hn.
  induction n as [n IH] using lt_wf_ind. intros bs s -> Hs.
  destruct bs as [|b0 r0]; [by injection Hs as <-|].
  cbn [utf8_decode_opt] in Hs. cbn zeta in Hs.
  repeat case_decide;
    repeat (case_match; try discriminate);
    try discriminate;
    apply fmap_Some in Hs as (s' & Hs' & ->);
    (eapply IH in Hs'; [| |reflexivity]); subst; cbn [length] in *; lia.
Qed.

Lemma utf8_decode_length (bs : bytes) (s : str) :
  utf8_decode bs = Ok s -> (length s <= length bs)%nat.
Proof.
  unfold utf8_decode. destruct (utf8_decode_opt bs) eqn:E; [|done].
  intros [= <-]. by apply utf8_decode_opt_length.
Qed.

Lemma utf8_decode_nil : utf8_decode [] = Ok [].
Proof. done. Qed.

(** ** Lengths of the text fields (C3) *)

(** C3, as amended.  Setting [target] to an ASCII string of 256 UTF-8 bytes
    is refused with [ValueError] ("Target length cannot exceed 255 bytes.")
    by the constructor and by the setter of DeviceRequestPacket, and the
    setter leaves the packet as it was; an ASCII string of 255 bytes is
    accepted by both.  [path] and [content_type] of SendDataRequestPacket
    are not validated: the constructor and the setters accept a string of
    any length. *)
Theorem text_length_validation `{Externals} :
  (forall (s : str) (bs : bytes),
     is_ascii s -> utf8_encode s = Ok bs ->
     (length bs = 256%nat ->
      (forall B rid (d : option B) m,
         0 <= rid <= 255 ->
         DeviceRequestPacket.__init__ rid (Some s) d m
         = Raise (ValueError TARGET_LENGTH)) /\
      (forall B (p : DeviceRequestPacket.t B),
         DeviceRequestPacket.target_setter (Some s) p
         = (Raise (ValueError TARGET_LENGTH), p))) /\
     (length bs = 255%nat ->
      (forall B rid (d : option B) m,
         0 <= rid <= 255 ->
         DeviceRequestPacket.__init__ rid (Some s) d m
         = Ok (DeviceRequestPacket.mk B m rid 0 0 (Some s) d)) /\
      (forall B (p : DeviceRequestPacket.t B),
         DeviceRequestPacket.target_setter (Some s) p
         = (Ok (), DeviceRequestPacket.mk B (DeviceRequestPacket.op_mode p)
                     (DeviceRequestPacket.req_id p)
                     (DeviceRequestPacket.transport p)
                     (DeviceRequestPacket.flags p) (Some s)
                     (DeviceRequestPacket.req_data p))))) /\
  (forall s : str,
     (forall B fid ct o (d : option B) m,
        0 <= fid <= 255 ->
        SendDataRequestPacket.__init__ fid (Some s) ct o d m
        = Ok (SendDataRequestPacket.mk B m fid (Some s) ct 0 o d)) /\
     (forall B fid path o (d : option B) m,
        0 <= fid <= 255 ->
        SendDataRequestPacket.__init__ fid path (Some s) o d m
        = Ok (SendDataRequestPacket.mk B m fid path (Some s) 0 o d)) /\
     (forall B (p : SendDataRequestPacket.t B),
        SendDataRequestPacket.path_setter (Some s) p
        = (Ok (), SendDataRequestPacket.mk B (SendDataRequestPacket.op_mode p)
                    (SendDataRequestPacket._frame_id p) (Some s)
                    (SendDataRequestPacket.content_type p)
                    (SendDataRequestPacket.transport p)
                    (SendDataRequestPacket.opts p)
                    (SendDataRequestPacket.file_data p))) /\
     (forall B (p : SendDataRequestPacket.t B),
        SendDataRequestPacket.content_type_setter (Some s) p
        = (Ok (), SendDataRequestPacket.mk B (SendDataRequestPacket.op_mode p)
                    (SendDataRequestPacket._frame_id p)
                    (SendDataRequestPacket.path p) (Some s)
                    (SendDataRequestPacket.transport p)
                    (SendDataRequestPacket.opts p)
                    (SendDataRequestPacket.file_data p)))).
Proof.
  split.
  - intros s bs Hs Hbs. apply utf8_encode_ascii_length in Hbs; [|done].
    split; intros Hlen; rewrite Hbs in Hlen;
      (split; intros;
       unfold DeviceRequestPacket.__init__, DeviceRequestPacket.target_setter,
         DeviceRequestPacket.is_not_None_and_len_gt_255).
    + rewrite decide_False by lia. by rewrite bool_decide_eq_true_2 by lia.
    + by rewrite bool_decide_eq_true_2 by lia.
    + rewrite decide_False by lia. by rewrite bool_decide_eq_false_2 by lia.
    + by rewrite bool_decide_eq_false_2 by lia.
  - intros s. repeat split; intros;
      unfold SendDataRequestPacket.__init__; try done.
    + by rewrite decide_False by lia.
    + by rewrite decide_False by lia.
Qed.

(** ** What [create_packet] computes on a frame that passes the checks *)

Ltac open_frame Hwf :=
  let Hm := fresh "Hm" in
  let Hck := fresh "Hck" in
  let H3 := fresh "H3" in
  let Hlen := fresh "Hlen" in
  destruct Hwf as (Hm & Hck & H3);
  pose proof (check_api_packet_Ok_length _ _ Hck) as Hlen;
  cbn [min_packet_length] in Hck, Hlen;
  apply check_operating_mode_supported in Hm;
  apply check_frame_type_Ok in H3.

Tactic Notation "lookup_at" constr(raw) constr(i) ident(b) ident(Hb) :=
  let His := fresh in
  assert (His : is_Some (raw !! i)) by (apply lookup_lt_is_Some_2; lia);
  destruct His as [b Hb].

Section Decoding.
Context `{Externals}.

Lemma DeviceRequestPacket_create_packet_eq raw m :
  well_framed DEVICE_REQUEST raw m ->
  exists rid tl,
    raw !! 4%nat = Some rid /\ raw !! 7%nat = Some tl /\
    DeviceRequestPacket.create_packet raw m
    = (target ← utf8_decode (slice raw 8 (8 + byte_to_nat tl));
       Ok (DeviceRequestPacket.mk bytes m (byte_to_Z rid) 0 0 (Some target)
             (if decide (DeviceRequestPacket.__MIN_PACKET_LENGTH < length raw)%nat
              then Some (slice_to_last raw (8 + byte_to_nat tl))
              else None))).
Proof.
  intros Hwf. open_frame Hwf.
  unfold DeviceRequestPacket.__MIN_PACKET_LENGTH in Hlen.
  lookup_at raw 4%nat rid Hrid. lookup_at raw 7%nat tl Htl.
  exists rid, tl. do 2 (split; [done|]).
  unfold DeviceRequestPacket.create_packet.
  rewrite Hm, Hck, H3, (index_Ok _ _ _ Hrid), (index_Ok _ _ _ Htl).
  monad_simpl.
  destruct (utf8_decode _) as [target|] eqn:Hdec; [|done]. monad_simpl.
  unfold DeviceRequestPacket.__init__.
  pose proof (byte_to_Z_range rid). rewrite decide_False by lia.
  apply utf8_decode_length in Hdec. rewrite slice_length in Hdec.
  pose proof (byte_to_nat_range tl).
  unfold DeviceRequestPacket.is_not_None_and_len_gt_255.
  by rewrite bool_decide_eq_false_2 by lia.
Qed.

Lemma DeviceResponsePacket_create_packet_eq raw m :
  well_framed DEVICE_RESPONSE raw m ->
  exists fid rid,
    raw !! 4%nat = Some fid /\ raw !! 5%nat = Some rid /\
    DeviceResponsePacket.create_packet raw m
    = Ok (DeviceResponsePacket.mk bytes m (byte_to_Z fid) (byte_to_Z rid)
            (if decide (DeviceResponsePacket.__MIN_PACKET_LENGTH < length raw)%nat
             then Some (slice_to_last raw 7)
             else None)).
Proof.
  intros Hwf. open_frame Hwf.
  unfold DeviceResponsePacket.__MIN_PACKET_LENGTH in Hlen.
  lookup_at raw 4%nat fid Hfid. lookup_at raw 5%nat rid Hrid.
  exists fid, rid. do 2 (split; [done|]).
  unfold DeviceResponsePacket.create_packet.
  rewrite Hm, Hck, H3, (index_Ok _ _ _ Hfid), (index_Ok _ _ _ Hrid).
  monad_simpl. unfold DeviceResponsePacket.__init__.
  pose proof (byte_to_Z_range fid). pose proof (byte_to_Z_range rid).
  by rewrite !decide_False by lia.
Qed.

Lemma DeviceResponseStatusPacket_create_packet_eq raw m :
  well_framed DEVICE_RESPONSE_STATUS raw m ->
  exists fid code,
    raw !! 4%nat = Some fid /\ raw !! 5%nat = Some code /\
    DeviceResponseStatusPacket.create_packet raw m
    = Ok (DeviceResponseStatusPacket.mk m (byte_to_Z fid)
            (DeviceCloudStatus_get code)).
Proof.
  intros Hwf. open_frame Hwf.
  unfold DeviceResponseStatusPacket.__MIN_PACKET_LENGTH in Hlen.
  lookup_at raw 4%nat fid Hfid. lookup_at raw 5%nat code Hcode.
  exists fid, code. do 2 (split; [done|]).
  unfold DeviceResponseStatusPacket.create_packet.
  rewrite Hm, Hck, H3, (index_Ok _ _ _ Hfid), (index_Ok _ _ _ Hcode).
  monad_simpl. unfold DeviceResponseStatusPacket.__init__.
  pose proof (byte_to_Z_range fid). by rewrite decide_False by lia.
Qed.

Lemma FrameErrorPacket_create_packet_eq raw m :
  well_framed FRAME_ERROR raw m ->
  exists code,
    raw !! 4%nat = Some code /\
    FrameErrorPacket.create_packet raw m
    = Ok (FrameErrorPacket.mk m (FrameError_get code)).
Proof.
  intros Hwf. open_frame Hwf.
  unfold FrameErrorPacket.__MIN_PACKET_LENGTH in Hlen.
  lookup_at raw 4%nat code Hcode.
  exists code. split; [done|].
  unfold FrameErrorPacket.create_packet.
  by rewrite Hm, Hck, H3, (index_Ok _ _ _ Hcode).
Qed.

Lemma SendDataRequestPacket_create_packet_eq raw m :
  well_framed SEND_DATA_REQUEST raw m ->
  exists fid pl,
    raw !! 4%nat = Some fid /\ raw !! 5%nat = Some pl /\
    let path_length := byte_to_nat pl in
    SendDataRequestPacket.create_packet raw m
    = (content_type_length ← byte_to_nat <$> index raw (6 + path_length);
       path ← utf8_decode (slice raw 6 (6 + path_length));
       content_type ←
         utf8_decode (slice raw (6 + path_length + 1)
                        (6 + path_length + 1 + content_type_length));
       code ← index raw (6 + path_length + 2 + content_type_length);
       Ok (SendDataRequestPacket.mk bytes m (byte_to_Z fid) (Some path)
             (Some content_type) 0 (SendDataRequestOptions_get code)
             (Some (slice_to_last raw
                      (6 + path_length + 3 + content_type_length))))).
Proof.
  intros Hwf. open_frame Hwf.
  unfold SendDataRequestPacket.__MIN_PACKET_LENGTH in Hlen.
  lookup_at raw 4%nat fid Hfid. lookup_at raw 5%nat pl Hpl.
  exists fid, pl. do 2 (split; [done|]). cbn zeta.
  unfold SendDataRequestPacket.create_packet.
  rewrite Hm, Hck, H3, (index_Ok _ _ _ Hfid), (index_Ok _ _ _ Hpl).
  monad_simpl.
  destruct (index raw (6 + byte_to_nat pl)) as [cl|]; [|done]. monad_simpl.
  destruct (utf8_decode (slice raw 6 _)) as [path|]; [|done]. monad_simpl.
  destruct (utf8_decode _) as [ct|]; [|done]. monad_simpl.
  destruct (index raw _) as [code|]; [|done]. monad_simpl.
  unfold SendDataRequestPacket.__init__.
  pose proof (byte_to_Z_range fid). by rewrite decide_False by lia.
Qed.

Lemma SendDataResponsePacket_create_packet_eq raw m :
  well_framed SEND_DATA_RESPONSE raw m ->
  exists fid code,
    raw !! 4%nat = Some fid /\ raw !! 5%nat = Some code /\
    SendDataResponsePacket.create_packet raw m
    = Ok (SendDataResponsePacket.mk m (byte_to_Z fid)
            (DeviceCloudStatus_get code)).
Proof.
  intros Hwf. open_frame Hwf.
  unfold SendDataResponsePacket.__MIN_PACKET_LENGTH in Hlen.
  lookup_at raw 4%nat fid Hfid. lookup_at raw 5%nat code Hcode.
  exists fid, code. do 2 (split; [done|]).
  unfold SendDataResponsePacket.create_packet.
  rewrite Hm, Hck, H3, (index_Ok _ _ _ Hfid), (index_Ok _ _ _ Hcode).
  monad_simpl. unfold SendDataResponsePacket.__init__.
  pose proof (byte_to_Z_range fid). by rewrite decide_False by lia.
Qed.
End Decoding.

(** ** A length prefix of zero (C6) *)

Lemma byte_to_nat_x00 : byte_to_nat x00 = 0%nat.
Proof. reflexivity. Qed.

Lemma slice_empty {A} (l : list A) (a : nat) : slice l a a = [].
Proof. unfold slice. by rewrite Nat.sub_diag. Qed.

(** C6, as amended.  Decoding a frame in which the length prefix of a text
    field is 0 gives the empty string for that field, never the absent
    state, and the next field starts right after the prefix: for the
    [target] of a DeviceRequest the payload is taken from offset 8; for the
    [path] of a SendDataRequest the content type length is read at offset 6;
    for its [content_type] the options are read two bytes after the
    prefix. *)
Theorem zero_length_prefix_decodes_to_empty_text `{Externals} :
  (forall raw m,
     well_framed DEVICE_REQUEST raw m ->
     raw !! 7%nat = Some x00 ->
     exists rid,
       raw !! 4%nat = Some rid /\
       DeviceRequestPacket.create_packet raw m
       = Ok (DeviceRequestPacket.mk bytes m (byte_to_Z rid) 0 0 (Some [])
               (if decide (9 < length raw)%nat
                then Some (slice_to_last raw 8) else None))) /\
  (forall raw m,
     well_framed SEND_DATA_REQUEST raw m ->
     raw !! 5%nat = Some x00 ->
     exists fid,
       raw !! 4%nat = Some fid /\
       SendDataRequestPacket.create_packet raw m
       = (cl ← byte_to_nat <$> index raw 6;
          content_type ← utf8_decode (slice raw 7 (7 + cl));
          code ← index raw (8 + cl);
          Ok (SendDataRequestPacket.mk bytes m (byte_to_Z fid) (Some [])
                (Some content_type) 0 (SendDataRequestOptions_get code)
                (Some (slice_to_last raw (9 + cl)))))) /\
  (forall raw m pl,
     well_framed SEND_DATA_REQUEST raw m ->
     raw !! 5%nat = Some pl ->
     raw !! (6 + byte_to_nat pl)%nat = Some x00 ->
     exists fid,
       raw !! 4%nat = Some fid /\
       SendDataRequestPacket.create_packet raw m
       = (path ← utf8_decode (slice raw 6 (6 + byte_to_nat pl));
          code ← index raw (8 + byte_to_nat pl);
          Ok (SendDataRequestPacket.mk bytes m (byte_to_Z fid) (Some path)
                (Some []) 0 (SendDataRequestOptions_get code)
                (Some (slice_to_last raw (9 + byte_to_nat pl)))))).
Proof.
  split; [|split].
  - intros raw m Hwf H7.
    destruct (DeviceRequestPacket_create_packet_eq raw m Hwf)
      as (rid & tl & Hrid & Htl & ->).
    assert (tl = x00) as -> by congruence.
    exists rid. split; [done|].
    rewrite byte_to_nat_x00, Nat.add_0_r, slice_empty, utf8_decode_nil.
    done.
  - intros raw m Hwf H5.
    destruct (SendDataRequestPacket_create_packet_eq raw m Hwf)
      as (fid & pl & Hfid & Hpl & ->).
    assert (pl = x00) as -> by congruence.
    exists fid. split; [done|].
    rewrite byte_to_nat_x00, !Nat.add_0_r, slice_empty, utf8_decode_nil.
    done.
  - intros raw m pl Hwf H5 H6.
    destruct (SendDataRequestPacket_create_packet_eq raw m Hwf)
      as (fid & pl' & Hfid & Hpl & ->).
    assert (pl' = pl) as -> by congruence.
    exists fid. split; [done|].
    rewrite (index_Ok _ _ _ H6). monad_simpl.
    rewrite byte_to_nat_x00, !Nat.add_0_r, slice_empty, utf8_decode_nil.
    monad_simpl.
    replace (6 + byte_to_nat pl + 2)%nat with (8 + byte_to_nat pl)%nat by lia.
    replace (6 + byte_to_nat pl + 3)%nat with (9 + byte_to_nat pl)%nat by lia.
    done.
Qed.

(** ** A declared length beyond the end of the frame (C2) *)

(** C2, as amended.  A declared length that exceeds the bytes remaining in
    the frame data is not reported as a truncated field.  For a
    DeviceRequest the decoder does not fail on it: the target is decoded
    from every byte after the length byte up to the end of the frame, its
    checksum byte included ([UnicodeDecodeError] when those bytes are not
    UTF-8), and the payload is empty.  For a SendDataRequest decoding yields
    no packet: a [path] length beyond the frame raises [IndexError], and a
    [content_type] length beyond it raises [IndexError] or
    [UnicodeDecodeError]. *)
Theorem declared_length_beyond_frame `{Externals} :
  (forall raw m tl,
     well_framed DEVICE_REQUEST raw m ->
     raw !! 7%nat = Some tl ->
     (length raw - 9 < byte_to_nat tl)%nat ->
     exists rid,
       raw !! 4%nat = Some rid /\
       DeviceRequestPacket.create_packet raw m
       = (target ← utf8_decode (drop 8 raw);
          Ok (DeviceRequestPacket.mk bytes m (byte_to_Z rid) 0 0 (Some target)
                (if decide (9 < length raw)%nat then Some [] else None)))) /\
  (forall raw m pl,
     well_framed SEND_DATA_REQUEST raw m ->
     raw !! 5%nat = Some pl ->
     (length raw - 7 < byte_to_nat pl)%nat ->
     SendDataRequestPacket.create_packet raw m = Raise IndexError) /\
  (forall raw m pl cl,
     well_framed SEND_DATA_REQUEST raw m ->
     raw !! 5%nat = Some pl ->
     raw !! (6 + byte_to_nat pl)%nat = Some cl ->
     (length raw - 8 - byte_to_nat pl < byte_to_nat cl)%nat ->
     SendDataRequestPacket.create_packet raw m = Raise IndexError \/
     SendDataRequestPacket.create_packet raw m = Raise UnicodeDecodeError).
Proof.
  split; [|split].
  - intros raw m tl Hwf H7 Hbeyond.
    destruct (DeviceRequestPacket_create_packet_eq raw m Hwf)
      as (rid & tl' & Hrid & Htl & ->).
    assert (tl' = tl) as -> by congruence.
    exists rid. split; [done|].
    rewrite slice_beyond by lia.
    by rewrite slice_to_last_beyond by lia.
  - intros raw m pl Hwf H5 Hbeyond.
    destruct (SendDataRequestPacket_create_packet_eq raw m Hwf)
      as (fid & pl' & Hfid & Hpl & ->).
    assert (pl' = pl) as -> by congruence.
    destruct Hwf as (_ & Hck & _). apply check_api_packet_Ok_length in Hck.
    cbn in Hck. by rewrite index_IndexError by lia.
  - intros raw m pl cl Hwf H5 H6 Hbeyond.
    destruct (SendDataRequestPacket_create_packet_eq raw m Hwf)
      as (fid & pl' & Hfid & Hpl & ->).
    assert (pl' = pl) as -> by congruence.
    rewrite (index_Ok _ _ _ H6). monad_simpl.
    apply lookup_lt_Some in H6.
    unfold utf8_decode.
    destruct (utf8_decode_opt (slice raw 6 _)); [|by right]. monad_simpl.
    destruct (utf8_decode_opt _); [|by right]. monad_simpl.
    left. by rewrite index_IndexError by lia.
Qed.

(** ** No payload bytes (C5) *)

Section NoPayload.
Context `{Externals}.

(** A DeviceResponse frame without payload bytes decodes to the state of a
    packet built without response data. *)
Lemma DeviceResponse_no_payload_decodes_to_None raw m :
  well_framed DEVICE_RESPONSE raw m ->
  length raw = 8%nat ->
  exists fid rid,
    raw !! 4%nat = Some fid /\ raw !! 5%nat = Some rid /\
    DeviceResponsePacket.create_packet raw m
    = DeviceResponsePacket.__init__ (byte_to_Z fid) (byte_to_Z rid) None m.
Proof.
  intros Hwf Hlen.
  destruct (DeviceResponsePacket_create_packet_eq raw m Hwf)
    as (fid & rid & Hfid & Hrid & ->).
  exists fid, rid. do 2 (split; [done|]).
  unfold DeviceResponsePacket.__init__, DeviceResponsePacket.__MIN_PACKET_LENGTH.
  pose proof (byte_to_Z_range fid). pose proof (byte_to_Z_range rid).
  by rewrite !decide_False by lia.
Qed.

(** So does a DeviceRequest frame without payload bytes when its target is
    empty. *)
Lemma DeviceRequest_no_target_no_payload_decodes_to_None raw m :
  well_framed DEVICE_REQUEST raw m ->
  raw !! 7%nat = Some x00 ->
  length raw = 9%nat ->
  exists rid,
    raw !! 4%nat = Some rid /\
    DeviceRequestPacket.create_packet raw m
    = DeviceRequestPacket.__init__ (byte_to_Z rid) (Some []) None m.
Proof.
  intros Hwf H7 Hlen.
  destruct (DeviceRequestPacket_create_packet_eq raw m Hwf)
    as (rid & tl & Hrid & Htl & ->).
  assert (tl = x00) as -> by congruence.
  exists rid. split; [done|].
  rewrite byte_to_nat_x00, Nat.add_0_r, slice_empty, utf8_decode_nil.
  unfold DeviceRequestPacket.__init__, DeviceRequestPacket.__MIN_PACKET_LENGTH.
  pose proof (byte_to_Z_range rid).
  by rewrite !decide_False by lia.
Qed.
End NoPayload.

(** C5, where the code departs from it.  A DeviceRequest frame with a target
    of one byte or more and no payload bytes decodes to a packet whose
    request data is the empty bytearray, not the absent state [None] of the
    packet constructed from the same values without request data: the test
    [len(raw) > __MIN_PACKET_LENGTH] of [create_packet] does not count the
    bytes of the target. *)
Theorem DeviceRequest_target_no_payload_decodes_to_empty `{Externals} :
  forall raw m tl target,
    well_framed DEVICE_REQUEST raw m ->
    raw !! 7%nat = Some tl ->
    (0 < byte_to_nat tl)%nat ->
    length raw = (9 + byte_to_nat tl)%nat ->
    utf8_decode (slice raw 8 (8 + byte_to_nat tl)) = Ok target ->
    exists rid,
      raw !! 4%nat = Some rid /\
      DeviceRequestPacket.create_packet raw m
      = Ok (DeviceRequestPacket.mk bytes m (byte_to_Z rid) 0 0 (Some target)
              (Some [])) /\
      DeviceRequestPacket.__init__ (byte_to_Z rid) (Some target) None m
      = Ok (DeviceRequestPacket.mk bytes m (byte_to_Z rid) 0 0 (Some target)
              None).
Proof.
  intros raw m tl target Hwf H7 Htl Hlen Hdec.
  destruct (DeviceRequestPacket_create_packet_eq raw m Hwf)
    as (rid & tl' & Hrid & Htl' & Heq).
  assert (tl' = tl) as -> by congruence.
  exists rid. split; [done|]. split.
  - rewrite Heq, Hdec. monad_simpl.
    unfold DeviceRequestPacket.__MIN_PACKET_LENGTH.
    rewrite decide_True by lia.
    by rewrite slice_to_last_beyond by lia.
  - unfold DeviceRequestPacket.__init__,
      DeviceRequestPacket.is_not_None_and_len_gt_255.
    pose proof (byte_to_Z_range rid). rewrite decide_False by lia.
    apply utf8_decode_length in Hdec. rewrite slice_length in Hdec.
    pose proof (byte_to_nat_range tl).
    by rewrite bool_decide_eq_false_2 by lia.
Qed.

(** ** The file data of a decoded SendDataRequest (C10) *)

Lemma copy_Some (σ : list (list byte)) (r : nat) (v : bytes) :
  σ !! r = Some v -> copy σ r = Some (length σ, σ ++ [v]).
Proof. intros Hr. unfold copy. by rewrite Hr. Qed.

(** The getter answers [None] for an absent attribute, and else a reference
    to a new bytearray with the content of the attribute. *)
Lemma bytearray_getter_holds (σ : list (list byte)) attr v :
  holds σ attr v ->
  exists res,
    bytearray_getter attr σ
    = Some (res, if attr is Some _ then σ ++ [default [] v] else σ) /\
    holds (if attr is Some _ then σ ++ [default [] v] else σ) res v /\
    (res = if attr is Some _ then Some (length σ) else None).
Proof.
  destruct attr as [r|], v as [b|]; cbn [holds]; try done.
  - intros Hr. exists (Some (length σ)). cbn [bytearray_getter].
    rewrite (copy_Some _ _ _ Hr). repeat split.
    cbn [holds default]. by rewrite lookup_app_r, Nat.sub_diag by lia.
  - intros _. by exists None.
Qed.

(** C10.  A decoded SendDataRequest always has file data: [create_packet]
    passes the slice [raw[...:-1]], which is a bytearray also when it is
    empty, so a frame without trailing bytes decodes to a packet whose
    [file_data] accessor returns an empty bytearray, while the accessor of a
    packet constructed without file data returns [None]. *)
Theorem SendDataRequest_decodes_file_data_present `{Externals} :
  (forall raw m p,
     SendDataRequestPacket.create_packet raw m = Ok p ->
     exists d, SendDataRequestPacket.file_data p = Some d) /\
  (forall raw m pl cl path ct code,
     well_framed SEND_DATA_REQUEST raw m ->
     raw !! 5%nat = Some pl ->
     raw !! (6 + byte_to_nat pl)%nat = Some cl ->
     utf8_decode (slice raw 6 (6 + byte_to_nat pl)) = Ok path ->
     utf8_decode (slice raw (7 + byte_to_nat pl)
                    (7 + byte_to_nat pl + byte_to_nat cl)) = Ok ct ->
     raw !! (8 + byte_to_nat pl + byte_to_nat cl)%nat = Some code ->
     length raw = (10 + byte_to_nat pl + byte_to_nat cl)%nat ->
     exists fid,
       raw !! 4%nat = Some fid /\
       SendDataRequestPacket.create_packet raw m
       = Ok (SendDataRequestPacket.mk bytes m (byte_to_Z fid) (Some path)
               (Some ct) 0 (SendDataRequestOptions_get code) (Some []))) /\
  (forall fid path ct o m p,
     SendDataRequestPacket.__init__ fid path ct o (@None bytes) m = Ok p ->
     SendDataRequestPacket.file_data p = None) /\
  (forall (self : SendDataRequestPacket.t nat) (σ : list (list byte)),
     holds σ (SendDataRequestPacket.file_data self) (Some []) ->
     exists r' σ',
       SendDataRequestPacket.file_data_getter self σ = Some (Some r', σ') /\
       σ' !! r' = Some []) /\
  (forall (self : SendDataRequestPacket.t nat) (σ : list (list byte)),
     holds σ (SendDataRequestPacket.file_data self) None ->
     SendDataRequestPacket.file_data_getter self σ = Some (None, σ)).
Proof.
  repeat apply conj.
  - intros raw m p. unfold SendDataRequestPacket.create_packet,
      SendDataRequestPacket.__init__, mbind, result_bind, fmap, result_fmap.
    intros Hp. repeat (case_match; try discriminate).
    injection Hp as <-. eauto.
  - intros raw m pl cl path ct code Hwf H5 H6 Hpath Hct Hcode Hlen.
    destruct (SendDataRequestPacket_create_packet_eq raw m Hwf)
      as (fid & pl' & Hfid & Hpl & ->).
    assert (pl' = pl) as -> by congruence.
    exists fid. split; [done|].
    rewrite (index_Ok _ _ _ H6). monad_simpl. rewrite Hpath. monad_simpl.
    replace (6 + byte_to_nat pl + 1)%nat with (7 + byte_to_nat pl)%nat by lia.
    rewrite Hct. monad_simpl.
    replace (6 + byte_to_nat pl + 2 + byte_to_nat cl)%nat
      with (8 + byte_to_nat pl + byte_to_nat cl)%nat by lia.
    rewrite (index_Ok _ _ _ Hcode). monad_simpl.
    by rewrite slice_to_last_beyond by lia.
  - intros fid path ct o m p. unfold SendDataRequestPacket.__init__.
    case_decide; [done|]. by intros [= <-].
  - intros self σ Hholds. unfold SendDataRequestPacket.file_data_getter.
    destruct (bytearray_getter_holds _ _ _ Hholds) as (res & Hget & Hres & ->).
    destruct (SendDataRequestPacket.file_data self) as [r|]; [|done].
    eauto.
  - intros self σ Hholds. unfold SendDataRequestPacket.file_data_getter.
    by destruct (SendDataRequestPacket.file_data self).
Qed.

(** ** Ownership of the bytearrays (C7) *)

Lemma mutate_lookup_eq (σ : list (list byte)) (r : nat) (v v' : bytes) :
  σ !! r = Some v -> mutate σ r v' !! r = Some v'.
Proof.
  intros Hr. unfold mutate. apply list_lookup_insert_eq.
  by apply lookup_lt_Some in Hr.
Qed.

Lemma mutate_lookup_ne (σ : list (list byte)) (r r' : nat) (v' : bytes) :
  r ≠ r' -> mutate σ r v' !! r' = σ !! r'.
Proof. intros Hne. unfold mutate. by apply list_lookup_insert_ne. Qed.

(** The setters copy: a later write to the bytearray of the caller leaves
    the content of the attribute as it was. *)
Lemma bytearray_setter_copies (σ : list (list byte)) (r : nat) (v : bytes) :
  σ !! r = Some v ->
  exists r',
    bytearray_setter (Some r) σ = Some (Some r', σ ++ [v]) /\
    forall v', holds (mutate (σ ++ [v]) r v') (Some r') (Some v).
Proof.
  intros Hr. exists (length σ). cbn [bytearray_setter].
  rewrite (copy_Some _ _ _ Hr). split; [done|]. intros v'. cbn [holds].
  pose proof (lookup_lt_Some _ _ _ Hr).
  rewrite mutate_lookup_ne by lia.
  by rewrite lookup_app_r, Nat.sub_diag by lia.
Qed.

(** The getters copy: a write to the bytearray they return leaves the
    content of the attribute as it was. *)
Lemma bytearray_getter_copies (σ : list (list byte)) (r : nat) (v : bytes) :
  σ !! r = Some v ->
  exists r',
    bytearray_getter (Some r) σ = Some (Some r', σ ++ [v]) /\
    forall v', holds (mutate (σ ++ [v]) r' v') (Some r) (Some v).
Proof.
  intros Hr. exists (length σ). cbn [bytearray_getter].
  rewrite (copy_Some _ _ _ Hr). split; [done|]. intros v'. cbn [holds].
  pose proof (lookup_lt_Some _ _ _ Hr).
  rewrite mutate_lookup_ne by lia.
  by rewrite lookup_app_l by lia.
Qed.

(** After a write to the bytearray an attribute refers to, the getter
    returns the new content. *)
Lemma bytearray_getter_after_mutate (σ : list (list byte)) (r : nat) (v v' : bytes) :
  σ !! r = Some v ->
  exists r' σ',
    bytearray_getter (Some r) (mutate σ r v') = Some (Some r', σ') /\
    σ' !! r' = Some v'.
Proof.
  intros Hr. apply (mutate_lookup_eq _ _ _ v') in Hr.
  exists (length (mutate σ r v')), (mutate σ r v' ++ [v']).
  cbn [bytearray_getter]. rewrite (copy_Some _ _ _ Hr). split; [done|].
  by rewrite lookup_app_r, Nat.sub_diag by lia.
Qed.

(** C7, where the code departs from it.  The constructors of
    DeviceRequestPacket, DeviceResponsePacket and SendDataRequestPacket
    store the bytearray they are given, not a copy of it: after the caller
    writes to its own buffer, the payload getter of the packet returns the
    new content [v'] in place of the content [v] the packet was constructed
    from. *)
Theorem constructor_shares_the_bytearray `{Externals} :
  forall (σ : list (list byte)) (r : nat) (v v' : bytes),
    σ !! r = Some v ->
    (forall rid target m p,
       DeviceRequestPacket.__init__ rid target (Some r) m = Ok p ->
       holds σ (DeviceRequestPacket.req_data p) (Some v) /\
       exists r' σ',
         DeviceRequestPacket.request_data_getter p (mutate σ r v')
         = Some (Some r', σ') /\ σ' !! r' = Some v') /\
    (forall fid rid m p,
       DeviceResponsePacket.__init__ fid rid (Some r) m = Ok p ->
       holds σ (DeviceResponsePacket.resp_data p) (Some v) /\
       exists r' σ',
         DeviceResponsePacket.request_data_getter p (mutate σ r v')
         = Some (Some r', σ') /\ σ' !! r' = Some v') /\
    (forall fid path ct o m p,
       SendDataRequestPacket.__init__ fid path ct o (Some r) m = Ok p ->
       holds σ (SendDataRequestPacket.file_data p) (Some v) /\
       exists r' σ',
         SendDataRequestPacket.file_data_getter p (mutate σ r v')
         = Some (Some r', σ') /\ σ' !! r' = Some v').
Proof.
  intros σ r v v' Hr. repeat apply conj.
  - intros rid target m p. unfold DeviceRequestPacket.__init__.
    repeat case_match; try done. intros [= <-]. split; [done|].
    by apply bytearray_getter_after_mutate with v.
  - intros fid rid m p. unfold DeviceResponsePacket.__init__.
    repeat case_match; try done. intros [= <-]. split; [done|].
    by apply bytearray_getter_after_mutate with v.
  - intros fid path ct o m p. unfold SendDataRequestPacket.__init__.
    repeat case_match; try done. intros [= <-]. split; [done|].
    by apply bytearray_getter_after_mutate with v.
Qed.

(** The setters of the three payloads do make the copy the constructors
    lack. *)
Lemma payload_setters_copy `{Externals} :
  forall (σ : list (list byte)) (r : nat) (v : bytes),
    σ !! r = Some v ->
    (forall self, exists p,
       DeviceRequestPacket.request_data_setter (Some r) self σ
       = Some (p, σ ++ [v]) /\
       forall v', holds (mutate (σ ++ [v]) r v')
                    (DeviceRequestPacket.req_data p) (Some v)) /\
    (forall self, exists p,
       DeviceResponsePacket.request_data_setter (Some r) self σ
       = Some (p, σ ++ [v]) /\
       forall v', holds (mutate (σ ++ [v]) r v')
                    (DeviceResponsePacket.resp_data p) (Some v)) /\
    (forall self, exists p,
       SendDataRequestPacket.file_data_setter (Some r) self σ
       = Some (p, σ ++ [v]) /\
       forall v', holds (mutate (σ ++ [v]) r v')
                    (SendDataRequestPacket.file_data p) (Some v)).
Proof.
  intros σ r v Hr.
  destruct (bytearray_setter_copies σ r v Hr) as (r' & Hset & Hkeep).
  repeat apply conj; intros self;
    unfold DeviceRequestPacket.request_data_setter,
      DeviceResponsePacket.request_data_setter,
      SendDataRequestPacket.file_data_setter;
    rewrite Hset; cbn; eauto.
Qed.

(** ** Round trip (C1) *)

Lemma Z_is_byte (n : Z) :
  0 <= n <= 255 -> exists b : byte, n = byte_to_Z b /\ byte_to_nat b = Z.to_nat n.
Proof.
  intros Hn. exists (byte_of_N (Z.to_N n)). unfold byte_to_Z, byte_to_nat.
  rewrite byte_to_N_of_N by lia. lia.
Qed.

Lemma slice_from {A} (l : list A) (a n : nat) :
  slice l a (a + n) = take n (drop a l).
Proof. unfold slice. f_equal. lia. Qed.

Lemma take_app_exact {A} (l k : list A) (n : nat) :
  n = length l -> take n (l ++ k) = l.
Proof. intros ->. apply take_app_length. Qed.

Lemma slice_app_mid {A} (pre mid post : list A) (a b : nat) :
  a = length pre -> b = (a + length mid)%nat ->
  slice (pre ++ mid ++ post) a b = mid.
Proof.
  intros -> ->. rewrite slice_from, drop_app_length. apply take_app_length.
Qed.

Lemma slice_to_last_app {A} (pre mid : list A) (x : A) (a : nat) :
  a = length pre -> slice_to_last (pre ++ mid ++ [x]) a = mid.
Proof.
  intros ->. unfold slice_to_last. apply slice_app_mid; [done|].
  rewrite !length_app. cbn [length]. lia.
Qed.

Lemma carries_shape `{Externals} ft raw body :
  carries ft raw body ->
  exists h l1 l2 ck, raw = h :: l1 :: l2 :: body ++ [ck].
Proof.
  intros [Hck <-]. apply check_api_packet_Ok_length in Hck.
  pose proof (min_packet_length_bounds ft). apply frame_shape. lia.
Qed.

Lemma carries_well_framed `{Externals} ft raw body m :
  supported m -> carries ft raw (aft_code ft :: body) -> well_framed ft raw m.
Proof.
  intros Hm Hc. destruct (carries_shape _ _ _ Hc) as (h & l1 & l2 & ck & ->).
  destruct Hc as [Hck _]. by repeat split.
Qed.

Lemma DeviceRequest_round_trip `{Externals} rid (t : str) d m :
  int_to_bytes_one_byte ->
  0 <= rid <= 255 ->
  is_ascii t -> (length t <= 255)%nat ->
  DeviceRequest_payload t d ->
  exists p body,
    DeviceRequestPacket.__init__ rid (Some t) d m = Ok p /\
    DeviceRequestPacket.frame_spec_data p = Ok body /\
    forall raw,
      supported m -> carries DEVICE_REQUEST raw body ->
      DeviceRequestPacket.create_packet raw m = Ok p.
Proof.
  intros Hitb Hrid Hascii Hlen Hd.
  destruct (Z_is_byte rid Hrid) as (br & -> & _).
  destruct (Z_is_byte (Z.of_nat (length t))) as (bt & Hbt & Hbt'); [lia|].
  rewrite Nat2Z.id in Hbt'.
  exists (DeviceRequestPacket.mk bytes m (byte_to_Z br) 0 0 (Some t) d),
    (aft_code DEVICE_REQUEST :: br :: x00 :: x00 :: bt
       :: (byte_of_N <$> t) ++ default [] d).
  split; [|split].
  - unfold DeviceRequestPacket.__init__,
      DeviceRequestPacket.is_not_None_and_len_gt_255.
    rewrite decide_False by lia. by rewrite bool_decide_eq_false_2 by lia.
  - unfold DeviceRequestPacket.frame_spec_data,
      DeviceRequestPacket._get_api_packet_spec_data, get_frame_spec_data,
      DeviceRequestPacket.needs_id.
    cbn [DeviceRequestPacket.req_id DeviceRequestPacket.transport
         DeviceRequestPacket.flags DeviceRequestPacket.target
         DeviceRequestPacket.req_data].
    rewrite Hbt, (utf8_encode_ascii t Hascii). monad_simpl.
    change 0 with (byte_to_Z x00). rewrite !Hitb.
    cbn [app]. destruct d; monad_simpl; cbn [default app];
      by rewrite ?app_nil_r.
  - intros raw Hm Hc.
    assert (Hwf : well_framed DEVICE_REQUEST raw m)
      by by eapply carries_well_framed.
    destruct (DeviceRequestPacket_create_packet_eq raw m Hwf)
      as (rid' & tl & Hrid' & Htl & ->).
    destruct (carries_shape _ _ _ Hc) as (h & l1 & l2 & ck & Hraw).
    assert (Hraw1 : raw = [h; l1; l2; aft_code DEVICE_REQUEST; br; x00; x00; bt]
                          ++ (byte_of_N <$> t) ++ default [] d ++ [ck])
      by (rewrite Hraw; cbn [app]; by rewrite <- app_assoc).
    assert (Hraw2 : raw = ([h; l1; l2; aft_code DEVICE_REQUEST; br; x00; x00; bt]
                           ++ (byte_of_N <$> t)) ++ default [] d ++ [ck])
      by (rewrite Hraw1; by rewrite <- app_assoc).
    assert (Hlraw : length raw = (9 + length t + length (default [] d))%nat).
    { rewrite Hraw1. cbn [app length].
      rewrite !length_app, length_fmap. cbn [length]. lia. }
    rewrite Hraw1 in Hrid', Htl. cbn [app lookup list_lookup] in Hrid', Htl.
    assert (rid' = br) as -> by congruence.
    assert (tl = bt) as -> by congruence.
    rewrite Hbt'.
    replace (slice raw 8 (8 + length t)) with (byte_of_N <$> t)
      by (rewrite Hraw1; symmetry; apply slice_app_mid;
          [done|by rewrite length_fmap]).
    replace (slice_to_last raw (8 + length t)) with (default [] d)
      by (rewrite Hraw2; symmetry; apply slice_to_last_app;
          rewrite length_app, length_fmap; done).
    rewrite (utf8_decode_ascii t Hascii). monad_simpl.
    unfold DeviceRequestPacket.__MIN_PACKET_LENGTH. rewrite Hlraw.
    destruct d as [[|x d']|];
      cbn [DeviceRequest_payload from_option id length] in *.
    + done.
    + by rewrite decide_True by lia.
    + subst t. by rewrite decide_False by (cbn [length]; lia).
Qed.

Ltac same_list :=
  repeat (rewrite <- app_assoc || cbn [app]); reflexivity.

Lemma DeviceResponse_round_trip `{Externals} fid rid d m :
  int_to_bytes_one_byte ->
  0 <= fid <= 255 -> 0 <= rid <= 255 ->
  DeviceResponse_payload d ->
  exists p body,
    DeviceResponsePacket.__init__ fid rid d m = Ok p /\
    DeviceResponsePacket.frame_spec_data p = Ok body /\
    forall raw,
      supported m -> carries DEVICE_RESPONSE raw body ->
      DeviceResponsePacket.create_packet raw m = Ok p.
Proof.
  intros Hitb Hfid Hrid Hd.
  destruct (Z_is_byte fid Hfid) as (bf & -> & _).
  destruct (Z_is_byte rid Hrid) as (br & -> & _).
  exists (DeviceResponsePacket.mk bytes m (byte_to_Z bf) (byte_to_Z br) d),
    (aft_code DEVICE_RESPONSE :: bf :: br :: x00 :: default [] d).
  split; [|split].
  - unfold DeviceResponsePacket.__init__. by rewrite !decide_False by lia.
  - unfold DeviceResponsePacket.frame_spec_data,
      DeviceResponsePacket._get_api_packet_spec_data, get_frame_spec_data,
      DeviceResponsePacket.needs_id.
    cbn [DeviceResponsePacket.req_id DeviceResponsePacket._frame_id
         DeviceResponsePacket.resp_data].
    change 0 with (byte_to_Z x00). rewrite !Hitb.
    destruct d; monad_simpl; cbn [from_option id app]; by rewrite ?app_nil_r.
  - intros raw Hm Hc.
    assert (Hwf : well_framed DEVICE_RESPONSE raw m)
      by by eapply carries_well_framed.
    destruct (DeviceResponsePacket_create_packet_eq raw m Hwf)
      as (fid' & rid' & Hfid' & Hrid' & ->).
    destruct (carries_shape _ _ _ Hc) as (h & l1 & l2 & ck & Hraw).
    assert (Hraw1 : raw = [h; l1; l2; aft_code DEVICE_RESPONSE; bf; br; x00]
                          ++ default [] d ++ [ck])
      by (rewrite Hraw; same_list).
    assert (Hlraw : length raw = (8 + length (default [] d))%nat).
    { rewrite Hraw1. cbn [app length]. rewrite !length_app. cbn [length]. lia. }
    rewrite Hraw1 in Hfid', Hrid'. cbn [app lookup list_lookup] in Hfid', Hrid'.
    assert (fid' = bf) as -> by congruence.
    assert (rid' = br) as -> by congruence.
    replace (slice_to_last raw 7) with (default [] d)
      by (rewrite Hraw1; symmetry; by apply slice_to_last_app).
    unfold DeviceResponsePacket.__MIN_PACKET_LENGTH. rewrite Hlraw.
    destruct d as [[|x d']|];
      cbn [DeviceResponse_payload from_option id length] in *.
    + done.
    + by rewrite decide_True by lia.
    + by rewrite decide_False by lia.
Qed.

Lemma DeviceResponseStatus_round_trip `{Externals} fid s m :
  int_to_bytes_one_byte ->
  0 <= fid <= 255 ->
  registered DeviceCloudStatus_get DeviceCloudStatus_code s ->
  exists p body,
    DeviceResponseStatusPacket.__init__ fid s m = Ok p /\
    DeviceResponseStatusPacket.frame_spec_data p = Ok body /\
    forall raw,
      supported m -> carries DEVICE_RESPONSE_STATUS raw body ->
      DeviceResponseStatusPacket.create_packet raw m = Ok p.
Proof.
  intros Hitb Hfid (bs & Hcode & Hget).
  destruct (Z_is_byte fid Hfid) as (bf & -> & _).
  exists (DeviceResponseStatusPacket.mk m (byte_to_Z bf) s),
    [aft_code DEVICE_RESPONSE_STATUS; bf; bs].
  split; [|split].
  - unfold DeviceResponseStatusPacket.__init__. by rewrite decide_False by lia.
  - unfold DeviceResponseStatusPacket.frame_spec_data,
      DeviceResponseStatusPacket._get_api_packet_spec_data, get_frame_spec_data,
      DeviceResponseStatusPacket.needs_id.
    cbn [DeviceResponseStatusPacket.status DeviceResponseStatusPacket._frame_id].
    by rewrite Hcode, !Hitb.
  - intros raw Hm Hc.
    assert (Hwf : well_framed DEVICE_RESPONSE_STATUS raw m)
      by by eapply carries_well_framed.
    destruct (DeviceResponseStatusPacket_create_packet_eq raw m Hwf)
      as (fid' & code' & Hfid' & Hcode' & ->).
    destruct (carries_shape _ _ _ Hc) as (h & l1 & l2 & ck & ->).
    cbn [app lookup list_lookup] in Hfid', Hcode'. by simplify_eq.
Qed.

Lemma FrameError_round_trip `{Externals} e m :
  int_to_bytes_one_byte ->
  registered FrameError_get FrameError_code e ->
  exists p body,
    FrameErrorPacket.__init__ e m = Ok p /\
    FrameErrorPacket.frame_spec_data p = Ok body /\
    forall raw,
      supported m -> carries FRAME_ERROR raw body ->
      FrameErrorPacket.create_packet raw m = Ok p.
Proof.
  intros Hitb (be & Hcode & Hget).
  exists (FrameErrorPacket.mk m e), [aft_code FRAME_ERROR; be].
  split; [done|split].
  - unfold FrameErrorPacket.frame_spec_data,
      FrameErrorPacket._get_api_packet_spec_data, get_frame_spec_data,
      FrameErrorPacket.needs_id.
    cbn [FrameErrorPacket.frame_error]. by rewrite Hcode, !Hitb.
  - intros raw Hm Hc.
    assert (Hwf : well_framed FRAME_ERROR raw m)
      by by eapply carries_well_framed.
    destruct (FrameErrorPacket_create_packet_eq raw m Hwf)
      as (code' & Hcode' & ->).
    destruct (carries_shape _ _ _ Hc) as (h & l1 & l2 & ck & ->).
    cbn [app lookup list_lookup] in Hcode'. by simplify_eq.
Qed.

Lemma SendDataResponse_round_trip `{Externals} fid s m :
  int_to_bytes_one_byte ->
  0 <= fid <= 255 ->
  registered DeviceCloudStatus_get DeviceCloudStatus_code s ->
  exists p body,
    SendDataResponsePacket.__init__ fid s m = Ok p /\
    SendDataResponsePacket.frame_spec_data p = Ok body /\
    forall raw,
      supported m -> carries SEND_DATA_RESPONSE raw body ->
      SendDataResponsePacket.create_packet raw m = Ok p.
Proof.
  intros Hitb Hfid (bs & Hcode & Hget).
  destruct (Z_is_byte fid Hfid) as (bf & -> & _).
  exists (SendDataResponsePacket.mk m (byte_to_Z bf) s),
    [aft_code SEND_DATA_RESPONSE; bf; bs].
  split; [|split].
  - unfold SendDataResponsePacket.__init__. by rewrite decide_False by lia.
  - unfold SendDataResponsePacket.frame_spec_data,
      SendDataResponsePacket._get_api_packet_spec_data, get_frame_spec_data,
      SendDataResponsePacket.needs_id.
    cbn [SendDataResponsePacket.status SendDataResponsePacket._frame_id].
    by rewrite Hcode, !Hitb.
  - intros raw Hm Hc.
    assert (Hwf : well_framed SEND_DATA_RESPONSE raw m)
      by by eapply carries_well_framed.
    destruct (SendDataResponsePacket_create_packet_eq raw m Hwf)
      as (fid' & code' & Hfid' & Hcode' & ->).
    destruct (carries_shape _ _ _ Hc) as (h & l1 & l2 & ck & ->).
    cbn [app lookup list_lookup] in Hfid', Hcode'. by simplify_eq.
Qed.

Lemma SendDataRequest_round_trip `{Externals} fid (path ct : str) o (d : bytes) m :
  int_to_bytes_one_byte ->
  0 <= fid <= 255 ->
  is_ascii path -> (length path <= 255)%nat ->
  is_ascii ct -> (length ct <= 255)%nat ->
  registered SendDataRequestOptions_get SendDataRequestOptions_code o ->
  exists p body,
    SendDataRequestPacket.__init__ fid (Some path) (Some ct) o (Some d) m = Ok p /\
    SendDataRequestPacket.frame_spec_data p = Ok body /\
    forall raw,
      supported m -> carries SEND_DATA_REQUEST raw body ->
      SendDataRequestPacket.create_packet raw m = Ok p.
Proof.
  intros Hitb Hfid Hpa Hpl Hca Hcl (bo & Hcode & Hget).
  destruct (Z_is_byte fid Hfid) as (bf & -> & _).
  destruct (Z_is_byte (Z.of_nat (length path))) as (bp & Hbp & Hbp'); [lia|].
  destruct (Z_is_byte (Z.of_nat (length ct))) as (bc & Hbc & Hbc'); [lia|].
  rewrite Nat2Z.id in Hbp', Hbc'.
  set (pb := byte_of_N <$> path). set (cb := byte_of_N <$> ct).
  assert (Hlpb : length pb = length path) by apply length_fmap.
  assert (Hlcb : length cb = length ct) by apply length_fmap.
  exists (SendDataRequestPacket.mk bytes m (byte_to_Z bf) (Some path) (Some ct)
            0 o (Some d)),
    (aft_code SEND_DATA_REQUEST :: bf :: bp :: pb ++ bc :: cb ++ x00 :: bo :: d).
  split; [|split].
  - unfold SendDataRequestPacket.__init__. by rewrite decide_False by lia.
  - unfold SendDataRequestPacket.frame_spec_data,
      SendDataRequestPacket._get_api_packet_spec_data, get_frame_spec_data,
      SendDataRequestPacket.needs_id.
    cbn [SendDataRequestPacket.path SendDataRequestPacket.content_type
         SendDataRequestPacket.opts SendDataRequestPacket.file_data
         SendDataRequestPacket._frame_id].
    rewrite Hbp, Hbc, Hcode, (utf8_encode_ascii path Hpa),
      (utf8_encode_ascii ct Hca).
    change 0 with (byte_to_Z x00). rewrite !Hitb. monad_simpl.
    f_equal. same_list.
  - intros raw Hm Hc.
    assert (Hwf : well_framed SEND_DATA_REQUEST raw m)
      by by eapply carries_well_framed.
    destruct (SendDataRequestPacket_create_packet_eq raw m Hwf)
      as (fid' & pl & Hfid' & Hpl' & Heq).
    cbn zeta in Heq. rewrite Heq. clear Heq.
    destruct (carries_shape _ _ _ Hc) as (h & l1 & l2 & ck & Hraw).
    set (p6 := [h; l1; l2; aft_code SEND_DATA_REQUEST; bf; bp]).
    assert (F1 : raw = (p6 ++ pb) ++ bc :: (cb ++ x00 :: bo :: d ++ [ck]))
      by (rewrite Hraw; same_list).
    assert (F2 : raw = p6 ++ pb ++ (bc :: cb ++ x00 :: bo :: d ++ [ck]))
      by (rewrite Hraw; same_list).
    assert (F3 : raw = (p6 ++ pb ++ [bc]) ++ cb ++ (x00 :: bo :: d ++ [ck]))
      by (rewrite Hraw; same_list).
    assert (F4 : raw = (p6 ++ pb ++ [bc] ++ cb ++ [x00]) ++ bo :: (d ++ [ck]))
      by (rewrite Hraw; same_list).
    assert (F5 : raw = (p6 ++ pb ++ [bc] ++ cb ++ [x00; bo]) ++ d ++ [ck])
      by (rewrite Hraw; same_list).
    rewrite F2 in Hfid', Hpl'. cbn [p6 app lookup list_lookup] in Hfid', Hpl'.
    assert (fid' = bf) as -> by congruence.
    assert (pl = bp) as -> by congruence.
    rewrite Hbp'.
    assert (G1 : raw !! (6 + length path)%nat = Some bc).
    { rewrite F1. apply list_lookup_middle.
      rewrite length_app, Hlpb. done. }
    rewrite (index_Ok _ _ _ G1). monad_simpl. rewrite Hbc'.
    replace (slice raw 6 (6 + length path)) with pb
      by (rewrite F2; symmetry; apply slice_app_mid; [done|by rewrite Hlpb]).
    fold pb in Hpa. unfold pb.
    rewrite (utf8_decode_ascii path Hpa). monad_simpl.
    replace (slice raw (6 + length path + 1) (6 + length path + 1 + length ct))
      with cb
      by (rewrite F3; symmetry; apply slice_app_mid;
          [rewrite !length_app, Hlpb; cbn [length p6]; lia|by rewrite Hlcb]).
    unfold cb. rewrite (utf8_decode_ascii ct Hca). monad_simpl.
    assert (G2 : raw !! (6 + length path + 2 + length ct)%nat = Some bo).
    { rewrite F4. apply list_lookup_middle.
      rewrite !length_app, Hlpb, Hlcb. cbn [length p6]. lia. }
    rewrite (index_Ok _ _ _ G2). monad_simpl.
    replace (slice_to_last raw (6 + length path + 3 + length ct)) with d
      by (rewrite F5; symmetry; apply slice_to_last_app;
          rewrite !length_app, Hlpb, Hlcb; cbn [length p6]; lia).
    by rewrite Hget.
Qed.

(** C1, as amended.  For each of the six kinds, constructing a packet from
    field values within their ranges, encoding it and decoding a frame that
    carries the encoded body gives back the constructed packet, when
    - every text field ([target], [path], [content_type]) is present and is
      an ASCII string of 255 characters at most;
    - the request data of a DeviceRequest has one byte or more, or is absent
      next to an empty target;
    - the response data of a DeviceResponse is absent or has one byte or
      more;
    - the file data of a SendDataRequest is present;
    - a status, error or options symbol is the one its one-byte code
      resolves to. *)
Theorem round_trip `{Externals} :
  int_to_bytes_one_byte ->
  (forall rid (t : str) d m,
     0 <= rid <= 255 -> is_ascii t -> (length t <= 255)%nat ->
     DeviceRequest_payload t d ->
     exists p body,
       DeviceRequestPacket.__init__ rid (Some t) d m = Ok p /\
       encode (DeviceRequest p) = Ok body /\
       forall raw,
         supported m -> carries DEVICE_REQUEST raw body ->
         decode DEVICE_REQUEST raw m = Ok (DeviceRequest p)) /\
  (forall fid rid d m,
     0 <= fid <= 255 -> 0 <= rid <= 255 -> DeviceResponse_payload d ->
     exists p body,
       DeviceResponsePacket.__init__ fid rid d m = Ok p /\
       encode (DeviceResponse p) = Ok body /\
       forall raw,
         supported m -> carries DEVICE_RESPONSE raw body ->
         decode DEVICE_RESPONSE raw m = Ok (DeviceResponse p)) /\
  (forall fid s m,
     0 <= fid <= 255 ->
     registered DeviceCloudStatus_get DeviceCloudStatus_code s ->
     exists p body,
       DeviceResponseStatusPacket.__init__ fid s m = Ok p /\
       encode (DeviceResponseStatus p) = Ok body /\
       forall raw,
         supported m -> carries DEVICE_RESPONSE_STATUS raw body ->
         decode DEVICE_RESPONSE_STATUS raw m = Ok (DeviceResponseStatus p)) /\
  (forall e m,
     registered FrameError_get FrameError_code e ->
     exists p body,
       FrameErrorPacket.__init__ e m = Ok p /\
       encode (FrameErrorP p) = Ok body /\
       forall raw,
         supported m -> carries FRAME_ERROR raw body ->
         decode FRAME_ERROR raw m = Ok (FrameErrorP p)) /\
  (forall fid (path ct : str) o (d : bytes) m,
     0 <= fid <= 255 ->
     is_ascii path -> (length path <= 255)%nat ->
     is_ascii ct -> (length ct <= 255)%nat ->
     registered SendDataRequestOptions_get SendDataRequestOptions_code o ->
     exists p body,
       SendDataRequestPacket.__init__ fid (Some path) (Some ct) o (Some d) m
       = Ok p /\
       encode (SendDataRequest p) = Ok body /\
       forall raw,
         supported m -> carries SEND_DATA_REQUEST raw body ->
         decode SEND_DATA_REQUEST raw m = Ok (SendDataRequest p)) /\
  (forall fid s m,
     0 <= fid <= 255 ->
     registered DeviceCloudStatus_get DeviceCloudStatus_code s ->
     exists p body,
       SendDataResponsePacket.__init__ fid s m = Ok p /\
       encode (SendDataResponse p) = Ok body /\
       forall raw,
         supported m -> carries SEND_DATA_RESPONSE raw body ->
         decode SEND_DATA_RESPONSE raw m = Ok (SendDataResponse p)).
Proof.
  intros Hitb. repeat apply conj.
  - intros rid t d m Hrid Ht Hlen Hd.
    destruct (DeviceRequest_round_trip rid t d m Hitb Hrid Ht Hlen Hd)
      as (p & body & Hp & Hbody & Hdec).
    exists p, body. repeat split; [done..|].
    intros raw Hm Hc. cbn [decode]. by rewrite (Hdec raw Hm Hc).
  - intros fid rid d m Hfid Hrid Hd.
    destruct (DeviceResponse_round_trip fid rid d m Hitb Hfid Hrid Hd)
      as (p & body & Hp & Hbody & Hdec).
    exists p, body. repeat split; [done..|].
    intros raw Hm Hc. cbn [decode]. by rewrite (Hdec raw Hm Hc).
  - intros fid s m Hfid Hs.
    destruct (DeviceResponseStatus_round_trip fid s m Hitb Hfid Hs)
      as (p & body & Hp & Hbody & Hdec).
    exists p, body. repeat split; [done..|].
    intros raw Hm Hc. cbn [decode]. by rewrite (Hdec raw Hm Hc).
  - intros e m He.
    destruct (FrameError_round_trip e m Hitb He)
      as (p & body & Hp & Hbody & Hdec).
    exists p, body. repeat split; [done..|].
    intros raw Hm Hc. cbn [decode]. by rewrite (Hdec raw Hm Hc).
  - intros fid path ct o d m Hfid Hpa Hpl Hca Hcl Ho.
    destruct (SendDataRequest_round_trip fid path ct o d m
                Hitb Hfid Hpa Hpl Hca Hcl Ho)
      as (p & body & Hp & Hbody & Hdec).
    exists p, body. repeat split; [done..|].
    intros raw Hm Hc. cbn [decode]. by rewrite (Hdec raw Hm Hc).
  - intros fid s m Hfid Hs.
    destruct (SendDataResponse_round_trip fid s m Hitb Hfid Hs)
      as (p & body & Hp & Hbody & Hdec).
    exists p, body. repeat split; [done..|].
    intros raw Hm Hc. cbn [decode]. by rewrite (Hdec raw Hm Hc).
Qed.

(** * Further properties of the packet classes *)

(** ** When decoding succeeds and what it raises *)

Lemma supported_dec (m : OperatingMode) : supported m \/ ~ supported m.
Proof.
  unfold supported. destruct m; [by left; left|by left; right|right].
  intros [Hm|Hm]; discriminate Hm.
Qed.

Lemma decode_Ok_well_framed `{Externals} ft raw m p :
  decode ft raw m = Ok p -> well_framed ft raw m.
Proof.
  intros Hp. pose proof (min_packet_length_bounds ft) as Hmin.
  destruct (supported_dec m) as [Hm|Hm];
    [|by rewrite (decode_mode_raises ft raw m Hm) in Hp].
  destruct (check_api_packet_cases raw (min_packet_length ft))
    as [Hck|(why & Hck & _)]; [lia| |];
    [|by rewrite (decode_check_raises ft raw m _ Hm Hck) in Hp].
  destruct (decide (raw !! 3%nat = Some (aft_code ft))) as [H3|H3]; [done|].
  pose proof (check_api_packet_Ok_length _ _ Hck).
  rewrite (decode_frame_type_raises ft raw m _ Hm Hck
             (check_frame_type_mismatch raw ft ltac:(lia) H3)) in Hp.
  done.
Qed.

(** X1.  The four kinds without text fields decode exactly the frames that
    pass the checks: with a supported operating mode, a frame accepted by
    [_check_api_packet] and the frame type of the kind at [raw[3]],
    [create_packet] of DeviceResponsePacket, DeviceResponseStatusPacket,
    FrameErrorPacket and SendDataResponsePacket returns a packet, and it
    returns one for no other input. *)
Theorem fixed_layout_decode_succeeds_iff `{Externals} :
  forall ft raw m,
    ft = DEVICE_RESPONSE \/ ft = DEVICE_RESPONSE_STATUS \/
    ft = FRAME_ERROR \/ ft = SEND_DATA_RESPONSE ->
    ((exists p, decode ft raw m = Ok p) <-> well_framed ft raw m).
Proof.
  intros ft raw m Hft. split.
  - intros [p Hp]. by eapply decode_Ok_well_framed.
  - intros Hwf. destruct Hft as [-> | [-> | [-> | ->]]]; cbn [decode].
    + destruct (DeviceResponsePacket_create_packet_eq raw m Hwf)
        as (? & ? & _ & _ & ->). eauto.
    + destruct (DeviceResponseStatusPacket_create_packet_eq raw m Hwf)
        as (? & ? & _ & _ & ->). eauto.
    + destruct (FrameErrorPacket_create_packet_eq raw m Hwf)
        as (? & _ & ->). eauto.
    + destruct (SendDataResponsePacket_create_packet_eq raw m Hwf)
        as (? & ? & _ & _ & ->). eauto.
Qed.

(** X2.  The exceptions of [create_packet], for all six kinds.  An
    unsupported operating mode raises [InvalidOperatingModeException] and
    nothing else does; in a supported mode a frame that fails a check raises
    [InvalidPacketException]; a frame that passes them raises only
    [UnicodeDecodeError], for DeviceRequest and SendDataRequest, or
    [IndexError], for SendDataRequest.  The [ValueError] of the
    constructors never leaves [create_packet]. *)
Theorem decode_exceptions `{Externals} :
  forall ft raw m e,
    decode ft raw m = Raise e ->
    (~ supported m /\ e = InvalidOperatingModeException m) \/
    (supported m /\ ~ well_framed ft raw m /\
     exists why, e = InvalidPacketException why) \/
    (well_framed ft raw m /\ e = UnicodeDecodeError /\
     (ft = DEVICE_REQUEST \/ ft = SEND_DATA_REQUEST)) \/
    (well_framed ft raw m /\ e = IndexError /\ ft = SEND_DATA_REQUEST).
Proof.
  intros ft raw m e He. pose proof (min_packet_length_bounds ft) as Hmin.
  destruct (supported_dec m) as [Hm|Hm].
  2:{ left. rewrite (decode_mode_raises ft raw m Hm) in He.
      by injection He as <-. }
  right.
  destruct (check_api_packet_cases raw (min_packet_length ft))
    as [Hck|(why & Hck & _)]; [lia| |].
  2:{ left. rewrite (decode_check_raises ft raw m _ Hm Hck) in He.
      split; [done|]. split; [|injection He as <-; eauto].
      intros (_ & Hck' & _). congruence. }
  destruct (decide (raw !! 3%nat = Some (aft_code ft))) as [H3|H3].
  2:{ left. pose proof (check_api_packet_Ok_length _ _ Hck).
      rewrite (decode_frame_type_raises ft raw m _ Hm Hck
                 (check_frame_type_mismatch raw ft ltac:(lia) H3)) in He.
      split; [done|]. split; [|injection He as <-; eauto].
      by intros (_ & _ & H3'). }
  right. assert (Hwf : well_framed ft raw m) by done.
  destruct ft; cbn [decode] in He.
  - destruct (DeviceRequestPacket_create_packet_eq raw m Hwf)
      as (? & ? & _ & _ & Heq). rewrite Heq in He. clear Heq.
    unfold utf8_decode in He. destruct (utf8_decode_opt _); [done|].
    injection He as <-. left. eauto.
  - destruct (DeviceResponsePacket_create_packet_eq raw m Hwf)
      as (? & ? & _ & _ & Heq). by rewrite Heq in He.
  - destruct (DeviceResponseStatusPacket_create_packet_eq raw m Hwf)
      as (? & ? & _ & _ & Heq). by rewrite Heq in He.
  - destruct (FrameErrorPacket_create_packet_eq raw m Hwf)
      as (? & _ & Heq). by rewrite Heq in He.
  - destruct (SendDataRequestPacket_create_packet_eq raw m Hwf)
      as (? & ? & _ & _ & Heq). cbn zeta in Heq. rewrite Heq in He. clear Heq.
    unfold index, utf8_decode in He.
    clear Hmin.
    repeat (case_match; monad_simpl; simplify_eq/=); naive_solver.
  - destruct (SendDataResponsePacket_create_packet_eq raw m Hwf)
      as (? & ? & _ & _ & Heq). by rewrite Heq in He.
Qed.

(** ** Decoding follows the layout of the frame data *)

(** Where the fields of a DeviceRequest are in a frame that carries them. *)
Lemma DeviceRequest_frame_parts `{Externals} raw (rid t f tl : byte) (tb d : bytes) :
  carries DEVICE_REQUEST raw
    (aft_code DEVICE_REQUEST :: rid :: t :: f :: tl :: tb ++ d) ->
  raw !! 4%nat = Some rid /\ raw !! 7%nat = Some tl /\
  slice raw 8 (8 + length tb) = tb /\
  slice_to_last raw (8 + length tb) = d /\
  length raw = (9 + length (tb ++ d))%nat.
Proof.
  intros Hc.
  destruct (carries_shape _ _ _ Hc) as (h & l1 & l2 & ck & Hraw).
  assert (Hraw1 : raw = [h; l1; l2; aft_code DEVICE_REQUEST; rid; t; f; tl]
                        ++ tb ++ d ++ [ck])
    by (rewrite Hraw; same_list).
  assert (Hraw2 : raw = ([h; l1; l2; aft_code DEVICE_REQUEST; rid; t; f; tl]
                         ++ tb) ++ d ++ [ck])
    by (rewrite Hraw; same_list).
  repeat apply conj.
  - by rewrite Hraw1.
  - by rewrite Hraw1.
  - rewrite Hraw1 at 1. by apply slice_app_mid.
  - rewrite Hraw2 at 1. apply slice_to_last_app. by rewrite length_app.
  - rewrite Hraw1. cbn [app length]. rewrite !length_app. cbn [length]. lia.
Qed.

Lemma DeviceResponse_frame_parts `{Externals} raw (fid rid res : byte) (d : bytes) :
  carries DEVICE_RESPONSE raw (aft_code DEVICE_RESPONSE :: fid :: rid :: res :: d) ->
  raw !! 4%nat = Some fid /\ raw !! 5%nat = Some rid /\
  slice_to_last raw 7 = d /\ length raw = (8 + length d)%nat.
Proof.
  intros Hc.
  destruct (carries_shape _ _ _ Hc) as (h & l1 & l2 & ck & Hraw).
  assert (Hraw1 : raw = [h; l1; l2; aft_code DEVICE_RESPONSE; fid; rid; res]
                        ++ d ++ [ck])
    by (rewrite Hraw; same_list).
  repeat apply conj.
  - by rewrite Hraw1.
  - by rewrite Hraw1.
  - rewrite Hraw1 at 1. by apply slice_to_last_app.
  - rewrite Hraw1. cbn [app length]. rewrite !length_app. cbn [length]. lia.
Qed.

Lemma SendDataRequest_frame_parts `{Externals} raw (fid pl cl tr oc : byte)
    (pb cb d : bytes) :
  carries SEND_DATA_REQUEST raw
    (aft_code SEND_DATA_REQUEST :: fid :: pl :: pb ++ cl :: cb ++ tr :: oc :: d) ->
  raw !! 4%nat = Some fid /\ raw !! 5%nat = Some pl /\
  raw !! (6 + length pb)%nat = Some cl /\
  slice raw 6 (6 + length pb) = pb /\
  slice raw (6 + length pb + 1) (6 + length pb + 1 + length cb) = cb /\
  raw !! (6 + length pb + 2 + length cb)%nat = Some oc /\
  slice_to_last raw (6 + length pb + 3 + length cb) = d.
Proof.
  intros Hc.
  destruct (carries_shape _ _ _ Hc) as (h & l1 & l2 & ck & Hraw).
  set (p6 := [h; l1; l2; aft_code SEND_DATA_REQUEST; fid; pl]).
  assert (F1 : raw = (p6 ++ pb) ++ cl :: (cb ++ tr :: oc :: d ++ [ck]))
    by (rewrite Hraw; same_list).
  assert (F2 : raw = p6 ++ pb ++ (cl :: cb ++ tr :: oc :: d ++ [ck]))
    by (rewrite Hraw; same_list).
  assert (F3 : raw = (p6 ++ pb ++ [cl]) ++ cb ++ (tr :: oc :: d ++ [ck]))
    by (rewrite Hraw; same_list).
  assert (F4 : raw = (p6 ++ pb ++ [cl] ++ cb ++ [tr]) ++ oc :: (d ++ [ck]))
    by (rewrite Hraw; same_list).
  assert (F5 : raw = (p6 ++ pb ++ [cl] ++ cb ++ [tr; oc]) ++ d ++ [ck])
    by (rewrite Hraw; same_list).
  repeat apply conj.
  - by rewrite F2.
  - by rewrite F2.
  - rewrite F1. apply list_lookup_middle. by rewrite length_app.
  - rewrite F2 at 1. by apply slice_app_mid.
  - rewrite F3 at 1. apply slice_app_mid;
      [rewrite !length_app; cbn [length p6]; lia|done].
  - rewrite F4. apply list_lookup_middle.
    rewrite !length_app. cbn [length p6]. lia.
  - rewrite F5 at 1. apply slice_to_last_app.
    rewrite !length_app. cbn [length p6]. lia.
Qed.

(** What [create_packet] returns on those frames. *)
Lemma DeviceRequest_layout `{Externals} raw m (rid t f tl : byte) (tb d : bytes) :
  supported m ->
  carries DEVICE_REQUEST raw
    (aft_code DEVICE_REQUEST :: rid :: t :: f :: tl :: tb ++ d) ->
  length tb = byte_to_nat tl ->
  DeviceRequestPacket.create_packet raw m
  = (target ← utf8_decode tb;
     Ok (DeviceRequestPacket.mk bytes m (byte_to_Z rid) 0 0 (Some target)
           (match tb ++ d with [] => None | _ => Some d end))).
Proof.
  intros Hm Hc Htb.
  assert (Hwf : well_framed DEVICE_REQUEST raw m)
    by by eapply carries_well_framed.
  destruct (DeviceRequestPacket_create_packet_eq raw m Hwf)
    as (rid' & tl' & Hrid' & Htl' & ->).
  destruct (DeviceRequest_frame_parts _ _ _ _ _ _ _ Hc)
    as (H4 & H7 & Hs & Hsl & Hlraw).
  assert (rid' = rid) as -> by congruence.
  assert (tl' = tl) as -> by congruence.
  rewrite <- Htb, Hs, Hsl.
  unfold DeviceRequestPacket.__MIN_PACKET_LENGTH. rewrite Hlraw.
  destruct (tb ++ d) eqn:E; cbn [length].
  - by rewrite decide_False by lia.
  - by rewrite decide_True by lia.
Qed.

Lemma DeviceResponse_layout `{Externals} raw m (fid rid res : byte) (d : bytes) :
  supported m ->
  carries DEVICE_RESPONSE raw (aft_code DEVICE_RESPONSE :: fid :: rid :: res :: d) ->
  DeviceResponsePacket.create_packet raw m
  = Ok (DeviceResponsePacket.mk bytes m (byte_to_Z fid) (byte_to_Z rid)
          (match d with [] => None | _ => Some d end)).
Proof.
  intros Hm Hc.
  assert (Hwf : well_framed DEVICE_RESPONSE raw m)
    by by eapply carries_well_framed.
  destruct (DeviceResponsePacket_create_packet_eq raw m Hwf)
    as (fid' & rid' & Hfid' & Hrid' & ->).
  destruct (DeviceResponse_frame_parts _ _ _ _ _ Hc) as (H4 & H5 & Hsl & Hlraw).
  assert (fid' = fid) as -> by congruence.
  assert (rid' = rid) as -> by congruence.
  rewrite Hsl. unfold DeviceResponsePacket.__MIN_PACKET_LENGTH. rewrite Hlraw.
  destruct d; cbn [length].
  - by rewrite decide_False by lia.
  - by rewrite decide_True by lia.
Qed.

Lemma SendDataRequest_layout `{Externals} raw m (fid pl cl tr oc : byte)
    (pb cb d : bytes) :
  supported m ->
  carries SEND_DATA_REQUEST raw
    (aft_code SEND_DATA_REQUEST :: fid :: pl :: pb ++ cl :: cb ++ tr :: oc :: d) ->
  length pb = byte_to_nat pl ->
  length cb = byte_to_nat cl ->
  SendDataRequestPacket.create_packet raw m
  = (path ← utf8_decode pb;
     content_type ← utf8_decode cb;
     Ok (SendDataRequestPacket.mk bytes m (byte_to_Z fid) (Some path)
           (Some content_type) 0 (SendDataRequestOptions_get oc) (Some d))).
Proof.
  intros Hm Hc Hpb Hcb.
  assert (Hwf : well_framed SEND_DATA_REQUEST raw m)
    by by eapply carries_well_framed.
  destruct (SendDataRequestPacket_create_packet_eq raw m Hwf)
    as (fid' & pl' & Hfid' & Hpl' & Heq).
  cbn zeta in Heq. rewrite Heq. clear Heq.
  destruct (SendDataRequest_frame_parts _ _ _ _ _ _ _ _ _ Hc)
    as (H4 & H5 & G1 & S1 & S2 & G2 & S3).
  assert (fid' = fid) as -> by congruence.
  assert (pl' = pl) as -> by congruence.
  rewrite <- Hpb, (index_Ok _ _ _ G1). monad_simpl.
  rewrite <- Hcb, S1, S2, (index_Ok _ _ _ G2), S3.
  destruct (utf8_decode pb) as [path|]; [|done]. monad_simpl.
  by destruct (utf8_decode cb) as [ct|].
Qed.

Lemma DeviceResponseStatus_layout `{Externals} raw m (fid code : byte) rest :
  supported m ->
  carries DEVICE_RESPONSE_STATUS raw
    (aft_code DEVICE_RESPONSE_STATUS :: fid :: code :: rest) ->
  DeviceResponseStatusPacket.create_packet raw m
  = Ok (DeviceResponseStatusPacket.mk m (byte_to_Z fid)
          (DeviceCloudStatus_get code)).
Proof.
  intros Hm Hc.
  assert (Hwf : well_framed DEVICE_RESPONSE_STATUS raw m)
    by by eapply carries_well_framed.
  destruct (DeviceResponseStatusPacket_create_packet_eq raw m Hwf)
    as (fid' & code' & Hfid' & Hcode' & ->).
  destruct (carries_shape _ _ _ Hc) as (h & l1 & l2 & ck & ->).
  cbn [app lookup list_lookup] in Hfid', Hcode'. by simplify_eq.
Qed.

Lemma SendDataResponse_layout `{Externals} raw m (fid code : byte) rest :
  supported m ->
  carries SEND_DATA_RESPONSE raw
    (aft_code SEND_DATA_RESPONSE :: fid :: code :: rest) ->
  SendDataResponsePacket.create_packet raw m
  = Ok (SendDataResponsePacket.mk m (byte_to_Z fid)
          (DeviceCloudStatus_get code)).
Proof.
  intros Hm Hc.
  assert (Hwf : well_framed SEND_DATA_RESPONSE raw m)
    by by eapply carries_well_framed.
  destruct (SendDataResponsePacket_create_packet_eq raw m Hwf)
    as (fid' & code' & Hfid' & Hcode' & ->).
  destruct (carries_shape _ _ _ Hc) as (h & l1 & l2 & ck & ->).
  cbn [app lookup list_lookup] in Hfid', Hcode'. by simplify_eq.
Qed.

Lemma FrameError_layout `{Externals} raw m (code : byte) rest :
  supported m ->
  carries FRAME_ERROR raw (aft_code FRAME_ERROR :: code :: rest) ->
  FrameErrorPacket.create_packet raw m
  = Ok (FrameErrorPacket.mk m (FrameError_get code)).
Proof.
  intros Hm Hc.
  assert (Hwf : well_framed FRAME_ERROR raw m)
    by by eapply carries_well_framed.
  destruct (FrameErrorPacket_create_packet_eq raw m Hwf)
    as (code' & Hcode' & ->).
  destruct (carries_shape _ _ _ Hc) as (h & l1 & l2 & ck & ->).
  cbn [app lookup list_lookup] in Hcode'. by simplify_eq.
Qed.

(** X3.  A DeviceRequest frame whose data is frame type, request id,
    transport, flags, target length, that many target bytes and the payload
    decodes to the request id, the target decoded from the target bytes and
    the payload.  The transport and flags bytes are not read: the packet has
    0 for both, whatever the frame holds.  The request data is absent only
    when no byte follows the target length. *)
Theorem DeviceRequest_decodes_its_layout `{Externals} :
  forall raw m (rid t f tl : byte) (tb d : bytes),
    supported m ->
    carries DEVICE_REQUEST raw
      (aft_code DEVICE_REQUEST :: rid :: t :: f :: tl :: tb ++ d) ->
    length tb = byte_to_nat tl ->
    DeviceRequestPacket.create_packet raw m
    = (target ← utf8_decode tb;
       Ok (DeviceRequestPacket.mk bytes m (byte_to_Z rid) 0 0 (Some target)
             (match tb ++ d with [] => None | _ => Some d end))).
Proof.
  intros raw m rid t f tl tb d Hm Hc Htb.
  exact (DeviceRequest_layout raw m rid t f tl tb d Hm Hc Htb).
Qed.

(** X4.  A SendDataRequest frame whose data is frame type, frame id, path
    length, that many path bytes, content type length, that many content
    type bytes, a transport byte, an options code and the file data decodes
    to the frame id, the two texts, the option the code resolves to and the
    file data.  The transport byte is not read: the packet has transport 0.
    Decoding fails only when one of the texts is not UTF-8. *)
Theorem SendDataRequest_decodes_its_layout `{Externals} :
  forall raw m (fid pl cl tr oc : byte) (pb cb d : bytes),
    supported m ->
    carries SEND_DATA_REQUEST raw
      (aft_code SEND_DATA_REQUEST :: fid :: pl :: pb ++ cl :: cb ++ tr :: oc :: d) ->
    length pb = byte_to_nat pl ->
    length cb = byte_to_nat cl ->
    SendDataRequestPacket.create_packet raw m
    = (path ← utf8_decode pb;
       content_type ← utf8_decode cb;
       Ok (SendDataRequestPacket.mk bytes m (byte_to_Z fid) (Some path)
             (Some content_type) 0 (SendDataRequestOptions_get oc) (Some d))).
Proof.
  intros raw m fid pl cl tr oc pb cb d Hm Hc Hpb Hcb.
  exact (SendDataRequest_layout raw m fid pl cl tr oc pb cb d Hm Hc Hpb Hcb).
Qed.

(** X5.  The four kinds of fixed layout always decode a frame that carries
    their data.  A DeviceResponse gives frame id, request id and the
    payload, absent when there is no payload byte; its reserved byte is
    not read.  DeviceResponseStatus, SendDataResponse and FrameError
    resolve the code byte through its table, and every byte after the code
    is ignored. *)
Theorem fixed_kinds_decode_their_layout `{Externals} :
  (forall raw m (fid rid res : byte) (d : bytes),
     supported m ->
     carries DEVICE_RESPONSE raw
       (aft_code DEVICE_RESPONSE :: fid :: rid :: res :: d) ->
     DeviceResponsePacket.create_packet raw m
     = Ok (DeviceResponsePacket.mk bytes m (byte_to_Z fid) (byte_to_Z rid)
             (match d with [] => None | _ => Some d end))) /\
  (forall raw m (fid code : byte) (rest : bytes),
     supported m ->
     carries DEVICE_RESPONSE_STATUS raw
       (aft_code DEVICE_RESPONSE_STATUS :: fid :: code :: rest) ->
     DeviceResponseStatusPacket.create_packet raw m
     = Ok (DeviceResponseStatusPacket.mk m (byte_to_Z fid)
             (DeviceCloudStatus_get code))) /\
  (forall raw m (fid code : byte) (rest : bytes),
     supported m ->
     carries SEND_DATA_RESPONSE raw
       (aft_code SEND_DATA_RESPONSE :: fid :: code :: rest) ->
     SendDataResponsePacket.create_packet raw m
     = Ok (SendDataResponsePacket.mk m (byte_to_Z fid)
             (DeviceCloudStatus_get code))) /\
  (forall raw m (code : byte) (rest : bytes),
     supported m ->
     carries FRAME_ERROR raw (aft_code FRAME_ERROR :: code :: rest) ->
     FrameErrorPacket.create_packet raw m
     = Ok (FrameErrorPacket.mk m (FrameError_get code))).
Proof.
  repeat apply conj.
  - intros. by eapply DeviceResponse_layout.
  - intros. by eapply DeviceResponseStatus_layout.
  - intros. by eapply SendDataResponse_layout.
  - intros. by eapply FrameError_layout.
Qed.

(** ** Encoding a decoded frame again *)





(** ** The ranges are kept *)

Lemma DeviceRequestPacket_init_valid {B} rid t (d : option B) m p :
  DeviceRequestPacket.__init__ rid t d m = Ok p -> DeviceRequestPacket_valid p.
Proof.
  unfold DeviceRequestPacket.__init__,
    DeviceRequestPacket.is_not_None_and_len_gt_255.
  case_decide; [done|]. destruct t as [s|].
  - case_bool_decide; [done|]. intros [= <-].
    repeat split; cbn; try lia. intros s' [= <-]. lia.
  - intros [= <-]. repeat split; cbn; try lia. done.
Qed.

Lemma DeviceResponsePacket_init_valid {B} fid rid (d : option B) m p :
  DeviceResponsePacket.__init__ fid rid d m = Ok p -> DeviceResponsePacket_valid p.
Proof.
  unfold DeviceResponsePacket.__init__. repeat case_decide; try done.
  intros [= <-]. split; cbn; lia.
Qed.

Lemma SendDataRequestPacket_init_valid `{Externals} {B} fid path ct o
    (d : option B) m p :
  SendDataRequestPacket.__init__ fid path ct o d m = Ok p ->
  SendDataRequestPacket_valid p.
Proof.
  unfold SendDataRequestPacket.__init__. case_decide; [done|].
  intros [= <-]. split; cbn; [lia|done].
Qed.

Ltac run_create_packet Hp :=
  unfold DeviceRequestPacket.create_packet, DeviceResponsePacket.create_packet,
    SendDataRequestPacket.create_packet, mbind, result_bind, fmap, result_fmap
    in Hp;
  repeat (case_match; try discriminate).

(** X8.  The range checks of the constructors are kept by everything that
    builds or changes a packet: a constructed packet, a decoded packet, and
    a packet after any setter call, whether the call succeeds or raises,
    has its [request_id] and [frame_id] within 0..255, a [target] of 255
    characters at most, and 0 for transport and flags. *)
Theorem ranges_are_kept `{Externals} :
  ((forall B rid t (d : option B) m p,
      DeviceRequestPacket.__init__ rid t d m = Ok p ->
      DeviceRequestPacket_valid p) /\
   (forall raw m p,
      DeviceRequestPacket.create_packet raw m = Ok p ->
      DeviceRequestPacket_valid p) /\
   (forall B v (p : DeviceRequestPacket.t B),
      DeviceRequestPacket_valid p ->
      DeviceRequestPacket_valid (DeviceRequestPacket.request_id_setter v p).2) /\
   (forall B t (p : DeviceRequestPacket.t B),
      DeviceRequestPacket_valid p ->
      DeviceRequestPacket_valid (DeviceRequestPacket.target_setter t p).2) /\
   (forall d p σ p' σ',
      DeviceRequestPacket_valid p ->
      DeviceRequestPacket.request_data_setter d p σ = Some (p', σ') ->
      DeviceRequestPacket_valid p')) /\
  ((forall B fid rid (d : option B) m p,
      DeviceResponsePacket.__init__ fid rid d m = Ok p ->
      DeviceResponsePacket_valid p) /\
   (forall raw m p,
      DeviceResponsePacket.create_packet raw m = Ok p ->
      DeviceResponsePacket_valid p) /\
   (forall B v (p : DeviceResponsePacket.t B),
      DeviceResponsePacket_valid p ->
      DeviceResponsePacket_valid (DeviceResponsePacket.request_id_setter v p).2) /\
   (forall d p σ p' σ',
      DeviceResponsePacket_valid p ->
      DeviceResponsePacket.request_data_setter d p σ = Some (p', σ') ->
      DeviceResponsePacket_valid p')) /\
  ((forall B fid path ct o (d : option B) m p,
      SendDataRequestPacket.__init__ fid path ct o d m = Ok p ->
      SendDataRequestPacket_valid p) /\
   (forall raw m p,
      SendDataRequestPacket.create_packet raw m = Ok p ->
      SendDataRequestPacket_valid p) /\
   (forall B s (p : SendDataRequestPacket.t B),
      SendDataRequestPacket_valid p ->
      SendDataRequestPacket_valid (SendDataRequestPacket.path_setter s p).2 /\
      SendDataRequestPacket_valid
        (SendDataRequestPacket.content_type_setter s p).2) /\
   (forall B o (p : SendDataRequestPacket.t B),
      SendDataRequestPacket_valid p ->
      SendDataRequestPacket_valid (SendDataRequestPacket.options_setter o p).2) /\
   (forall d p σ p' σ',
      SendDataRequestPacket_valid p ->
      SendDataRequestPacket.file_data_setter d p σ = Some (p', σ') ->
      SendDataRequestPacket_valid p')).
Proof.
  repeat apply conj.
  - intros B rid t d m p. apply DeviceRequestPacket_init_valid.
  - intros raw m p Hp. run_create_packet Hp;
      by eapply DeviceRequestPacket_init_valid.
  - intros B v p Hp. unfold DeviceRequestPacket.request_id_setter.
    case_decide; [done|]. destruct Hp as (? & ? & ? & ?).
    repeat split; cbn; try done; lia.
  - intros B t p Hp. unfold DeviceRequestPacket.target_setter,
      DeviceRequestPacket.is_not_None_and_len_gt_255.
    destruct t as [s|]; [case_bool_decide as Hs|]; cbn [snd];
      try exact Hp; destruct Hp as (? & ? & ? & ?);
      (repeat split; cbn; try done; try lia).
    intros s' [= <-]. lia.
  - intros d p σ p' σ' Hp. unfold DeviceRequestPacket.request_data_setter.
    destruct (bytearray_setter d σ) as [[a σ1]|]; [|done].
    intros [= <- <-]. exact Hp.
  - intros B fid rid d m p. apply DeviceResponsePacket_init_valid.
  - intros raw m p Hp. run_create_packet Hp;
      by eapply DeviceResponsePacket_init_valid.
  - intros B v p Hp. unfold DeviceResponsePacket.request_id_setter.
    case_decide; [done|]. destruct Hp. split; cbn; [done|lia].
  - intros d p σ p' σ' Hp. unfold DeviceResponsePacket.request_data_setter.
    destruct (bytearray_setter d σ) as [[a σ1]|]; [|done].
    intros [= <- <-]. exact Hp.
  - intros B fid path ct o d m p. apply SendDataRequestPacket_init_valid.
  - intros raw m p Hp. run_create_packet Hp;
      by eapply SendDataRequestPacket_init_valid.
  - intros B s p Hp. done.
  - intros B o p Hp. done.
  - intros d p σ p' σ' Hp. unfold SendDataRequestPacket.file_data_setter.
    destruct (bytearray_setter d σ) as [[a σ1]|]; [|done].
    intros [= <- <-]. exact Hp.
Qed.

(** ** Setters and constructors *)

(** X9.  A validating setter accepts exactly the values the constructor
    accepts in that place, and raises the same [ValueError] for the others:
    on a constructed packet, setting [request_id] or [target] of a
    DeviceRequest, or [request_id] of a DeviceResponse, gives the packet the
    constructor builds from the new value and the other arguments, or
    leaves the packet as it was and raises what the constructor raises. *)
Theorem setters_validate_like_constructors `{Externals} :
  (forall B rid t (d : option B) m p v,
     DeviceRequestPacket.__init__ rid t d m = Ok p ->
     match DeviceRequestPacket.request_id_setter v p with
     | (Ok _, p') => DeviceRequestPacket.__init__ v t d m = Ok p'
     | (Raise e, p') => p' = p /\ DeviceRequestPacket.__init__ v t d m = Raise e
     end) /\
  (forall B rid t (d : option B) m p t',
     DeviceRequestPacket.__init__ rid t d m = Ok p ->
     match DeviceRequestPacket.target_setter t' p with
     | (Ok _, p') => DeviceRequestPacket.__init__ rid t' d m = Ok p'
     | (Raise e, p') => p' = p /\ DeviceRequestPacket.__init__ rid t' d m = Raise e
     end) /\
  (forall B fid rid (d : option B) m p v,
     DeviceResponsePacket.__init__ fid rid d m = Ok p ->
     match DeviceResponsePacket.request_id_setter v p with
     | (Ok _, p') => DeviceResponsePacket.__init__ fid v d m = Ok p'
     | (Raise e, p') => p' = p /\ DeviceResponsePacket.__init__ fid v d m = Raise e
     end).
Proof.
  repeat apply conj.
  - intros B rid t d m p v.
    unfold DeviceRequestPacket.__init__, DeviceRequestPacket.request_id_setter.
    destruct (decide (rid < 0 \/ rid > 255)); [done|].
    destruct (DeviceRequestPacket.is_not_None_and_len_gt_255 t) eqn:Ht; [done|].
    intros [= <-]. destruct (decide (v < 0 \/ v > 255)); [done|].
    done.
  - intros B rid t d m p t'.
    unfold DeviceRequestPacket.__init__, DeviceRequestPacket.target_setter.
    destruct (decide (rid < 0 \/ rid > 255)); [done|].
    destruct (DeviceRequestPacket.is_not_None_and_len_gt_255 t); [done|].
    intros [= <-].
    by destruct (DeviceRequestPacket.is_not_None_and_len_gt_255 t').
  - intros B fid rid d m p v.
    unfold DeviceResponsePacket.__init__, DeviceResponsePacket.request_id_setter.
    destruct (decide (fid < 0 \/ fid > 255)); [done|].
    destruct (decide (rid < 0 \/ rid > 255)); [done|].
    intros [= <-]. by destruct (decide (v < 0 \/ v > 255)).
Qed.

(** ** Reading back a payload that was set *)

(** X10.  Setting a payload and reading it back: after the setter is given
    a bytearray of content [v], the getter returns a bytearray of content
    [v] that is neither the caller's bytearray nor the one the packet
    holds, and every bytearray that existed before still has its content.
    After the setter is given [None], the getter returns [None].  This
    holds for the request data of DeviceRequestPacket, the response data of
    DeviceResponsePacket and the file data of SendDataRequestPacket. *)
Theorem payload_set_then_get `{Externals} :
  forall (σ : list (list byte)) (r : nat) (v : bytes),
    σ !! r = Some v ->
    (forall self, exists p σ1 r2 σ2,
       DeviceRequestPacket.request_data_setter (Some r) self σ = Some (p, σ1) /\
       DeviceRequestPacket.request_data_getter p σ1 = Some (Some r2, σ2) /\
       σ2 !! r2 = Some v /\ r2 ≠ r /\
       DeviceRequestPacket.req_data p ≠ Some r2 /\
       (forall r0 v0, σ !! r0 = Some v0 -> σ2 !! r0 = Some v0) /\
       exists p0,
         DeviceRequestPacket.request_data_setter None self σ = Some (p0, σ) /\
         DeviceRequestPacket.request_data_getter p0 σ = Some (None, σ)) /\
    (forall self, exists p σ1 r2 σ2,
       DeviceResponsePacket.request_data_setter (Some r) self σ = Some (p, σ1) /\
       DeviceResponsePacket.request_data_getter p σ1 = Some (Some r2, σ2) /\
       σ2 !! r2 = Some v /\ r2 ≠ r /\
       DeviceResponsePacket.resp_data p ≠ Some r2 /\
       (forall r0 v0, σ !! r0 = Some v0 -> σ2 !! r0 = Some v0) /\
       exists p0,
         DeviceResponsePacket.request_data_setter None self σ = Some (p0, σ) /\
         DeviceResponsePacket.request_data_getter p0 σ = Some (None, σ)) /\
    (forall self, exists p σ1 r2 σ2,
       SendDataRequestPacket.file_data_setter (Some r) self σ = Some (p, σ1) /\
       SendDataRequestPacket.file_data_getter p σ1 = Some (Some r2, σ2) /\
       σ2 !! r2 = Some v /\ r2 ≠ r /\
       SendDataRequestPacket.file_data p ≠ Some r2 /\
       (forall r0 v0, σ !! r0 = Some v0 -> σ2 !! r0 = Some v0) /\
       exists p0,
         SendDataRequestPacket.file_data_setter None self σ = Some (p0, σ) /\
         SendDataRequestPacket.file_data_getter p0 σ = Some (None, σ)).
Proof.
  intros σ r v Hr. pose proof (lookup_lt_Some _ _ _ Hr) as Hlt.
  assert (Hnew : (σ ++ [v]) !! length σ = Some v)
    by (by rewrite lookup_app_r, Nat.sub_diag by lia).
  assert (Hset : bytearray_setter (Some r) σ = Some (Some (length σ), σ ++ [v]))
    by (cbn [bytearray_setter]; by rewrite (copy_Some _ _ _ Hr)).
  assert (Hget : bytearray_getter (Some (length σ)) (σ ++ [v])
                 = Some (Some (S (length σ)), (σ ++ [v]) ++ [v])).
  { cbn [bytearray_getter]. rewrite (copy_Some _ _ _ Hnew).
    rewrite length_app. cbn [length]. by rewrite Nat.add_1_r. }
  assert (Hlast : ((σ ++ [v]) ++ [v]) !! S (length σ) = Some v).
  { rewrite lookup_app_r by (rewrite length_app; cbn [length]; lia).
    rewrite length_app. cbn [length].
    by replace (S (length σ) - (length σ + 1))%nat with 0%nat by lia. }
  assert (Hold : forall r0 v0, σ !! r0 = Some v0 ->
                               ((σ ++ [v]) ++ [v]) !! r0 = Some v0).
  { intros r0 v0 H0. pose proof (lookup_lt_Some _ _ _ H0).
    rewrite <- app_assoc. by rewrite lookup_app_l by lia. }
  repeat apply conj; intros self;
    unfold DeviceRequestPacket.request_data_setter,
      DeviceRequestPacket.request_data_getter,
      DeviceResponsePacket.request_data_setter,
      DeviceResponsePacket.request_data_getter,
      SendDataRequestPacket.file_data_setter,
      SendDataRequestPacket.file_data_getter;
    rewrite Hset; cbn [mbind option_bind bytearray_setter];
    eexists _, _, (S (length σ)), _;
    (split; [reflexivity|]); cbn;
    (split; [exact Hget|]);
    (split; [exact Hlast|]); (split; [lia|]);
    (split; [intros [= Heq]; lia|]);
    (split; [exact Hold|]); eexists; split; reflexivity.
Qed.

(** ** The length of an encoded packet *)

Ltac one_byte n :=
  let b := fresh "b" in
  let Hb := fresh "Hb" in
  destruct (Z_is_byte n) as (b & Hb & _); [lia|]; rewrite Hb.

(** X11.  An encoded packet is never shorter than the minimum its own
    decoder demands: for a packet the constructor accepts, the frame data
    has at least 5 bytes for a DeviceRequest, 4 for a DeviceResponse, 6 for
    a SendDataRequest whose texts have 255 characters at most, and exactly
    3, 3 and 2 bytes for a DeviceResponseStatus, a SendDataResponse and a
    FrameError whose symbol has a one-byte code. *)
Theorem encoded_body_reaches_the_minimum `{Externals} :
  int_to_bytes_one_byte ->
  (forall rid t d m p body,
     DeviceRequestPacket.__init__ rid t d m = Ok p ->
     DeviceRequestPacket.frame_spec_data p = Ok body ->
     (min_body_length DEVICE_REQUEST <= length body)%nat) /\
  (forall fid rid d m p body,
     DeviceResponsePacket.__init__ fid rid d m = Ok p ->
     DeviceResponsePacket.frame_spec_data p = Ok body ->
     (min_body_length DEVICE_RESPONSE <= length body)%nat) /\
  (forall fid (path ct : option str) o d m p body,
     (forall s, path = Some s -> (length s <= 255)%nat) ->
     (forall s, ct = Some s -> (length s <= 255)%nat) ->
     0 <= SendDataRequestOptions_code o <= 255 ->
     SendDataRequestPacket.__init__ fid path ct o d m = Ok p ->
     SendDataRequestPacket.frame_spec_data p = Ok body ->
     (min_body_length SEND_DATA_REQUEST <= length body)%nat) /\
  (forall fid s m p body,
     0 <= DeviceCloudStatus_code s <= 255 ->
     DeviceResponseStatusPacket.__init__ fid s m = Ok p ->
     DeviceResponseStatusPacket.frame_spec_data p = Ok body ->
     length body = min_body_length DEVICE_RESPONSE_STATUS) /\
  (forall fid s m p body,
     0 <= DeviceCloudStatus_code s <= 255 ->
     SendDataResponsePacket.__init__ fid s m = Ok p ->
     SendDataResponsePacket.frame_spec_data p = Ok body ->
     length body = min_body_length SEND_DATA_RESPONSE) /\
  (forall e m p body,
     0 <= FrameError_code e <= 255 ->
     FrameErrorPacket.__init__ e m = Ok p ->
     FrameErrorPacket.frame_spec_data p = Ok body ->
     length body = min_body_length FRAME_ERROR).
Proof.
  intros Hitb. repeat apply conj.
  - intros rid t d m p body Hp.
    pose proof (DeviceRequestPacket_init_valid _ _ _ _ _ Hp) as (Hr & _ & _ & Ht).
    revert Hp. unfold DeviceRequestPacket.__init__.
    repeat case_match; try done. intros [= <-]. cbn in Hr, Ht.
    unfold DeviceRequestPacket.frame_spec_data,
      DeviceRequestPacket._get_api_packet_spec_data, get_frame_spec_data,
      DeviceRequestPacket.needs_id.
    cbn [DeviceRequestPacket.req_id DeviceRequestPacket.transport
         DeviceRequestPacket.flags DeviceRequestPacket.target
         DeviceRequestPacket.req_data].
    one_byte rid. change 0 with (byte_to_Z x00). rewrite !Hitb.
    destruct t as [s|].
    + specialize (Ht s eq_refl). one_byte (Z.of_nat (length s)).
      rewrite Hitb. destruct (utf8_encode s); monad_simpl; [|done].
      destruct d; monad_simpl; intros [= <-]; cbn [app length];
        rewrite ?length_app; cbn [length]; vm_compute min_body_length; lia.
    + monad_simpl.
      destruct d; monad_simpl; intros [= <-]; cbn [app length];
        rewrite ?length_app; cbn [length]; vm_compute min_body_length; lia.
  - intros fid rid d m p body Hp.
    pose proof (DeviceResponsePacket_init_valid _ _ _ _ _ Hp) as (Hf & Hr).
    revert Hp. unfold DeviceResponsePacket.__init__.
    repeat case_match; try done. intros [= <-]. cbn in Hr, Hf.
    unfold DeviceResponsePacket.frame_spec_data,
      DeviceResponsePacket._get_api_packet_spec_data, get_frame_spec_data,
      DeviceResponsePacket.needs_id.
    cbn [DeviceResponsePacket.req_id DeviceResponsePacket._frame_id
         DeviceResponsePacket.resp_data].
    one_byte rid. one_byte fid. change 0 with (byte_to_Z x00). rewrite !Hitb.
    destruct d; monad_simpl; intros [= <-]; cbn [app length];
      rewrite ?length_app; cbn [length]; vm_compute min_body_length; lia.
  - intros fid path ct o d m p body Hpath Hct Ho Hp.
    pose proof (SendDataRequestPacket_init_valid _ _ _ _ _ _ _ Hp) as (Hf & _).
    revert Hp. unfold SendDataRequestPacket.__init__.
    case_decide; [done|]. intros [= <-]. cbn in Hf.
    unfold SendDataRequestPacket.frame_spec_data,
      SendDataRequestPacket._get_api_packet_spec_data, get_frame_spec_data,
      SendDataRequestPacket.needs_id.
    cbn [SendDataRequestPacket.path SendDataRequestPacket.content_type
         SendDataRequestPacket.opts SendDataRequestPacket.file_data
         SendDataRequestPacket._frame_id].
    one_byte fid. one_byte (SendDataRequestOptions_code o).
    change 0 with (byte_to_Z x00). rewrite !Hitb.
    destruct path as [ps|], ct as [cs|];
      try (specialize (Hpath ps eq_refl); one_byte (Z.of_nat (length ps)));
      try (specialize (Hct cs eq_refl); one_byte (Z.of_nat (length cs)));
      rewrite ?Hitb;
      try (destruct (utf8_encode ps); monad_simpl; [|done]);
      try (destruct (utf8_encode cs); monad_simpl; [|done]);
      destruct d; monad_simpl; intros [= <-]; cbn [app length];
      rewrite ?length_app; cbn [length]; rewrite ?length_app; cbn [length];
      vm_compute min_body_length; lia.
  - intros fid s m p body Hs. unfold DeviceResponseStatusPacket.__init__.
    case_decide as Hf; [done|]. intros [= <-].
    unfold DeviceResponseStatusPacket.frame_spec_data,
      DeviceResponseStatusPacket._get_api_packet_spec_data,
      get_frame_spec_data, DeviceResponseStatusPacket.needs_id.
    cbn [DeviceResponseStatusPacket.status DeviceResponseStatusPacket._frame_id].
    one_byte fid. one_byte (DeviceCloudStatus_code s). rewrite !Hitb.
    by intros [= <-].
  - intros fid s m p body Hs. unfold SendDataResponsePacket.__init__.
    case_decide as Hf; [done|]. intros [= <-].
    unfold SendDataResponsePacket.frame_spec_data,
      SendDataResponsePacket._get_api_packet_spec_data,
      get_frame_spec_data, SendDataResponsePacket.needs_id.
    cbn [SendDataResponsePacket.status SendDataResponsePacket._frame_id].
    one_byte fid. one_byte (DeviceCloudStatus_code s). rewrite !Hitb.
    by intros [= <-].
  - intros e m p body He. unfold FrameErrorPacket.__init__. intros [= <-].
    unfold FrameErrorPacket.frame_spec_data,
      FrameErrorPacket._get_api_packet_spec_data,
      get_frame_spec_data, FrameErrorPacket.needs_id.
    cbn [FrameErrorPacket.frame_error].
    one_byte (FrameError_code e). rewrite !Hitb.
    by intros [= <-].
Qed.

(** ** The length prefix counts characters *)

Lemma utf8_encode_char_length (c : N) (bs : bytes) :
  utf8_encode_char c = Some bs -> (1 <= length bs)%nat.
Proof.
  unfold utf8_encode_char. repeat case_decide; intros [= <-]; cbn; lia.
Qed.

Lemma utf8_encode_length (s : str) (bs : bytes) :
  utf8_encode s = Ok bs -> (length s <= length bs)%nat.
Proof.
  revert bs. induction s as [|c s IH]; intros bs; cbn [utf8_encode].
  - intros [= <-]. done.
  - destruct (utf8_encode_char c) as [cb|] eqn:Hc; [|done].
    destruct (utf8_encode s) as [rest|]; monad_simpl; [|done].
    intros [= <-]. apply utf8_encode_char_length in Hc.
    specialize (IH rest eq_refl). rewrite length_app. cbn [length]. lia.
Qed.

(** X12.  The target length byte of an encoded DeviceRequest is the number
    of characters of the target, not the number of its UTF-8 bytes.
    Decoding the encoded packet therefore reads the target from the first
    [len(target)] bytes of its UTF-8 form only, and the bytes that remain
    are decoded as the beginning of the request data.  For an ASCII target
    the two counts agree and nothing remains. *)
Theorem DeviceRequest_prefix_counts_characters `{Externals} :
  int_to_bytes_one_byte ->
  forall rid (t : str) d m (bs : bytes),
    0 <= rid <= 255 -> (length t <= 255)%nat ->
    utf8_encode t = Ok bs ->
    exists p body,
      DeviceRequestPacket.__init__ rid (Some t) d m = Ok p /\
      DeviceRequestPacket.frame_spec_data p = Ok body /\
      body !! 4%nat = Some (byte_of_N (N.of_nat (length t))) /\
      forall raw,
        supported m -> carries DEVICE_REQUEST raw body ->
        DeviceRequestPacket.create_packet raw m
        = (target ← utf8_decode (take (length t) bs);
           Ok (DeviceRequestPacket.mk bytes m rid 0 0 (Some target)
                 (match bs ++ default [] d with
                  | [] => None
                  | _ => Some (drop (length t) bs ++ default [] d)
                  end))).
Proof.
  intros Hitb rid t d m bs Hrid Hlen Henc.
  pose proof (utf8_encode_length t bs Henc) as Hle.
  destruct (Z_is_byte rid Hrid) as (br & -> & _).
  destruct (Z_is_byte (Z.of_nat (length t))) as (bt & Hbt & Hbt'); [lia|].
  rewrite Nat2Z.id in Hbt'.
  assert (Hbt'' : byte_of_N (N.of_nat (length t)) = bt).
  { rewrite <- Hbt'. unfold byte_to_nat. rewrite N2Nat.id.
    apply byte_of_N_to_N. }
  exists (DeviceRequestPacket.mk bytes m (byte_to_Z br) 0 0 (Some t) d),
    (aft_code DEVICE_REQUEST :: br :: x00 :: x00 :: bt :: bs ++ default [] d).
  repeat apply conj.
  - unfold DeviceRequestPacket.__init__,
      DeviceRequestPacket.is_not_None_and_len_gt_255.
    rewrite decide_False by lia. by rewrite bool_decide_eq_false_2 by lia.
  - unfold DeviceRequestPacket.frame_spec_data,
      DeviceRequestPacket._get_api_packet_spec_data, get_frame_spec_data,
      DeviceRequestPacket.needs_id.
    cbn [DeviceRequestPacket.req_id DeviceRequestPacket.transport
         DeviceRequestPacket.flags DeviceRequestPacket.target
         DeviceRequestPacket.req_data].
    rewrite Hbt, Henc. monad_simpl.
    change 0 with (byte_to_Z x00). rewrite !Hitb.
    cbn [app]. destruct d; monad_simpl; cbn [from_option id app];
      by rewrite ?app_nil_r.
  - by rewrite Hbt''.
  - intros raw Hm Hc.
    rewrite <- (take_drop (length t) bs) in Hc at 1.
    rewrite <- app_assoc in Hc.
    rewrite (DeviceRequest_layout raw m br x00 x00 bt
               (take (length t) bs) (drop (length t) bs ++ default [] d) Hm Hc)
      by (rewrite length_take; lia).
    by rewrite app_assoc, take_drop.
Qed.

(** ** The dictionaries *)

Lemma byte_to_Z_inj (b b' : byte) : byte_to_Z b = byte_to_Z b' -> b = b'.
Proof.
  unfold byte_to_Z. intros Hb. apply N2Z.inj in Hb.
  assert (Hs : Some b = Some b') by (by rewrite <- !Byte.of_to_N, Hb).
  by injection Hs.
Qed.

Lemma fmap_byte_to_Z_inj (d d' : bytes) :
  byte_to_Z <$> d = byte_to_Z <$> d' -> d = d'.
Proof.
  revert d'. induction d as [|b d IH]; intros [|b' d']; cbn; try done.
  intros [= Hb Hd]. f_equal; [by apply byte_to_Z_inj|by apply IH].
Qed.

Lemma str_or_None_inj `{Externals} (s s' : option str) :
  str_or_None s = str_or_None s' -> s = s'.
Proof. destruct s, s'; cbn; congruence. Qed.

Lemma list_or_None_inj `{Externals} (d d' : option bytes) :
  list_or_None d = list_or_None d' -> d = d'.
Proof.
  destruct d, d'; cbn; try congruence.
  intros [= Hd]. f_equal. by apply fmap_byte_to_Z_inj.
Qed.

(** X13.  The dictionary of a packet shows everything its encoding depends
    on: two packets of a class with equal dictionaries have the same
    specific data, for each of the six classes.  In particular the list of
    integers under [RF_DATA] determines the payload and [None] is kept
    apart from the empty list. *)
Theorem equal_dictionaries_encode_equally `{Externals} :
  (forall p q,
     DeviceRequestPacket_spec_data_dict p = DeviceRequestPacket_spec_data_dict q ->
     DeviceRequestPacket._get_api_packet_spec_data p
     = DeviceRequestPacket._get_api_packet_spec_data q) /\
  (forall p q,
     DeviceResponsePacket_spec_data_dict p = DeviceResponsePacket_spec_data_dict q ->
     DeviceResponsePacket._get_api_packet_spec_data p
     = DeviceResponsePacket._get_api_packet_spec_data q) /\
  (forall p q,
     DeviceResponseStatusPacket_spec_data_dict p
     = DeviceResponseStatusPacket_spec_data_dict q ->
     DeviceResponseStatusPacket._get_api_packet_spec_data p
     = DeviceResponseStatusPacket._get_api_packet_spec_data q) /\
  (forall p q,
     FrameErrorPacket_spec_data_dict p = FrameErrorPacket_spec_data_dict q ->
     FrameErrorPacket._get_api_packet_spec_data p
     = FrameErrorPacket._get_api_packet_spec_data q) /\
  (forall p q,
     SendDataRequestPacket_spec_data_dict p
     = SendDataRequestPacket_spec_data_dict q ->
     SendDataRequestPacket._get_api_packet_spec_data p
     = SendDataRequestPacket._get_api_packet_spec_data q) /\
  (forall p q,
     SendDataResponsePacket_spec_data_dict p
     = SendDataResponsePacket_spec_data_dict q ->
     SendDataResponsePacket._get_api_packet_spec_data p
     = SendDataResponsePacket._get_api_packet_spec_data q).
Proof.
  repeat apply conj.
  - intros p q. unfold DeviceRequestPacket_spec_data_dict.
    intros [= Hr Htr Hf Ht Hd].
    apply str_or_None_inj in Ht. apply list_or_None_inj in Hd.
    unfold DeviceRequestPacket._get_api_packet_spec_data.
    by rewrite Hr, Htr, Hf, Ht, Hd.
  - intros p q. unfold DeviceResponsePacket_spec_data_dict.
    intros [= Hr Hd]. apply list_or_None_inj in Hd.
    unfold DeviceResponsePacket._get_api_packet_spec_data.
    by rewrite Hr, Hd.
  - intros p q. unfold DeviceResponseStatusPacket_spec_data_dict.
    intros [= Hs]. unfold DeviceResponseStatusPacket._get_api_packet_spec_data.
    by rewrite Hs.
  - intros p q. unfold FrameErrorPacket_spec_data_dict.
    intros [= He]. unfold FrameErrorPacket._get_api_packet_spec_data.
    by rewrite He.
  - intros p q. unfold SendDataRequestPacket_spec_data_dict.
    intros [= _ Hp _ Hc Ho Hd].
    apply str_or_None_inj in Hp, Hc. apply list_or_None_inj in Hd.
    unfold SendDataRequestPacket._get_api_packet_spec_data.
    by rewrite Hp, Hc, Ho, Hd.
  - intros p q. unfold SendDataResponsePacket_spec_data_dict.
    intros [= Hs]. unfold SendDataResponsePacket._get_api_packet_spec_data.
    by rewrite Hs.
Qed.

(** X14.  The lengths a SendDataRequest shows in its dictionary are the
    lengths its encoding writes: the specific data is the byte form of
    [PATH_LENGTH], the UTF-8 path, the byte form of [CONTENT_TYPE_LENGTH],
    the UTF-8 content type, 0, the options code and the file data.  The
    dictionary takes the length with [if self.__path] and the encoder with
    [if self.__path is not None]; both give 0 for an absent and for an
    empty text. *)
Theorem SendDataRequest_dictionary_lengths_are_encoded `{Externals} :
  forall (p : SendDataRequestPacket.t bytes) (data : bytes),
    SendDataRequestPacket._get_api_packet_spec_data p = Ok data ->
    exists (pl cl : Z) (pb cb : bytes),
      dict_get PATH_LENGTH (SendDataRequestPacket_spec_data_dict p)
      = Some (V_int pl) /\
      dict_get CONTENT_TYPE_LENGTH (SendDataRequestPacket_spec_data_dict p)
      = Some (V_int cl) /\
      utf8_encode (default [] (SendDataRequestPacket.path p)) = Ok pb /\
      utf8_encode (default [] (SendDataRequestPacket.content_type p)) = Ok cb /\
      data = int_to_bytes pl 1 ++ pb ++ int_to_bytes cl 1 ++ cb
             ++ int_to_bytes 0 1
             ++ int_to_bytes (SendDataRequestOptions_code
                                (SendDataRequestPacket.opts p)) 1
             ++ default [] (SendDataRequestPacket.file_data p).
Proof.
  intros [m fid path ct tr o d] data.
  unfold SendDataRequestPacket._get_api_packet_spec_data,
    SendDataRequestPacket_spec_data_dict.
  cbn [SendDataRequestPacket.path SendDataRequestPacket.content_type
       SendDataRequestPacket.opts SendDataRequestPacket.file_data].
  intros Hdata.
  exists (len_if_truthy path), (len_if_truthy ct).
  assert (Hlen : forall s : option str,
            len_if_truthy s = Z.of_nat (length (default [] s))).
  { intros [[|c s]|]; reflexivity. }
  assert (Hnone : forall s : option str,
            match s with
            | Some s => bs ← utf8_encode s;
                        Ok (int_to_bytes (Z.of_nat (length s)) 1 ++ bs)
            | None => Ok (int_to_bytes 0 1)
            end
            = (bs ← utf8_encode (default [] s);
               Ok (int_to_bytes (len_if_truthy s) 1 ++ bs))).
  { intros [s|]; rewrite Hlen; cbn [from_option id utf8_encode length];
      monad_simpl; by rewrite ?app_nil_r. }
  rewrite (Hnone path) in Hdata.
  destruct (utf8_encode (default [] path)) as [pb|]; monad_simpl; [|done].
  revert Hdata. monad_simpl.
  assert (Hnone' : forall (ret : bytes) (s : option str),
            match s with
            | Some s => bs ← utf8_encode s;
                        Ok ((ret ++ int_to_bytes (Z.of_nat (length s)) 1) ++ bs)
            | None => Ok (ret ++ int_to_bytes 0 1)
            end
            = (bs ← utf8_encode (default [] s);
               Ok ((ret ++ int_to_bytes (len_if_truthy s) 1) ++ bs))).
  { intros ret [s|]; rewrite Hlen; cbn [from_option id utf8_encode length];
      monad_simpl; by rewrite ?app_nil_r. }
  rewrite (Hnone' _ ct).
  destruct (utf8_encode (default [] ct)) as [cb|]; monad_simpl; [|done].
  intros Hdata. exists pb, cb.
  do 4 (split; [reflexivity|]).
  destruct d; injection Hdata as <-; cbn [from_option id];
    rewrite ?app_nil_r; same_list.
Qed.

(** ** The operating mode and the frame type *)

(** X15.  The operating mode is checked before the bytes are looked at: an
    unsupported mode raises [InvalidOperatingModeException] for every
    bytearray, the empty one included.  A packet that is decoded was decoded
    in a supported mode and records that mode; the text fields of a decoded
    DeviceRequest or SendDataRequest are never absent. *)
Theorem decoded_packets_record_the_mode `{Externals} :
  forall ft raw m,
    (~ supported m ->
     decode ft raw m = Raise (InvalidOperatingModeException m)) /\
    (forall p,
       decode ft raw m = Ok p ->
       supported m /\ Packet_op_mode p = m /\
       match p with
       | DeviceRequest p => is_Some (DeviceRequestPacket.target p)
       | SendDataRequest p =>
           is_Some (SendDataRequestPacket.path p) /\
           is_Some (SendDataRequestPacket.content_type p)
       | _ => True
       end).
Proof.
  intros ft raw m. split; [apply decode_mode_raises|].
  intros p Hp. split; [by destruct (decode_Ok_well_framed _ _ _ _ Hp)|].
  destruct ft; cbn [decode] in Hp;
    unfold DeviceRequestPacket.create_packet, DeviceResponsePacket.create_packet,
      DeviceResponseStatusPacket.create_packet, FrameErrorPacket.create_packet,
      SendDataRequestPacket.create_packet, SendDataResponsePacket.create_packet,
      DeviceRequestPacket.__init__, DeviceResponsePacket.__init__,
      DeviceResponseStatusPacket.__init__, FrameErrorPacket.__init__,
      SendDataRequestPacket.__init__, SendDataResponsePacket.__init__,
      mbind, result_bind, fmap, result_fmap in Hp;
    repeat (case_match; try discriminate); simplify_eq; cbn; eauto.
Qed.

(** X16.  Kinds with different frame type codes do not take each other's
    frames: a frame that decodes as one kind is refused with
    [InvalidPacketException] when decoded as a kind of another code, also
    when both kinds have the same layout, as DeviceResponseStatus and
    SendDataResponse have. *)
Theorem kinds_are_told_apart `{Externals} :
  forall ft ft' raw m p,
    aft_code ft ≠ aft_code ft' ->
    decode ft raw m = Ok p ->
    exists why, decode ft' raw m = Raise (InvalidPacketException why).
Proof.
  intros ft ft' raw m p Hne Hp.
  destruct (decode_Ok_well_framed _ _ _ _ Hp) as (Hm & Hck & H3).
  pose proof (min_packet_length_bounds ft) as Hmin.
  pose proof (min_packet_length_bounds ft') as Hmin'.
  destruct (check_api_packet_cases raw (min_packet_length ft'))
    as [Hck'|(why & Hck' & _)]; [lia| |].
  - exists (NOT_A_PACKET_OF ft').
    apply decode_frame_type_raises; [done..|].
    apply check_frame_type_mismatch; [|congruence].
    apply check_api_packet_Ok_length in Hck. lia.
  - exists why. by apply decode_check_raises.
Qed.

(** * The properties on concrete XBee frames *)

Module OnFrames.
Import XBee.

(** Frame data of 4 bytes is refused for a DeviceRequest. *)
Lemma body_shorter_than_minimum_raises_witness :
  supported API_MODE /\
  (length (frame_data (wrap [xb9; x01; x00; x00]))
   < min_body_length DEVICE_REQUEST)%nat /\
  decode DEVICE_REQUEST (wrap [xb9; x01; x00; x00]) API_MODE
  = Raise (InvalidPacketException TOO_SHORT).
Proof.
  assert (Hm : supported API_MODE) by (left; reflexivity).
  assert (Hlen : (length (frame_data (wrap [xb9; x01; x00; x00]))
                  < min_body_length DEVICE_REQUEST)%nat) by (vm_compute; lia).
  split; [exact Hm|]. split; [exact Hlen|].
  exact (proj2 (@body_shorter_than_minimum_raises externals)
           DEVICE_REQUEST (wrap [xb9; x01; x00; x00]) API_MODE Hm Hlen).
Defined.

(** C4 fails as stated: the minimum of DeviceRequest is not 4 and that of
    SendDataRequest is not 5: frame data of 4 bytes (frame type, request id, transport, flags) in a
    sound envelope is refused as too short for a DeviceRequest, and frame
    data of 5 bytes (frame type, frame id, path length 0, content type
    length 0, transport) for a SendDataRequest. *)
Lemma minimum_body_length_counterexample :
  min_body_length DEVICE_REQUEST <> 4%nat /\
  min_body_length SEND_DATA_REQUEST <> 5%nat /\
  (length [xb9; x01; x00; x00] = 4%nat /\
   decode DEVICE_REQUEST (wrap [xb9; x01; x00; x00]) API_MODE
   = Raise (InvalidPacketException TOO_SHORT)) /\
  (length [x28; x01; x00; x00; x00] = 5%nat /\
   decode SEND_DATA_REQUEST (wrap [x28; x01; x00; x00; x00]) API_MODE
   = Raise (InvalidPacketException TOO_SHORT)).
Proof. repeat split; by vm_compute. Qed.

(** A sound SendDataResponse frame is refused as a DeviceResponseStatus:
    both kinds have the layout frame type, frame id, status. *)
Lemma frame_type_mismatch_raises_witness :
  supported API_MODE /\
  wrap [xb8; x07; x00] !! 3%nat ≠ Some (aft_code DEVICE_RESPONSE_STATUS) /\
  _check_api_packet (wrap [xb8; x07; x00])
    (min_packet_length DEVICE_RESPONSE_STATUS) = Ok () /\
  decode DEVICE_RESPONSE_STATUS (wrap [xb8; x07; x00]) API_MODE
  = Raise (InvalidPacketException (NOT_A_PACKET_OF DEVICE_RESPONSE_STATUS)).
Proof.
  assert (Hm : supported API_MODE) by (left; reflexivity).
  assert (H3 : wrap [xb8; x07; x00] !! 3%nat
               ≠ Some (aft_code DEVICE_RESPONSE_STATUS)) by (vm_compute; congruence).
  assert (Hck : _check_api_packet (wrap [xb8; x07; x00])
                  (min_packet_length DEVICE_RESPONSE_STATUS) = Ok ())
    by (vm_compute; reflexivity).
  split; [exact Hm|]. split; [exact H3|]. split; [exact Hck|].
  exact (proj2 (@frame_type_mismatch_raises externals
                  DEVICE_RESPONSE_STATUS (wrap [xb8; x07; x00]) API_MODE Hm H3) Hck).
Defined.

Lemma xbee_int_to_bytes_one_byte : int_to_bytes_one_byte.
Proof. intros b. destruct b; reflexivity. Qed.

Lemma xbee_registered (b : byte) : registered symbol_get symbol_code (symbol_get b).
Proof.
  exists b. split; [|done]. unfold symbol_get.
  repeat case_decide; by subst.
Qed.

Lemma supported_API_MODE : supported API_MODE.
Proof. by left. Qed.

(** C1 fails as stated: a DeviceRequest constructed without target decodes
    to a packet whose target is the empty string; a target of one non-ASCII
    character is cut in the middle of its UTF-8 form and does not decode;
    a SendDataRequest constructed without file data decodes to a packet
    with empty file data. *)
Lemma round_trip_counterexample :
  (let p := DeviceRequestPacket.mk bytes API_MODE 1 0 0 None None in
   let body := [xb9; x01; x00; x00; x00] in
   DeviceRequestPacket.__init__ 1 None None API_MODE = Ok p /\
   encode (DeviceRequest p) = Ok body /\
   carries DEVICE_REQUEST (wrap body) body /\
   decode DEVICE_REQUEST (wrap body) API_MODE
   = Ok (DeviceRequest
           (DeviceRequestPacket.mk bytes API_MODE 1 0 0 (Some []) None)) /\
   decode DEVICE_REQUEST (wrap body) API_MODE ≠ Ok (DeviceRequest p)) /\
  (let p := DeviceRequestPacket.mk bytes API_MODE 1 0 0 (Some [233%N])
              (Some [x01]) in
   let body := [xb9; x01; x00; x00; x01; xc3; xa9; x01] in
   DeviceRequestPacket.__init__ 1 (Some [233%N]) (Some [x01]) API_MODE = Ok p /\
   encode (DeviceRequest p) = Ok body /\
   carries DEVICE_REQUEST (wrap body) body /\
   decode DEVICE_REQUEST (wrap body) API_MODE = Raise UnicodeDecodeError) /\
  (let p := SendDataRequestPacket.mk bytes API_MODE 3 (Some [97%N])
              (Some [116%N]) 0 MEMBER_0 None in
   let body := [x28; x03; x01; x61; x01; x74; x00; x00] in
   SendDataRequestPacket.__init__ 3 (Some [97%N]) (Some [116%N]) MEMBER_0
     None API_MODE = Ok p /\
   encode (SendDataRequest p) = Ok body /\
   carries SEND_DATA_REQUEST (wrap body) body /\
   decode SEND_DATA_REQUEST (wrap body) API_MODE
   = Ok (SendDataRequest
           (SendDataRequestPacket.mk bytes API_MODE 3 (Some [97%N])
              (Some [116%N]) 0 MEMBER_0 (Some []))) /\
   decode SEND_DATA_REQUEST (wrap body) API_MODE ≠ Ok (SendDataRequest p)).
Proof.
  repeat apply conj; try (vm_compute; reflexivity); vm_compute; discriminate.
Qed.

(** C2 fails as stated: the DeviceRequest frame of the spec's example, with
    a target length of 10 and 3 bytes left, decodes to a packet.  Its
    target is the 3 bytes and the checksum byte 0x15 of the frame. *)
Lemma declared_length_counterexample :
  let body := [xb9; x01; x00; x00; x0a; x61; x62; x63] in
  carries DEVICE_REQUEST (wrap body) body /\
  wrap body !! 7%nat = Some x0a /\
  length (drop 5 body) = 3%nat /\
  DeviceRequestPacket.create_packet (wrap body) API_MODE
  = Ok (DeviceRequestPacket.mk bytes API_MODE 1 0 0
          (Some [97; 98; 99; 21]%N) (Some [])).
Proof. repeat apply conj; vm_compute; reflexivity. Qed.

(** C3 fails as stated: the constructor and the setters of
    SendDataRequestPacket accept a path and a content type of 256 UTF-8
    bytes. *)
Lemma text_length_counterexample :
  let s := replicate 256 97%N in
  let p := SendDataRequestPacket.mk bytes API_MODE 3 (Some [97%N])
             (Some [116%N]) 0 MEMBER_0 None in
  length <$> utf8_encode s = Ok 256%nat /\
  SendDataRequestPacket.path_setter (Some s) p
  = (Ok (), SendDataRequestPacket.mk bytes API_MODE 3 (Some s) (Some [116%N])
              0 MEMBER_0 None) /\
  SendDataRequestPacket.content_type_setter (Some s) p
  = (Ok (), SendDataRequestPacket.mk bytes API_MODE 3 (Some [97%N]) (Some s)
              0 MEMBER_0 None) /\
  SendDataRequestPacket.__init__ 3 (Some s) (Some s) MEMBER_0 (@None bytes)
    API_MODE
  = Ok (SendDataRequestPacket.mk bytes API_MODE 3 (Some s) (Some s) 0
          MEMBER_0 None).
Proof. repeat apply conj; vm_compute; reflexivity. Qed.

(** C6 fails as stated: a target, a path and a content type with a length
    prefix of 0 decode to the empty string, which is not the absent
    state. *)
Lemma zero_length_prefix_counterexample :
  (let body := [xb9; x01; x00; x00; x00; x05] in
   carries DEVICE_REQUEST (wrap body) body /\
   DeviceRequestPacket.create_packet (wrap body) API_MODE
   = Ok (DeviceRequestPacket.mk bytes API_MODE 1 0 0 (Some []) (Some [x05])) /\
   DeviceRequestPacket.target <$>
     DeviceRequestPacket.create_packet (wrap body) API_MODE ≠ Ok None) /\
  (let body := [x28; x03; x00; x00; x00; x00; x05] in
   carries SEND_DATA_REQUEST (wrap body) body /\
   SendDataRequestPacket.create_packet (wrap body) API_MODE
   = Ok (SendDataRequestPacket.mk bytes API_MODE 3 (Some []) (Some []) 0
           MEMBER_0 (Some [x05])) /\
   SendDataRequestPacket.path <$>
     SendDataRequestPacket.create_packet (wrap body) API_MODE ≠ Ok None /\
   SendDataRequestPacket.content_type <$>
     SendDataRequestPacket.create_packet (wrap body) API_MODE ≠ Ok None).
Proof.
  repeat apply conj; try (vm_compute; reflexivity); vm_compute; discriminate.
Qed.

Ltac ascii := unfold is_ascii; repeat (constructor; [reflexivity|]); constructor.

Ltac run_round_trip H :=
  let p := fresh "p" in
  let body := fresh "body" in
  let Hp := fresh "Hp" in
  let Hb := fresh "Hb" in
  let Hdec := fresh "Hdec" in
  destruct H as (p & body & Hp & Hb & Hdec);
  exists p, body;
  split; [exact Hp|]; split; [exact Hb|];
  vm_compute in Hp; injection Hp as <-;
  vm_compute in Hb; injection Hb as <-;
  match goal with
  | |- ?C /\ _ =>
      let Hc := fresh "Hc" in
      assert (Hc : C) by (split; vm_compute; reflexivity);
      split; [exact Hc|]; exact (Hdec _ supported_API_MODE Hc)
  end.

(** One packet of each kind through the round trip, the SendDataRequest
    being the one of the spec: frame id 3, path "a.txt", content type
    "text/plain", payload 01 02. *)
Lemma round_trip_witness :
  int_to_bytes_one_byte /\
  (exists p body,
     DeviceRequestPacket.__init__ 1 (Some [97; 98]%N) (Some [x05]) API_MODE
     = Ok p /\
     encode (DeviceRequest p) = Ok body /\
     carries DEVICE_REQUEST (wrap body) body /\
     decode DEVICE_REQUEST (wrap body) API_MODE = Ok (DeviceRequest p)) /\
  (exists p body,
     DeviceResponsePacket.__init__ 7 1 (Some [x05; x06]) API_MODE = Ok p /\
     encode (DeviceResponse p) = Ok body /\
     carries DEVICE_RESPONSE (wrap body) body /\
     decode DEVICE_RESPONSE (wrap body) API_MODE = Ok (DeviceResponse p)) /\
  (exists p body,
     DeviceResponseStatusPacket.__init__ 7 MEMBER_0 API_MODE = Ok p /\
     encode (DeviceResponseStatus p) = Ok body /\
     carries DEVICE_RESPONSE_STATUS (wrap body) body /\
     decode DEVICE_RESPONSE_STATUS (wrap body) API_MODE
     = Ok (DeviceResponseStatus p)) /\
  (exists p body,
     FrameErrorPacket.__init__ (UNRECOGNIZED xff) API_MODE = Ok p /\
     encode (FrameErrorP p) = Ok body /\
     carries FRAME_ERROR (wrap body) body /\
     decode FRAME_ERROR (wrap body) API_MODE = Ok (FrameErrorP p)) /\
  (exists p body,
     SendDataRequestPacket.__init__ 3 (Some [97; 46; 116; 120; 116]%N)
       (Some [116; 101; 120; 116; 47; 112; 108; 97; 105; 110]%N) MEMBER_0
       (Some [x01; x02]) API_MODE = Ok p /\
     encode (SendDataRequest p) = Ok body /\
     carries SEND_DATA_REQUEST (wrap body) body /\
     decode SEND_DATA_REQUEST (wrap body) API_MODE = Ok (SendDataRequest p)) /\
  (exists p body,
     SendDataResponsePacket.__init__ 255 MEMBER_1 API_MODE = Ok p /\
     encode (SendDataResponse p) = Ok body /\
     carries SEND_DATA_RESPONSE (wrap body) body /\
     decode SEND_DATA_RESPONSE (wrap body) API_MODE = Ok (SendDataResponse p)).
Proof.
  pose proof (@round_trip externals xbee_int_to_bytes_one_byte)
    as (H1 & H2 & H3 & H4 & H5 & H6).
  split; [exact xbee_int_to_bytes_one_byte|].
  split.
  { assert (Hr : 0 <= 1 <= 255) by lia.
    assert (Ha : is_ascii [97; 98]%N) by ascii.
    assert (Hl : (length [97; 98]%N <= 255)%nat) by (vm_compute; lia).
    assert (Hd : DeviceRequest_payload [97; 98]%N (Some [x05])) by discriminate.
    run_round_trip (H1 1 [97; 98]%N (Some [x05]) API_MODE Hr Ha Hl Hd). }
  split.
  { assert (Hf : 0 <= 7 <= 255) by lia.
    assert (Hr : 0 <= 1 <= 255) by lia.
    assert (Hd : DeviceResponse_payload (Some [x05; x06])) by discriminate.
    run_round_trip (H2 7 1 (Some [x05; x06]) API_MODE Hf Hr Hd). }
  split.
  { assert (Hf : 0 <= 7 <= 255) by lia.
    run_round_trip (H3 7 MEMBER_0 API_MODE Hf (xbee_registered x00)). }
  split.
  { run_round_trip (H4 (UNRECOGNIZED xff) API_MODE (xbee_registered xff)). }
  split.
  { assert (Hf : 0 <= 3 <= 255) by lia.
    assert (Hpa : is_ascii [97; 46; 116; 120; 116]%N) by ascii.
    assert (Hpl : (length [97; 46; 116; 120; 116]%N <= 255)%nat)
      by (vm_compute; lia).
    assert (Hca : is_ascii [116; 101; 120; 116; 47; 112; 108; 97; 105; 110]%N)
      by ascii.
    assert (Hcl : (length [116; 101; 120; 116; 47; 112; 108; 97; 105; 110]%N
                   <= 255)%nat) by (vm_compute; lia).
    run_round_trip (H5 3 [97; 46; 116; 120; 116]%N
                      [116; 101; 120; 116; 47; 112; 108; 97; 105; 110]%N
                      MEMBER_0 [x01; x02] API_MODE Hf Hpa Hpl Hca Hcl
                      (xbee_registered x00)). }
  { assert (Hf : 0 <= 255 <= 255) by lia.
    run_round_trip (H6 255 MEMBER_1 API_MODE Hf (xbee_registered x01)). }
Defined.

Ltac framed :=
  split; [left; reflexivity|split; [vm_compute; reflexivity|reflexivity]].

(** A target length of 10 with 3 bytes left. *)
Lemma declared_length_beyond_frame_witness :
  let raw := wrap [xb9; x01; x00; x00; x0a; x61; x62; x63] in
  well_framed DEVICE_REQUEST raw API_MODE /\
  raw !! 7%nat = Some x0a /\
  (length raw - 9 < byte_to_nat x0a)%nat /\
  exists rid,
    raw !! 4%nat = Some rid /\
    DeviceRequestPacket.create_packet raw API_MODE
    = (target ← utf8_decode (drop 8 raw);
       Ok (DeviceRequestPacket.mk bytes API_MODE (byte_to_Z rid) 0 0
             (Some target)
             (if decide (9 < length raw)%nat then Some [] else None))).
Proof.
  intros raw.
  assert (Hwf : well_framed DEVICE_REQUEST raw API_MODE) by framed.
  assert (H7 : raw !! 7%nat = Some x0a) by reflexivity.
  assert (Hlen : (length raw - 9 < byte_to_nat x0a)%nat) by (vm_compute; lia).
  split; [exact Hwf|]. split; [exact H7|]. split; [exact Hlen|].
  exact (proj1 (@declared_length_beyond_frame externals)
           raw API_MODE x0a Hwf H7 Hlen).
Defined.

(** Targets of 256 and of 255 letters "a". *)
Lemma text_length_validation_witness :
  let p := DeviceRequestPacket.mk bytes API_MODE 1 0 0 None None in
  let s256 := replicate 256 97%N in
  let s255 := replicate 255 97%N in
  (is_ascii s256 /\ utf8_encode s256 = Ok (byte_of_N <$> s256) /\
   length (byte_of_N <$> s256) = 256%nat /\
   DeviceRequestPacket.target_setter (Some s256) p
   = (Raise (ValueError TARGET_LENGTH), p)) /\
  (is_ascii s255 /\ utf8_encode s255 = Ok (byte_of_N <$> s255) /\
   length (byte_of_N <$> s255) = 255%nat /\
   DeviceRequestPacket.target_setter (Some s255) p
   = (Ok (), DeviceRequestPacket.mk bytes API_MODE 1 0 0 (Some s255) None)).
Proof.
  intros p s256 s255.
  assert (Ha : forall n, is_ascii (replicate n 97%N)).
  { intros n. unfold is_ascii. induction n; constructor; [reflexivity|done]. }
  assert (He6 : utf8_encode s256 = Ok (byte_of_N <$> s256))
    by (vm_compute; reflexivity).
  assert (He5 : utf8_encode s255 = Ok (byte_of_N <$> s255))
    by (vm_compute; reflexivity).
  assert (Hl6 : length (byte_of_N <$> s256) = 256%nat) by (vm_compute; reflexivity).
  assert (Hl5 : length (byte_of_N <$> s255) = 255%nat) by (vm_compute; reflexivity).
  split.
  - split; [exact (Ha 256%nat)|]. split; [exact He6|]. split; [exact Hl6|].
    exact (proj2 (proj1 (proj1 (@text_length_validation externals)
                           s256 _ (Ha 256%nat) He6) Hl6) bytes p).
  - split; [exact (Ha 255%nat)|]. split; [exact He5|]. split; [exact Hl5|].
    exact (proj2 (proj2 (proj1 (@text_length_validation externals)
                           s255 _ (Ha 255%nat) He5) Hl5) bytes p).
Defined.

(** The frame 7E 00 06 B9 01 00 00 01 61 E3: target "a", no payload
    bytes. *)
Lemma DeviceRequest_target_no_payload_witness :
  let raw := wrap [xb9; x01; x00; x00; x01; x61] in
  well_framed DEVICE_REQUEST raw API_MODE /\
  raw !! 7%nat = Some x01 /\
  (0 < byte_to_nat x01)%nat /\
  length raw = (9 + byte_to_nat x01)%nat /\
  utf8_decode (slice raw 8 (8 + byte_to_nat x01)) = Ok [97%N] /\
  exists rid,
    raw !! 4%nat = Some rid /\
    DeviceRequestPacket.create_packet raw API_MODE
    = Ok (DeviceRequestPacket.mk bytes API_MODE (byte_to_Z rid) 0 0
            (Some [97%N]) (Some [])) /\
    DeviceRequestPacket.__init__ (byte_to_Z rid) (Some [97%N]) None API_MODE
    = Ok (DeviceRequestPacket.mk bytes API_MODE (byte_to_Z rid) 0 0
            (Some [97%N]) None).
Proof.
  intros raw.
  assert (Hwf : well_framed DEVICE_REQUEST raw API_MODE) by framed.
  assert (H7 : raw !! 7%nat = Some x01) by reflexivity.
  assert (Htl : (0 < byte_to_nat x01)%nat) by (vm_compute; lia).
  assert (Hlen : length raw = (9 + byte_to_nat x01)%nat) by reflexivity.
  assert (Hdec : utf8_decode (slice raw 8 (8 + byte_to_nat x01)) = Ok [97%N])
    by (vm_compute; reflexivity).
  split; [exact Hwf|]. split; [exact H7|]. split; [exact Htl|].
  split; [exact Hlen|]. split; [exact Hdec|].
  exact (@DeviceRequest_target_no_payload_decodes_to_empty externals
           raw API_MODE x01 [97%N] Hwf H7 Htl Hlen Hdec).
Defined.

(** A DeviceRequest with a target length of 0 and the payload 05. *)
Lemma zero_length_prefix_witness :
  let raw := wrap [xb9; x01; x00; x00; x00; x05] in
  well_framed DEVICE_REQUEST raw API_MODE /\
  raw !! 7%nat = Some x00 /\
  exists rid,
    raw !! 4%nat = Some rid /\
    DeviceRequestPacket.create_packet raw API_MODE
    = Ok (DeviceRequestPacket.mk bytes API_MODE (byte_to_Z rid) 0 0 (Some [])
            (if decide (9 < length raw)%nat
             then Some (slice_to_last raw 8) else None)).
Proof.
  intros raw.
  assert (Hwf : well_framed DEVICE_REQUEST raw API_MODE) by framed.
  assert (H7 : raw !! 7%nat = Some x00) by reflexivity.
  split; [exact Hwf|]. split; [exact H7|].
  exact (proj1 (@zero_length_prefix_decodes_to_empty_text externals)
           raw API_MODE Hwf H7).
Defined.

(** The caller builds a DeviceRequestPacket from its bytearray 01 02 and
    then writes FF to the first byte of the bytearray. *)
Lemma constructor_shares_the_bytearray_witness :
  let σ := [[x01; x02]] in
  σ !! 0%nat = Some [x01; x02] /\
  DeviceRequestPacket.__init__ 1 (Some [97%N]) (Some 0%nat) API_MODE
  = Ok (DeviceRequestPacket.mk nat API_MODE 1 0 0 (Some [97%N]) (Some 0%nat)) /\
  exists r' σ',
    DeviceRequestPacket.request_data_getter
      (DeviceRequestPacket.mk nat API_MODE 1 0 0 (Some [97%N]) (Some 0%nat))
      (mutate σ 0 [xff; x02])
    = Some (Some r', σ') /\ σ' !! r' = Some [xff; x02].
Proof.
  intros σ.
  assert (Hr : σ !! 0%nat = Some [x01; x02]) by reflexivity.
  assert (Hp : DeviceRequestPacket.__init__ 1 (Some [97%N]) (Some 0%nat) API_MODE
               = Ok (DeviceRequestPacket.mk nat API_MODE 1 0 0 (Some [97%N])
                       (Some 0%nat))) by reflexivity.
  split; [exact Hr|]. split; [exact Hp|].
  exact (proj2 (proj1 (@constructor_shares_the_bytearray externals
                         σ 0%nat [x01; x02] [xff; x02] Hr) _ _ _ _ Hp)).
Defined.

(** The values 256, -1, 0 and 255 in constructors and setters. *)
Lemma id_range_validation_witness :
  (DeviceResponsePacket.__init__ 256 1 (@None bytes) API_MODE
   = Raise (ValueError FRAME_ID_RANGE) /\
   DeviceResponsePacket.__init__ 1 (-1) (@None bytes) API_MODE
   = Raise (ValueError REQUEST_ID_RANGE) /\
   DeviceRequestPacket.request_id_setter 256
     (DeviceRequestPacket.mk bytes API_MODE 1 0 0 None None)
   = (Raise (ValueError REQUEST_ID_RANGE),
      DeviceRequestPacket.mk bytes API_MODE 1 0 0 None None) /\
   SendDataResponsePacket.frame_id_set (-1)
     (SendDataResponsePacket.mk API_MODE 1 MEMBER_0)
   = (Raise (ValueError FRAME_ID_RANGE),
      SendDataResponsePacket.mk API_MODE 1 MEMBER_0)) /\
  (DeviceResponsePacket.__init__ 0 255 (@None bytes) API_MODE
   = Ok (DeviceResponsePacket.mk bytes API_MODE 0 255 None) /\
   DeviceRequestPacket.__init__ 255 (Some [97%N]) (@None bytes) API_MODE
   = Ok (DeviceRequestPacket.mk bytes API_MODE 255 0 0 (Some [97%N]) None) /\
   DeviceRequestPacket.request_id_setter 0
     (DeviceRequestPacket.mk bytes API_MODE 1 0 0 None None)
   = (Ok (), DeviceRequestPacket.mk bytes API_MODE 0 0 0 None None) /\
   SendDataResponsePacket.frame_id_set 255
     (SendDataResponsePacket.mk API_MODE 1 MEMBER_0)
   = (Ok (), SendDataResponsePacket.mk API_MODE 255 MEMBER_0)).
Proof.
  assert (H256 : 256 < 0 \/ 256 > 255) by lia.
  assert (Hm1 : -1 < 0 \/ -1 > 255) by lia.
  assert (H0 : 0 <= 0 <= 255) by lia.
  assert (H1 : 0 <= 1 <= 255) by lia.
  assert (H255 : 0 <= 255 <= 255) by lia.
  pose proof (proj1 (@id_range_validation externals 256) H256)
    as (_ & A2 & A3 & _).
  pose proof (proj1 (@id_range_validation externals (-1)) Hm1)
    as (_ & _ & _ & B4 & _ & _ & _ & _ & _ & _ & _ & B12).
  pose proof (proj2 (@id_range_validation externals 0) H0)
    as (_ & C2 & C3 & _).
  pose proof (proj2 (@id_range_validation externals 255) H255)
    as (D1 & _ & _ & _ & _ & _ & _ & _ & _ & _ & _ & D12).
  split; [split; [|split; [|split]]|split; [|split; [|split]]].
  - exact (A3 bytes 1 None API_MODE).
  - exact (B4 bytes 1 None API_MODE H1).
  - exact (A2 bytes _).
  - exact (B12 _).
  - exact (C3 bytes 255 None API_MODE H255).
  - exact (D1 bytes (Some [97%N]) None API_MODE eq_refl).
  - exact (C2 bytes _).
  - exact (D12 _).
Defined.

(** A SendDataRequest frame that ends with its options byte. *)
Lemma SendDataRequest_file_data_present_witness :
  let raw := wrap [x28; x03; x01; x61; x01; x74; x00; x00] in
  well_framed SEND_DATA_REQUEST raw API_MODE /\
  length raw = (10 + byte_to_nat x01 + byte_to_nat x01)%nat /\
  (exists fid,
     raw !! 4%nat = Some fid /\
     SendDataRequestPacket.create_packet raw API_MODE
     = Ok (SendDataRequestPacket.mk bytes API_MODE (byte_to_Z fid)
             (Some [97%N]) (Some [116%N]) 0 (symbol_get x00) (Some []))) /\
  SendDataRequestPacket.file_data
    (SendDataRequestPacket.mk bytes API_MODE 3 (Some [97%N]) (Some [116%N]) 0
       MEMBER_0 None) = None.
Proof.
  intros raw.
  assert (Hwf : well_framed SEND_DATA_REQUEST raw API_MODE) by framed.
  assert (H5 : raw !! 5%nat = Some x01) by reflexivity.
  assert (H6 : raw !! (6 + byte_to_nat x01)%nat = Some x01) by reflexivity.
  assert (Hp : utf8_decode (slice raw 6 (6 + byte_to_nat x01)) = Ok [97%N])
    by (vm_compute; reflexivity).
  assert (Hc : utf8_decode (slice raw (7 + byte_to_nat x01)
                              (7 + byte_to_nat x01 + byte_to_nat x01))
               = Ok [116%N]) by (vm_compute; reflexivity).
  assert (Ho : raw !! (8 + byte_to_nat x01 + byte_to_nat x01)%nat = Some x00)
    by reflexivity.
  assert (Hlen : length raw = (10 + byte_to_nat x01 + byte_to_nat x01)%nat)
    by reflexivity.
  assert (Hi : SendDataRequestPacket.__init__ 3 (Some [97%N]) (Some [116%N])
                 MEMBER_0 (@None bytes) API_MODE
               = Ok (SendDataRequestPacket.mk bytes API_MODE 3 (Some [97%N])
                       (Some [116%N]) 0 MEMBER_0 None)) by reflexivity.
  pose proof (@SendDataRequest_decodes_file_data_present externals)
    as (_ & T2 & T3 & _).
  split; [exact Hwf|]. split; [exact Hlen|]. split.
  - exact (T2 raw API_MODE x01 x01 _ _ x00 Hwf H5 H6 Hp Hc Ho Hlen).
  - exact (T3 _ _ _ _ _ _ Hi).
Defined.

(** The minimum lengths are attained: for each kind, frame data of exactly
    the minimum length decodes. *)
Lemma minimum_body_length_attained :
  decode DEVICE_REQUEST (wrap [xb9; x01; x00; x00; x00]) API_MODE
  = Ok (DeviceRequest (DeviceRequestPacket.mk bytes API_MODE 1 0 0 (Some []) None)) /\
  decode DEVICE_RESPONSE (wrap [x2a; x07; x01; x00]) API_MODE
  = Ok (DeviceResponse (DeviceResponsePacket.mk bytes API_MODE 7 1 None)) /\
  decode DEVICE_RESPONSE_STATUS (wrap [xba; x07; x00]) API_MODE
  = Ok (DeviceResponseStatus (DeviceResponseStatusPacket.mk API_MODE 7 MEMBER_0)) /\
  decode FRAME_ERROR (wrap [xfe; x02]) API_MODE
  = Ok (FrameErrorP (FrameErrorPacket.mk API_MODE (UNRECOGNIZED x02))) /\
  decode SEND_DATA_REQUEST (wrap [x28; x03; x00; x00; x00; x00]) API_MODE
  = Ok (SendDataRequest
          (SendDataRequestPacket.mk bytes API_MODE 3 (Some []) (Some []) 0
             MEMBER_0 (Some []))) /\
  decode SEND_DATA_RESPONSE (wrap [xb8; x07; x01]) API_MODE
  = Ok (SendDataResponse (SendDataResponsePacket.mk API_MODE 7 MEMBER_1)).
Proof. repeat apply conj; vm_compute; reflexivity. Qed.

(** ** Further properties on concrete frames *)


Ltac carried := split; vm_compute; reflexivity.

(** A DeviceResponse frame of the minimum length decodes. *)
Lemma fixed_layout_decode_succeeds_witness :
  (DEVICE_RESPONSE = DEVICE_RESPONSE \/ DEVICE_RESPONSE = DEVICE_RESPONSE_STATUS \/
   DEVICE_RESPONSE = FRAME_ERROR \/ DEVICE_RESPONSE = SEND_DATA_RESPONSE) /\
  well_framed DEVICE_RESPONSE (wrap [x2a; x07; x01; x00]) API_MODE /\
  exists p, decode DEVICE_RESPONSE (wrap [x2a; x07; x01; x00]) API_MODE = Ok p.
Proof.
  assert (Hft : DEVICE_RESPONSE = DEVICE_RESPONSE \/
                DEVICE_RESPONSE = DEVICE_RESPONSE_STATUS \/
                DEVICE_RESPONSE = FRAME_ERROR \/
                DEVICE_RESPONSE = SEND_DATA_RESPONSE) by (left; reflexivity).
  assert (Hwf : well_framed DEVICE_RESPONSE (wrap [x2a; x07; x01; x00]) API_MODE)
    by framed.
  split; [exact Hft|]. split; [exact Hwf|].
  exact (proj2 (@fixed_layout_decode_succeeds_iff externals
                  DEVICE_RESPONSE (wrap [x2a; x07; x01; x00]) API_MODE Hft) Hwf).
Defined.

(** A DeviceRequest whose one target byte is the first half of a two-byte
    character. *)
Lemma decode_exceptions_witness :
  decode DEVICE_REQUEST (wrap [xb9; x01; x00; x00; x01; xc3]) API_MODE
  = Raise UnicodeDecodeError /\
  ((~ supported API_MODE /\
    UnicodeDecodeError = InvalidOperatingModeException API_MODE) \/
   (supported API_MODE /\
    ~ well_framed DEVICE_REQUEST (wrap [xb9; x01; x00; x00; x01; xc3]) API_MODE /\
    exists why, UnicodeDecodeError = InvalidPacketException why) \/
   (well_framed DEVICE_REQUEST (wrap [xb9; x01; x00; x00; x01; xc3]) API_MODE /\
    UnicodeDecodeError = UnicodeDecodeError /\
    (DEVICE_REQUEST = DEVICE_REQUEST \/ DEVICE_REQUEST = SEND_DATA_REQUEST)) \/
   (well_framed DEVICE_REQUEST (wrap [xb9; x01; x00; x00; x01; xc3]) API_MODE /\
    UnicodeDecodeError = IndexError /\ DEVICE_REQUEST = SEND_DATA_REQUEST)).
Proof.
  assert (He : decode DEVICE_REQUEST (wrap [xb9; x01; x00; x00; x01; xc3]) API_MODE
               = Raise UnicodeDecodeError) by (vm_compute; reflexivity).
  split; [exact He|].
  exact (@decode_exceptions externals DEVICE_REQUEST
           (wrap [xb9; x01; x00; x00; x01; xc3]) API_MODE UnicodeDecodeError He).
Defined.

(** Transport 05 and flags 06 in the frame, target "ab", payload 09. *)
Lemma DeviceRequest_decodes_its_layout_witness :
  supported API_MODE /\
  carries DEVICE_REQUEST (wrap [xb9; x01; x05; x06; x02; x61; x62; x09])
    (aft_code DEVICE_REQUEST :: x01 :: x05 :: x06 :: x02 :: [x61; x62] ++ [x09]) /\
  length [x61; x62] = byte_to_nat x02 /\
  DeviceRequestPacket.create_packet
    (wrap [xb9; x01; x05; x06; x02; x61; x62; x09]) API_MODE
  = (target ← utf8_decode [x61; x62];
     Ok (DeviceRequestPacket.mk bytes API_MODE (byte_to_Z x01) 0 0 (Some target)
           (match [x61; x62] ++ [x09] with [] => None | _ => Some [x09] end))).
Proof.
  assert (Hc : carries DEVICE_REQUEST
                 (wrap [xb9; x01; x05; x06; x02; x61; x62; x09])
                 (aft_code DEVICE_REQUEST :: x01 :: x05 :: x06 :: x02
                    :: [x61; x62] ++ [x09])) by carried.
  assert (Hl : length [x61; x62] = byte_to_nat x02) by reflexivity.
  split; [exact supported_API_MODE|]. split; [exact Hc|]. split; [exact Hl|].
  exact (@DeviceRequest_decodes_its_layout externals _ API_MODE
           x01 x05 x06 x02 [x61; x62] [x09] supported_API_MODE Hc Hl).
Defined.

(** Path "a", content type "t", transport byte 09, options code 02, file
    data 05. *)
Lemma SendDataRequest_decodes_its_layout_witness :
  supported API_MODE /\
  carries SEND_DATA_REQUEST (wrap [x28; x03; x01; x61; x01; x74; x09; x02; x05])
    (aft_code SEND_DATA_REQUEST
       :: x03 :: x01 :: [x61] ++ x01 :: [x74] ++ x09 :: x02 :: [x05]) /\
  length [x61] = byte_to_nat x01 /\ length [x74] = byte_to_nat x01 /\
  SendDataRequestPacket.create_packet
    (wrap [x28; x03; x01; x61; x01; x74; x09; x02; x05]) API_MODE
  = (path ← utf8_decode [x61];
     content_type ← utf8_decode [x74];
     Ok (SendDataRequestPacket.mk bytes API_MODE (byte_to_Z x03) (Some path)
           (Some content_type) 0 (SendDataRequestOptions_get x02) (Some [x05]))).
Proof.
  assert (Hc : carries SEND_DATA_REQUEST
                 (wrap [x28; x03; x01; x61; x01; x74; x09; x02; x05])
                 (aft_code SEND_DATA_REQUEST
                    :: x03 :: x01 :: [x61] ++ x01 :: [x74] ++ x09 :: x02 :: [x05]))
    by carried.
  assert (Hp : length [x61] = byte_to_nat x01) by reflexivity.
  assert (Hct : length [x74] = byte_to_nat x01) by reflexivity.
  split; [exact supported_API_MODE|]. split; [exact Hc|].
  split; [exact Hp|]. split; [exact Hct|].
  exact (@SendDataRequest_decodes_its_layout externals _ API_MODE
           x03 x01 x01 x09 x02 [x61] [x74] [x05] supported_API_MODE Hc Hp Hct).
Defined.

(** A FrameError frame with two bytes after the error code. *)
Lemma fixed_kinds_decode_their_layout_witness :
  supported API_MODE /\
  carries FRAME_ERROR (wrap [xfe; x02; x11; x22])
    (aft_code FRAME_ERROR :: x02 :: [x11; x22]) /\
  FrameErrorPacket.create_packet (wrap [xfe; x02; x11; x22]) API_MODE
  = Ok (FrameErrorPacket.mk API_MODE (FrameError_get x02)).
Proof.
  assert (Hc : carries FRAME_ERROR (wrap [xfe; x02; x11; x22])
                 (aft_code FRAME_ERROR :: x02 :: [x11; x22])) by carried.
  split; [exact supported_API_MODE|]. split; [exact Hc|].
  exact (proj2 (proj2 (proj2 (@fixed_kinds_decode_their_layout externals)))
           _ API_MODE x02 [x11; x22] supported_API_MODE Hc).
Defined.



(** A decoded DeviceRequest, then its target set to 256 letters "a". *)
Lemma ranges_are_kept_witness :
  DeviceRequestPacket.create_packet (wrap [xb9; x01; x00; x00; x01; x61]) API_MODE
  = Ok (DeviceRequestPacket.mk bytes API_MODE 1 0 0 (Some [97%N]) (Some [])) /\
  DeviceRequestPacket_valid
    (DeviceRequestPacket.mk bytes API_MODE 1 0 0 (Some [97%N]) (Some [])) /\
  DeviceRequestPacket_valid
    (DeviceRequestPacket.target_setter (Some (replicate 256 97%N))
       (DeviceRequestPacket.mk bytes API_MODE 1 0 0 (Some [97%N]) (Some []))).2.
Proof.
  assert (Hp : DeviceRequestPacket.create_packet
                 (wrap [xb9; x01; x00; x00; x01; x61]) API_MODE
               = Ok (DeviceRequestPacket.mk bytes API_MODE 1 0 0 (Some [97%N])
                       (Some []))) by (vm_compute; reflexivity).
  pose proof (proj1 (@ranges_are_kept externals)) as (_ & Hdec & _ & Hset & _).
  pose proof (Hdec _ _ _ Hp) as Hv.
  split; [exact Hp|]. split; [exact Hv|].
  exact (Hset bytes (Some (replicate 256 97%N)) _ Hv).
Defined.

(** Setting the request id of a constructed DeviceRequest to 256 and to 7. *)
Lemma setters_validate_like_constructors_witness :
  DeviceRequestPacket.__init__ 1 (Some [97%N]) (@None bytes) API_MODE
  = Ok (DeviceRequestPacket.mk bytes API_MODE 1 0 0 (Some [97%N]) None) /\
  match DeviceRequestPacket.request_id_setter 256
          (DeviceRequestPacket.mk bytes API_MODE 1 0 0 (Some [97%N]) None) with
  | (Ok _, p') =>
      DeviceRequestPacket.__init__ 256 (Some [97%N]) (@None bytes) API_MODE = Ok p'
  | (Raise e, p') =>
      p' = DeviceRequestPacket.mk bytes API_MODE 1 0 0 (Some [97%N]) None /\
      DeviceRequestPacket.__init__ 256 (Some [97%N]) (@None bytes) API_MODE = Raise e
  end /\
  match DeviceRequestPacket.request_id_setter 7
          (DeviceRequestPacket.mk bytes API_MODE 1 0 0 (Some [97%N]) None) with
  | (Ok _, p') =>
      DeviceRequestPacket.__init__ 7 (Some [97%N]) (@None bytes) API_MODE = Ok p'
  | (Raise e, p') =>
      p' = DeviceRequestPacket.mk bytes API_MODE 1 0 0 (Some [97%N]) None /\
      DeviceRequestPacket.__init__ 7 (Some [97%N]) (@None bytes) API_MODE = Raise e
  end.
Proof.
  assert (Hp : DeviceRequestPacket.__init__ 1 (Some [97%N]) (@None bytes) API_MODE
               = Ok (DeviceRequestPacket.mk bytes API_MODE 1 0 0 (Some [97%N])
                       None)) by reflexivity.
  pose proof (proj1 (@setters_validate_like_constructors externals)) as Hset.
  split; [exact Hp|]. split.
  - exact (Hset bytes 1 (Some [97%N]) None API_MODE _ 256 Hp).
  - exact (Hset bytes 1 (Some [97%N]) None API_MODE _ 7 Hp).
Defined.

(** The caller's bytearray 01 02 is object 0 of the store. *)
Lemma payload_set_then_get_witness :
  [[x01; x02]] !! 0%nat = Some [x01; x02] /\
  exists p σ1 r2 σ2,
    DeviceRequestPacket.request_data_setter (Some 0%nat)
      (DeviceRequestPacket.mk nat API_MODE 1 0 0 None None) [[x01; x02]]
    = Some (p, σ1) /\
    DeviceRequestPacket.request_data_getter p σ1 = Some (Some r2, σ2) /\
    σ2 !! r2 = Some [x01; x02] /\ r2 ≠ 0%nat.
Proof.
  assert (Hr : [[x01; x02]] !! 0%nat = Some [x01; x02]) by reflexivity.
  split; [exact Hr|].
  destruct (proj1 (@payload_set_then_get externals [[x01; x02]] 0%nat
                     [x01; x02] Hr)
              (DeviceRequestPacket.mk nat API_MODE 1 0 0 None None))
    as (p & σ1 & r2 & σ2 & Hset & Hget & Hv & Hne & _).
  exists p, σ1, r2, σ2. split; [exact Hset|]. split; [exact Hget|].
  split; [exact Hv|exact Hne].
Defined.

(** A DeviceRequest with target "ab" and no request data: 7 bytes. *)
Lemma encoded_body_reaches_the_minimum_witness :
  int_to_bytes_one_byte /\
  DeviceRequestPacket.__init__ 1 (Some [97; 98]%N) None API_MODE
  = Ok (DeviceRequestPacket.mk bytes API_MODE 1 0 0 (Some [97; 98]%N) None) /\
  DeviceRequestPacket.frame_spec_data
    (DeviceRequestPacket.mk bytes API_MODE 1 0 0 (Some [97; 98]%N) None)
  = Ok [xb9; x01; x00; x00; x02; x61; x62] /\
  (min_body_length DEVICE_REQUEST <= length [xb9; x01; x00; x00; x02; x61; x62])%nat.
Proof.
  assert (Hp : DeviceRequestPacket.__init__ 1 (Some [97; 98]%N) None API_MODE
               = Ok (DeviceRequestPacket.mk bytes API_MODE 1 0 0
                       (Some [97; 98]%N) None)) by reflexivity.
  assert (Hb : DeviceRequestPacket.frame_spec_data
                 (DeviceRequestPacket.mk bytes API_MODE 1 0 0 (Some [97; 98]%N)
                    None)
               = Ok [xb9; x01; x00; x00; x02; x61; x62])
    by (vm_compute; reflexivity).
  split; [exact xbee_int_to_bytes_one_byte|]. split; [exact Hp|].
  split; [exact Hb|].
  exact (proj1 (@encoded_body_reaches_the_minimum externals
                  xbee_int_to_bytes_one_byte) _ _ _ _ _ _ Hp Hb).
Defined.

(** The target is the one character U+00E9, two bytes C3 A9 in UTF-8: the
    length byte is 1, the target read back is cut after C3 and decoding
    fails. *)
Lemma DeviceRequest_prefix_counts_characters_witness :
  int_to_bytes_one_byte /\ 0 <= 1 <= 255 /\ (length [233%N] <= 255)%nat /\
  utf8_encode [233%N] = Ok [xc3; xa9] /\
  exists p body,
    DeviceRequestPacket.__init__ 1 (Some [233%N]) (Some [x05]) API_MODE = Ok p /\
    DeviceRequestPacket.frame_spec_data p = Ok body /\
    body !! 4%nat = Some x01 /\
    carries DEVICE_REQUEST (wrap body) body /\
    DeviceRequestPacket.create_packet (wrap body) API_MODE
    = Raise UnicodeDecodeError.
Proof.
  assert (Hr : 0 <= 1 <= 255) by lia.
  assert (Hl : (length [233%N] <= 255)%nat) by (vm_compute; lia).
  assert (He : utf8_encode [233%N] = Ok [xc3; xa9]) by (vm_compute; reflexivity).
  split; [exact xbee_int_to_bytes_one_byte|]. split; [exact Hr|].
  split; [exact Hl|]. split; [exact He|].
  destruct (@DeviceRequest_prefix_counts_characters externals
              xbee_int_to_bytes_one_byte 1 [233%N] (Some [x05]) API_MODE
              [xc3; xa9] Hr Hl He) as (p & body & Hp & Hb & H4 & Hdec).
  exists p, body. split; [exact Hp|]. split; [exact Hb|].
  split; [exact H4|].
  vm_compute in Hp. injection Hp as <-.
  vm_compute in Hb. injection Hb as <-.
  assert (Hc : carries DEVICE_REQUEST
                 (wrap [xb9; x01; x00; x00; x01; xc3; xa9; x05])
                 [xb9; x01; x00; x00; x01; xc3; xa9; x05]) by carried.
  split; [exact Hc|].
  rewrite (Hdec _ supported_API_MODE Hc). vm_compute. reflexivity.
Defined.

(** Two DeviceRequest packets that differ in the operating mode only. *)
Lemma equal_dictionaries_encode_equally_witness :
  DeviceRequestPacket_spec_data_dict
    (DeviceRequestPacket.mk bytes API_MODE 1 0 0 (Some [97%N]) (Some []))
  = DeviceRequestPacket_spec_data_dict
      (DeviceRequestPacket.mk bytes ESCAPED_API_MODE 1 0 0 (Some [97%N]) (Some [])) /\
  DeviceRequestPacket._get_api_packet_spec_data
    (DeviceRequestPacket.mk bytes API_MODE 1 0 0 (Some [97%N]) (Some []))
  = DeviceRequestPacket._get_api_packet_spec_data
      (DeviceRequestPacket.mk bytes ESCAPED_API_MODE 1 0 0 (Some [97%N]) (Some [])).
Proof.
  assert (Hd : DeviceRequestPacket_spec_data_dict
                 (DeviceRequestPacket.mk bytes API_MODE 1 0 0 (Some [97%N])
                    (Some []))
               = DeviceRequestPacket_spec_data_dict
                   (DeviceRequestPacket.mk bytes ESCAPED_API_MODE 1 0 0
                      (Some [97%N]) (Some []))) by reflexivity.
  split; [exact Hd|].
  exact (proj1 (@equal_dictionaries_encode_equally externals) _ _ Hd).
Defined.

(** A SendDataRequest with an empty path and no content type: both lengths
    are shown and written as 0. *)
Lemma SendDataRequest_dictionary_lengths_witness :
  SendDataRequestPacket._get_api_packet_spec_data
    (SendDataRequestPacket.mk bytes API_MODE 3 (Some []) None 0 MEMBER_1
       (Some [x05]))
  = Ok [x00; x00; x00; x01; x05] /\
  exists (pl cl : Z) (pb cb : bytes),
    dict_get PATH_LENGTH
      (SendDataRequestPacket_spec_data_dict
         (SendDataRequestPacket.mk bytes API_MODE 3 (Some []) None 0 MEMBER_1
            (Some [x05])))
    = Some (V_int pl) /\
    dict_get CONTENT_TYPE_LENGTH
      (SendDataRequestPacket_spec_data_dict
         (SendDataRequestPacket.mk bytes API_MODE 3 (Some []) None 0 MEMBER_1
            (Some [x05])))
    = Some (V_int cl) /\
    [x00; x00; x00; x01; x05]
    = int_to_bytes pl 1 ++ pb ++ int_to_bytes cl 1 ++ cb
      ++ int_to_bytes 0 1 ++ int_to_bytes (symbol_code MEMBER_1) 1 ++ [x05].
Proof.
  assert (Hd : SendDataRequestPacket._get_api_packet_spec_data
                 (SendDataRequestPacket.mk bytes API_MODE 3 (Some []) None 0
                    MEMBER_1 (Some [x05]))
               = Ok [x00; x00; x00; x01; x05]) by (vm_compute; reflexivity).
  split; [exact Hd|].
  destruct (@SendDataRequest_dictionary_lengths_are_encoded externals _ _ Hd)
    as (pl & cl & pb & cb & Hpl & Hcl & _ & _ & Hdata).
  exists pl, cl, pb, cb. split; [exact Hpl|]. split; [exact Hcl|exact Hdata].
Defined.

(** An unsupported mode and the empty bytearray. *)
Lemma decoded_packets_record_the_mode_witness :
  ~ supported (OTHER_MODE 0) /\
  decode FRAME_ERROR [] (OTHER_MODE 0)
  = Raise (InvalidOperatingModeException (OTHER_MODE 0)).
Proof.
  assert (Hm : ~ supported (OTHER_MODE 0)) by (intros [Hm|Hm]; discriminate Hm).
  split; [exact Hm|].
  exact (proj1 (@decoded_packets_record_the_mode externals FRAME_ERROR []
                  (OTHER_MODE 0)) Hm).
Defined.

(** A DeviceResponseStatus frame is refused as a SendDataResponse. *)
Lemma kinds_are_told_apart_witness :
  aft_code DEVICE_RESPONSE_STATUS ≠ aft_code SEND_DATA_RESPONSE /\
  decode DEVICE_RESPONSE_STATUS (wrap [xba; x07; x00]) API_MODE
  = Ok (DeviceResponseStatus (DeviceResponseStatusPacket.mk API_MODE 7 MEMBER_0)) /\
  exists why,
    decode SEND_DATA_RESPONSE (wrap [xba; x07; x00]) API_MODE
    = Raise (InvalidPacketException why).
Proof.
  assert (Hne : aft_code DEVICE_RESPONSE_STATUS ≠ aft_code SEND_DATA_RESPONSE)
    by (vm_compute; discriminate).
  assert (Hp : decode DEVICE_RESPONSE_STATUS (wrap [xba; x07; x00]) API_MODE
               = Ok (DeviceResponseStatus
                       (DeviceResponseStatusPacket.mk API_MODE 7 MEMBER_0)))
    by (vm_compute; reflexivity).
  split; [exact Hne|]. split; [exact Hp|].
  exact (@kinds_are_told_apart externals DEVICE_RESPONSE_STATUS
           SEND_DATA_RESPONSE _ API_MODE _ Hne Hp).
Defined.
End OnFrames.
